(** * Expense tracker backend: recurring-due evaluator, analytics aggregator,
      budgets and recurring-expense updates

    A shallow embedding of [backend/app/routers/recurring.py],
    [backend/app/routers/analytics.py], [backend/app/routers/budgets.py],
    [backend/app/models.py] and [backend/app/schemas.py].

    Conventions of the embedding.
    - A Python [float] is an IEEE-754 binary64 number: Rocq's primitive [float].
    - A Python [datetime] (naive, as [datetime.utcnow()] returns it) is its
      position on the proleptic Gregorian time line, in microseconds; the
      calendar fields are read back with CPython's [_ord2ymd].
    - A table is the list of its rows in row-id order; a handler takes the
      table(s) it touches and returns its response together with the new
      table(s).  An [HTTPException] is a value of the error side of a sum.
    - No query of the program has an [ORDER BY]: the order in which a query
      returns its rows is the database's choice (SQLite walks an index where
      one fits the filter, so the owner's budgets come in category order and
      a date-filtered query may come in date order).  A reading handler below
      walks the list it is given from left to right; what is proved of it
      holds for every list, hence for the rows in the order the database
      returns them, and a statement that relates two queries, or the answers
      of one query in two states, is made up to the order of the rows.
    - The ORM bookkeeping columns [created_at] / [updated_at] are left out:
      no handler below reads them. *)

From Stdlib Require Import ZArith List String Ascii Bool Lia Floats.
From Stdlib Require Import Permutation.
Import ListNotations.
Local Open Scope Z_scope.

(* ================================================================== *)
(** * Python's [datetime] and [timedelta]                              *)
(* ================================================================== *)

Module PyDatetime.

(** CPython, [Lib/_pydatetime.py]:  [_DAYS_IN_MONTH], [_DAYS_BEFORE_MONTH]
    (index 0 is a placeholder, -1). *)
Definition DAYS_IN_MONTH : list Z :=
  [-1; 31; 28; 31; 30; 31; 30; 31; 31; 30; 31; 30; 31].
Definition DAYS_BEFORE_MONTH : list Z :=
  [-1; 0; 31; 59; 90; 120; 151; 181; 212; 243; 273; 304; 334].

Definition table_at (t : list Z) (i : Z) : Z := nth (Z.to_nat i) t (-1).

(** [year % 4 == 0 and (year % 100 != 0 or year % 400 == 0)] *)
Definition is_leap (year : Z) : bool :=
  (year mod 4 =? 0) && (negb (year mod 100 =? 0) || (year mod 400 =? 0)).

(** [y = year - 1; return y*365 + y//4 - y//100 + y//400] *)
Definition days_before_year (year : Z) : Z :=
  let y := year - 1 in y * 365 + y / 4 - y / 100 + y / 400.

Definition days_in_month (year month : Z) : Z :=
  if (month =? 2) && is_leap year then 29 else table_at DAYS_IN_MONTH month.

Definition days_before_month (year month : Z) : Z :=
  table_at DAYS_BEFORE_MONTH month
  + (if (2 <? month) && is_leap year then 1 else 0).

Definition ymd2ord (year month day : Z) : Z :=
  days_before_year year + days_before_month year month + day.

Definition DI400Y : Z := 146097.
Definition DI100Y : Z := 36524.
Definition DI4Y : Z := 1461.
Definition MAXORDINAL : Z := 3652059.

(** [_ord2ymd]: ordinal (1 = 0001-01-01) to (year, month, day). *)
Definition ord2ymd (n : Z) : Z * Z * Z :=
  let n := n - 1 in
  let n400 := n / DI400Y in
  let n := n mod DI400Y in
  let year := n400 * 400 + 1 in
  let n100 := n / DI100Y in
  let n := n mod DI100Y in
  let n4 := n / DI4Y in
  let n := n mod DI4Y in
  let n1 := n / 365 in
  let n := n mod 365 in
  let year := year + (n100 * 100 + n4 * 4 + n1) in
  if (n1 =? 4) || (n100 =? 4) then (year - 1, 12, 31)
  else
    let leapyear := (n1 =? 3) && (negb (n4 =? 24) || (n100 =? 3)) in
    let month := Z.shiftr (n + 50) 5 in
    let preceding :=
      table_at DAYS_BEFORE_MONTH month
      + (if (2 <? month) && leapyear then 1 else 0) in
    if n <? preceding then
      let month := month - 1 in
      let preceding :=
        preceding
        - (table_at DAYS_IN_MONTH month
           + (if (month =? 2) && leapyear then 1 else 0)) in
      (year, month, n - preceding + 1)
    else (year, month, n - preceding + 1).

Definition US_PER_SECOND : Z := 1000000.
Definition US_PER_HOUR : Z := 3600 * US_PER_SECOND.
Definition US_PER_DAY : Z := 24 * US_PER_HOUR.

(** A [timedelta] is kept normalised by CPython as (days, seconds,
    microseconds) with [0 <= seconds < 86400] and [0 <= microseconds < 10^6];
    that triple is the mixed-radix form of one integer, the signed length in
    microseconds. *)
Record timedelta : Type := mk_timedelta { td_us : Z }.

Definition timedelta_days (d : Z) : timedelta := mk_timedelta (d * US_PER_DAY).
Definition timedelta_hours (h : Z) : timedelta := mk_timedelta (h * US_PER_HOUR).

(** The [.days] attribute: floor division, as [divmod] normalises. *)
Definition days (d : timedelta) : Z := td_us d / US_PER_DAY.

(** A [datetime]: [toordinal() * US_PER_DAY + time of day], in microseconds.
    Ordinal 1 is 0001-01-01. *)
Record datetime : Type := mk_datetime { ticks : Z }.

Definition toordinal (t : datetime) : Z := ticks t / US_PER_DAY.

Definition valid_datetime (t : datetime) : Prop :=
  1 <= toordinal t <= MAXORDINAL.

Definition year (t : datetime) : Z := fst (fst (ord2ymd (toordinal t))).
Definition month (t : datetime) : Z := snd (fst (ord2ymd (toordinal t))).
Definition day (t : datetime) : Z := snd (ord2ymd (toordinal t)).

(** The constructor [datetime(year, month, day, hour, minute, second,
    microsecond)], on field values the constructor accepts. *)
Definition datetime_of (y m d hh mi ss us : Z) : datetime :=
  mk_datetime (ymd2ord y m d * US_PER_DAY
               + ((hh * 60 + mi) * 60 + ss) * US_PER_SECOND + us).

(** [datetime - datetime]: the difference of the ordinals, of the seconds
    and of the microseconds, normalised. *)
Definition dt_diff (a b : datetime) : timedelta :=
  mk_timedelta (ticks a - ticks b).

(** [datetime + timedelta]; [None] stands for
    [OverflowError("result out of range")], raised unless
    [0 < delta.days <= _MAXORDINAL]. *)
Definition dt_add (a : datetime) (d : timedelta) : option datetime :=
  let r := mk_datetime (ticks a + td_us d) in
  if (0 <? toordinal r) && (toordinal r <=? MAXORDINAL) then Some r else None.

(** [datetime - timedelta] is [self + -other]. *)
Definition dt_sub (a : datetime) (d : timedelta) : option datetime :=
  dt_add a (mk_timedelta (- td_us d)).

Definition dt_leb (a b : datetime) : bool := ticks a <=? ticks b.
Definition dt_ltb (a b : datetime) : bool := ticks a <? ticks b.

(** [now.replace(day=1, hour=0, minute=0, second=0, microsecond=0)] *)
Definition replace_to_month_start (t : datetime) : datetime :=
  datetime_of (year t) (month t) 1 0 0 0 0.

Definition digit (n : Z) : ascii := ascii_of_nat (48 + Z.to_nat (n mod 10)).

(** [strftime("%Y-%m")]: the year, a dash, two digits of the month.  The
    year is printed by the C library's [%Y], which under glibc writes a year
    below 1000 without leading zeros: four digits from year 1000 on. *)
Definition strftime_Y_m (t : datetime) : string :=
  let y := year t in
  let m := month t in
  let month_part :=
    String "-"%char
      (String (digit (m / 10)) (String (digit m) EmptyString)) in
  let units := String (digit y) month_part in
  let tens := String (digit (y / 10)) units in
  let hundreds := String (digit (y / 100)) tens in
  let thousands := String (digit (y / 1000)) hundreds in
  if y <? 10 then units
  else if y <? 100 then tens
  else if y <? 1000 then hundreds
  else thousands.

End PyDatetime.
Import PyDatetime.

(* ================================================================== *)
(** * models.py / schemas.py                                           *)
(* ================================================================== *)

(** [class CategoryEnum(str, Enum)], in declaration order. *)
Inductive CategoryEnum : Type :=
  | FOOD | TRANSPORT | ENTERTAINMENT | UTILITIES | HEALTH | SHOPPING | OTHER.

(** Iterating the enum class yields its members in declaration order. *)
Definition CategoryEnum_members : list CategoryEnum :=
  [FOOD; TRANSPORT; ENTERTAINMENT; UTILITIES; HEALTH; SHOPPING; OTHER].

Definition CategoryEnum_eqb (a b : CategoryEnum) : bool :=
  match a, b with
  | FOOD, FOOD | TRANSPORT, TRANSPORT | ENTERTAINMENT, ENTERTAINMENT
  | UTILITIES, UTILITIES | HEALTH, HEALTH | SHOPPING, SHOPPING
  | OTHER, OTHER => true
  | _, _ => false
  end.

(** [class FrequencyEnum(str, Enum)] *)
Inductive FrequencyEnum : Type := DAILY | WEEKLY | MONTHLY | YEARLY.

Record Expense : Type := mk_Expense {
  id : Z;
  owner_id : Z;
  amount : float;
  category : CategoryEnum;
  description : option string;
  date : datetime;
  receipt_path : option string
}.

Record RecurringExpense : Type := mk_RecurringExpense {
  re_id : Z;
  re_owner_id : Z;
  re_amount : float;
  re_category : CategoryEnum;
  re_description : option string;
  re_frequency : FrequencyEnum;
  re_is_active : bool;
  re_last_generated : option datetime
}.

(* ================================================================== *)
(** * routers/recurring.py: the due check of [process_recurring_expenses] *)
(* ================================================================== *)

(** [datetime(1970, 1, 1)] *)
Definition EPOCH : datetime := datetime_of 1970 1 1 0 0 0 0.

(** The body of the loop of [process_recurring_expenses] that computes
    [should_generate] (lines 134-148). *)
Definition should_generate
    (frequency : FrequencyEnum) (last_generated : option datetime)
    (now : datetime) : bool :=
  let last_generated :=
    match last_generated with Some t => t | None => EPOCH end in
  match frequency with
  | DAILY => 1 <=? days (dt_diff now last_generated)
  | WEEKLY => 7 <=? days (dt_diff now last_generated)
  | MONTHLY =>
      negb (month now =? month last_generated)
      || negb (year now =? year last_generated)
  | YEARLY => negb (year now =? year last_generated)
  end.

(* ================================================================== *)
(** * Python floats: [/], [sum] and [round(x, 2)]                       *)
(* ================================================================== *)

(** What a handler body can raise. *)
Inductive py_exception : Type := OverflowError | ZeroDivisionError.

(** A computation that returns a value or raises. *)
Definition result (A : Type) : Type := (py_exception + A)%type.

Definition ret {A : Type} (a : A) : result A := inr a.
Definition raise {A : Type} (e : py_exception) : result A := inl e.
Definition bind {A B : Type} (m : result A) (k : A -> result B) : result B :=
  match m with inl e => inl e | inr a => k a end.

Notation "x <- m ;; k" := (bind m (fun x => k))
  (at level 61, m at next level, right associativity).

Module PyFloat.

Local Open Scope float_scope.

(** [a / b] on floats raises [ZeroDivisionError] when [b] is zero. *)
Definition py_div (a b : float) : result float :=
  if PrimFloat.eqb b 0 then raise ZeroDivisionError else ret (a / b).

(** The builtin [sum] over floats: starts from [0] and adds left to right
    (CPython up to 3.11; later versions add a compensation term, which the
    theorems below do not depend on). *)
Definition py_sum (l : list float) : float :=
  fold_left (fun acc x => acc + x) l 0.

Local Open Scope Z_scope.

(** [a / b] rounded to the nearest integer, ties to even ([0 <= a], [0 < b]). *)
Definition div_half_even (a b : Z) : Z :=
  let q := a / b in
  let r := a mod b in
  if 2 * r <? b then q
  else if b <? 2 * r then q + 1
  else if Z.even q then q else q + 1.

(** The double nearest to [n / 100] for an integer [n > 0]: the quotient is
    taken with 64 extra bits, a sticky bit records an inexact division, and
    [binary_normalize] rounds to 53 bits, ties to even. *)
Definition nearest_hundredth (n : Z) : spec_float :=
  let q := (n * 2 ^ 64) / 100 in
  let sticky := if (n * 2 ^ 64) mod 100 =? 0 then 0 else 1 in
  binary_normalize prec emax (2 * q + sticky) (-65) false.

(** [round(x, 2)] as CPython's [double_round] computes it: the exact value of
    [x] is rounded half-even to two decimals ([_Py_dg_dtoa], mode 3) and the
    decimal is read back as the nearest double ([_Py_dg_strtod]); NaN and
    the infinities round to themselves, the sign is kept. *)
Definition round2 (x : float) : float :=
  match Prim2SF x with
  | S754_finite s m e =>
      let n :=
        if 0 <=? e then Zpos m * 100 * 2 ^ e
        else div_half_even (Zpos m * 100) (2 ^ (- e)) in
      if n =? 0 then SF2Prim (S754_zero s)
      else
        let r := nearest_hundredth n in
        SF2Prim (if s then SFopp r else r)
  | _ => x
  end.

End PyFloat.
Import PyFloat.

(* ================================================================== *)
(** * routers/recurring.py: [process_recurring_expenses]                *)
(* ================================================================== *)

(** The next value of an integer primary key: one more than the largest. *)
Definition fresh_id (ids : list Z) : Z := 1 + fold_right Z.max 0 ids.

(** Truth value of an optional string: [None] and [""] are false. *)
Definition truthy (d : option string) : bool :=
  match d with
  | Some EmptyString | None => false
  | Some _ => true
  end.

(** How an f-string renders an optional string. *)
Definition format_value (d : option string) : string :=
  match d with Some s => s | None => "None"%string end.

(** [recurring.description or f"Recurring: {recurring.description}"] *)
Definition description_or_label (d : option string) : option string :=
  if truthy d then d
  else Some (String.append "Recurring: " (format_value d)).

(** [Expense(owner_id=..., amount=..., category=..., description=..., date=now)]
    as stored by [db.add] / [db.commit] in table [expenses]. *)
Definition new_expense
    (expenses : list Expense) (recurring : RecurringExpense) (now : datetime)
    : Expense :=
  {| id := fresh_id (map id expenses);
     owner_id := re_owner_id recurring;
     amount := re_amount recurring;
     category := re_category recurring;
     description := description_or_label (re_description recurring);
     date := now;
     receipt_path := None |}.

(** [recurring.last_generated = now] *)
Definition set_last_generated
    (r : RecurringExpense) (now : datetime) : RecurringExpense :=
  {| re_id := re_id r;
     re_owner_id := re_owner_id r;
     re_amount := re_amount r;
     re_category := re_category r;
     re_description := re_description r;
     re_frequency := re_frequency r;
     re_is_active := re_is_active r;
     re_last_generated := Some now |}.

(** A row is handled by the loop when the query selects it
    ([is_active == True]) and the due check fires. *)
Definition fires (now : datetime) (r : RecurringExpense) : bool :=
  re_is_active r
  && should_generate (re_frequency r) (re_last_generated r) now.

(** The loop of [process_recurring_expenses] over the rows of table
    [recurring_expenses], threading table [expenses] and [count]; returns the
    rows as they are after the loop, the new [expenses] table and [count]. *)
Fixpoint process_rows
    (now : datetime) (rows : list RecurringExpense)
    (expenses : list Expense) (count : Z)
    : list RecurringExpense * list Expense * Z :=
  match rows with
  | [] => ([], expenses, count)
  | recurring :: rest =>
      if fires now recurring then
        let e := new_expense expenses recurring now in
        let '(rest', expenses', count') :=
          process_rows now rest (expenses ++ [e]) (count + 1) in
        (set_last_generated recurring now :: rest', expenses', count')
      else
        let '(rest', expenses', count') :=
          process_rows now rest expenses count in
        (recurring :: rest', expenses', count')
  end.

(** [process_recurring_expenses], with [now = datetime.utcnow()] made a
    parameter; the third component is the ["count"] of the response. *)
Definition process_recurring_expenses
    (recurring_expenses : list RecurringExpense) (expenses : list Expense)
    (now : datetime) : list RecurringExpense * list Expense * Z :=
  process_rows now recurring_expenses expenses 0.

(* ================================================================== *)
(** * routers/analytics.py: [get_analytics_summary]                     *)
(* ================================================================== *)

Record CategorySummary : Type := mk_CategorySummary {
  cs_category : CategoryEnum;
  cs_total : float;
  cs_percentage : float;
  cs_count : Z
}.

Record MonthlySummary : Type := mk_MonthlySummary {
  ms_month : string;
  ms_total : float;
  ms_by_category : list CategorySummary
}.

Record AnalyticsSummary : Type := mk_AnalyticsSummary {
  total_spending : float;
  current_month_spending : float;
  by_category : list CategorySummary;
  monthly_trends : list MonthlySummary
}.

(** [defaultdict(lambda: {"total": 0, "count": 0})] keyed by category: the
    keys present and the ["total"] / ["count"] stored under each. *)
Definition spending_dict : Type := CategoryEnum -> option (float * Z).

Definition empty_dict : spending_dict := fun _ => None.

(** [d[c]["total"] += a; d[c]["count"] += 1]; a missing key is first
    created with total 0 and count 0. *)
Definition add_spending
    (d : spending_dict) (c : CategoryEnum) (a : float) : spending_dict :=
  let '(total, count) :=
    match d c with Some v => v | None => (0%float, 0) end in
  fun c' =>
    if CategoryEnum_eqb c' c then Some ((total + a)%float, count + 1)
    else d c'.

(** [for exp in expenses: ...] filling the dictionary. *)
Definition category_spending (expenses : list Expense) : spending_dict :=
  fold_left (fun d e => add_spending d (category e) (amount e))
            expenses empty_dict.

(** [(total / denominator * 100) if denominator > 0 else 0] *)
Definition percentage_of (total denominator : float) : result float :=
  if PrimFloat.ltb 0 denominator then
    q <- py_div total denominator ;; ret (q * 100)%float
  else ret 0%float.

(** [for category in CategoryEnum: if category in d: append(...)] *)
Fixpoint summarize_categories
    (members : list CategoryEnum) (d : spending_dict) (denominator : float)
    : result (list CategorySummary) :=
  match members with
  | [] => ret []
  | c :: members' =>
      match d c with
      | Some (total, count) =>
          percentage <- percentage_of total denominator ;;
          rest <- summarize_categories members' d denominator ;;
          ret ({| cs_category := c;
                  cs_total := round2 total;
                  cs_percentage := round2 percentage;
                  cs_count := count |} :: rest)
      | None => summarize_categories members' d denominator
      end
  end.

(** The per-category breakdown of a list of expenses against a denominator. *)
Definition breakdown
    (expenses : list Expense) (denominator : float)
    : result (list CategorySummary) :=
  summarize_categories CategoryEnum_members
    (category_spending expenses) denominator.

Definition lift_overflow {A : Type} (o : option A) : result A :=
  match o with Some a => ret a | None => raise OverflowError end.

Definition in_bucket (month_start month_end : datetime) (e : Expense) : bool :=
  dt_leb month_start (date e) && dt_ltb (date e) month_end.

(** One iteration of [for i in range(months)]. *)
Definition monthly_trend
    (expenses : list Expense) (now : datetime) (months i : Z)
    : result MonthlySummary :=
  let month_num := months - i in
  month_start <- lift_overflow (dt_sub now (timedelta_days (30 * month_num))) ;;
  month_end <- lift_overflow (dt_add month_start (timedelta_days 30)) ;;
  let month_expenses := filter (in_bucket month_start month_end) expenses in
  let month_total := py_sum (map amount month_expenses) in
  let month_str := strftime_Y_m month_start in
  month_by_category <- breakdown month_expenses month_total ;;
  ret {| ms_month := month_str;
         ms_total := round2 month_total;
         ms_by_category := month_by_category |}.

(** [range(n)] *)
Definition range (n : Z) : list Z := map Z.of_nat (seq 0 (Z.to_nat n)).

(** Run the loop body over the indices, appending each result. *)
Fixpoint for_each {A B : Type} (f : A -> result B) (l : list A)
    : result (list B) :=
  match l with
  | [] => ret []
  | a :: l' => b <- f a ;; bs <- for_each f l' ;; ret (b :: bs)
  end.

(** The query [Expense.owner_id == user_id, Expense.date >= start_date]. *)
Definition in_window (user_id : Z) (start_date : datetime) (e : Expense) : bool :=
  (owner_id e =? user_id) && dt_leb start_date (date e).

(** [get_analytics_summary], with table [expenses] and
    [now = datetime.utcnow()] made parameters.  The sums are taken over the
    queried rows in the order of [db_expenses], which stands for the order in
    which the query returns them. *)
Definition get_analytics_summary
    (db_expenses : list Expense) (user_id months : Z) (now : datetime)
    : result AnalyticsSummary :=
  start_date <- lift_overflow (dt_sub now (timedelta_days (30 * months))) ;;
  let expenses := filter (in_window user_id start_date) db_expenses in
  let total := py_sum (map amount expenses) in
  let month_start := replace_to_month_start now in
  let current_month_expenses :=
    filter (fun e => dt_leb month_start (date e)) expenses in
  let current_month := py_sum (map amount current_month_expenses) in
  categories <- breakdown expenses total ;;
  trends <- for_each (monthly_trend expenses now months) (range months) ;;
  ret {| total_spending := round2 total;
         current_month_spending := round2 current_month;
         by_category := categories;
         monthly_trends := trends |}.

(* ================================================================== *)
(** * Handlers that answer with an [HTTPException]                      *)
(* ================================================================== *)

Record HTTPException : Type := mk_HTTPException {
  status_code : Z;
  detail : string
}.

Definition HTTP_400_BAD_REQUEST : Z := 400.
Definition HTTP_404_NOT_FOUND : Z := 404.

(** Replace the first row that satisfies [p] by its image under [f]: what a
    [commit] writes back after the object returned by [.first()] was
    modified. *)
Fixpoint update_first {A : Type} (p : A -> bool) (f : A -> A) (l : list A)
    : list A :=
  match l with
  | [] => []
  | x :: l' => if p x then f x :: l' else x :: update_first p f l'
  end.

(** Drop the first row that satisfies [p]: [db.delete] of the object
    returned by [.first()]. *)
Fixpoint delete_first {A : Type} (p : A -> bool) (l : list A) : list A :=
  match l with
  | [] => []
  | x :: l' => if p x then l' else x :: delete_first p l'
  end.

(* ================================================================== *)
(** * routers/budgets.py                                                *)
(* ================================================================== *)

Module Budgets.

Record Budget : Type := mk_Budget {
  id : Z;
  owner_id : Z;
  category : CategoryEnum;
  monthly_limit : float
}.

(** [BudgetCreate]: [category], [monthly_limit]. *)
Record BudgetCreate : Type := mk_BudgetCreate {
  bc_category : CategoryEnum;
  bc_monthly_limit : float
}.

(** [BudgetUpdate]: [monthly_limit]. *)
Record BudgetUpdate : Type := mk_BudgetUpdate { bu_monthly_limit : float }.

(** [category.value] *)
Definition value (c : CategoryEnum) : string :=
  match c with
  | FOOD => "Food" | TRANSPORT => "Transport"
  | ENTERTAINMENT => "Entertainment" | UTILITIES => "Utilities"
  | HEALTH => "Health" | SHOPPING => "Shopping" | OTHER => "Other"
  end.

(** [and_(Budget.owner_id == user_id, Budget.category == category)] *)
Definition matches (user_id : Z) (c : CategoryEnum) (b : Budget) : bool :=
  (owner_id b =? user_id) && CategoryEnum_eqb (category b) c.

Definition create_budget
    (budgets : list Budget) (budget_data : BudgetCreate) (user_id : Z)
    : (HTTPException + Budget) * list Budget :=
  match find (matches user_id (bc_category budget_data)) budgets with
  | Some existing =>
      (inl {| status_code := HTTP_400_BAD_REQUEST;
              detail := String.append "Budget already exists for "
                                      (value (bc_category budget_data)) |},
       budgets)
  | None =>
      let db_budget :=
        {| id := fresh_id (map id budgets);
           owner_id := user_id;
           category := bc_category budget_data;
           monthly_limit := bc_monthly_limit budget_data |} in
      (inr db_budget, budgets ++ [db_budget])
  end.

Definition set_monthly_limit (limit : float) (b : Budget) : Budget :=
  {| id := id b; owner_id := owner_id b; category := category b;
     monthly_limit := limit |}.

Definition update_budget
    (budgets : list Budget) (c : CategoryEnum) (budget_data : BudgetUpdate)
    (user_id : Z) : (HTTPException + Budget) * list Budget :=
  match find (matches user_id c) budgets with
  | None =>
      (inl {| status_code := HTTP_404_NOT_FOUND;
              detail := "Budget not found" |}, budgets)
  | Some budget =>
      (inr (set_monthly_limit (bu_monthly_limit budget_data) budget),
       update_first (matches user_id c)
         (set_monthly_limit (bu_monthly_limit budget_data)) budgets)
  end.

Definition delete_budget
    (budgets : list Budget) (c : CategoryEnum) (user_id : Z)
    : (HTTPException + string) * list Budget :=
  match find (matches user_id c) budgets with
  | None =>
      (inl {| status_code := HTTP_404_NOT_FOUND;
              detail := "Budget not found" |}, budgets)
  | Some budget =>
      (inr "Budget deleted successfully"%string,
       delete_first (matches user_id c) budgets)
  end.

(** The three requests that write to table [budgets]. *)
Inductive request : Type :=
  | Create (user_id : Z) (budget_data : BudgetCreate)
  | Update (user_id : Z) (c : CategoryEnum) (budget_data : BudgetUpdate)
  | Delete (user_id : Z) (c : CategoryEnum).

(** The table after a request. *)
Definition serve (budgets : list Budget) (r : request) : list Budget :=
  match r with
  | Create u d => snd (create_budget budgets d u)
  | Update u c d => snd (update_budget budgets c d u)
  | Delete u c => snd (delete_budget budgets c u)
  end.

(** [UniqueConstraint("owner_id", "category")]: no two rows agree on both. *)
Definition key (b : Budget) : Z * CategoryEnum := (owner_id b, category b).

Definition unique_owner_category (budgets : list Budget) : Prop :=
  NoDup (map key budgets).

End Budgets.

(* ================================================================== *)
(** * routers/recurring.py: [update_recurring_expense]                  *)
(* ================================================================== *)

(** [RecurringExpenseUpdate]: every field optional. *)
Record RecurringExpenseUpdate : Type := mk_RecurringExpenseUpdate {
  ru_amount : option float;
  ru_category : option CategoryEnum;
  ru_description : option string;
  ru_frequency : option FrequencyEnum;
  ru_is_active : option bool
}.

(** [and_(RecurringExpense.id == recurring_id,
          RecurringExpense.owner_id == user_id)] *)
Definition addressed (recurring_id user_id : Z) (r : RecurringExpense) : bool :=
  (re_id r =? recurring_id) && (re_owner_id r =? user_id).

(** [if expense_data.f is not None: recurring.f = expense_data.f] *)
Definition assign {A : Type} (payload : option A) (old : A) : A :=
  match payload with Some v => v | None => old end.

(** The five guarded assignments of [update_recurring_expense]. *)
Definition apply_update
    (expense_data : RecurringExpenseUpdate) (recurring : RecurringExpense)
    : RecurringExpense :=
  {| re_id := re_id recurring;
     re_owner_id := re_owner_id recurring;
     re_amount := assign (ru_amount expense_data) (re_amount recurring);
     re_category := assign (ru_category expense_data) (re_category recurring);
     re_description :=
       match ru_description expense_data with
       | Some s => Some s
       | None => re_description recurring
       end;
     re_frequency :=
       assign (ru_frequency expense_data) (re_frequency recurring);
     re_is_active :=
       assign (ru_is_active expense_data) (re_is_active recurring);
     re_last_generated := re_last_generated recurring |}.

Definition update_recurring_expense
    (recurring_expenses : list RecurringExpense) (recurring_id : Z)
    (expense_data : RecurringExpenseUpdate) (user_id : Z)
    : (HTTPException + RecurringExpense) * list RecurringExpense :=
  match find (addressed recurring_id user_id) recurring_expenses with
  | None =>
      (inl {| status_code := HTTP_404_NOT_FOUND;
              detail := "Recurring expense not found" |},
       recurring_expenses)
  | Some recurring =>
      (inr (apply_update expense_data recurring),
       update_first (addressed recurring_id user_id)
         (apply_update expense_data) recurring_expenses)
  end.

(* ================================================================== *)
(** * routers/recurring.py: the other handlers                          *)
(* ================================================================== *)

(** [RecurringExpenseCreate]: [amount], [category], [description],
    [frequency]. *)
Record RecurringExpenseCreate : Type := mk_RecurringExpenseCreate {
  rc_amount : float;
  rc_category : CategoryEnum;
  rc_description : option string;
  rc_frequency : FrequencyEnum
}.

(** [get_recurring_expenses]: the rows of the user. *)
Definition get_recurring_expenses
    (recurring_expenses : list RecurringExpense) (user_id : Z)
    : list RecurringExpense :=
  filter (fun r => re_owner_id r =? user_id) recurring_expenses.

(** [create_recurring_expense]: the columns the constructor is not given
    take their defaults, [is_active = True] and [last_generated = NULL]. *)
Definition create_recurring_expense
    (recurring_expenses : list RecurringExpense)
    (expense_data : RecurringExpenseCreate) (user_id : Z)
    : RecurringExpense * list RecurringExpense :=
  let db_recurring :=
    {| re_id := fresh_id (map re_id recurring_expenses);
       re_owner_id := user_id;
       re_amount := rc_amount expense_data;
       re_category := rc_category expense_data;
       re_description := rc_description expense_data;
       re_frequency := rc_frequency expense_data;
       re_is_active := true;
       re_last_generated := None |} in
  (db_recurring, recurring_expenses ++ [db_recurring]).

Definition recurring_not_found : HTTPException :=
  {| status_code := HTTP_404_NOT_FOUND;
     detail := "Recurring expense not found" |}.

Definition get_recurring_expense
    (recurring_expenses : list RecurringExpense) (recurring_id user_id : Z)
    : HTTPException + RecurringExpense :=
  match find (addressed recurring_id user_id) recurring_expenses with
  | None => inl recurring_not_found
  | Some recurring => inr recurring
  end.

Definition delete_recurring_expense
    (recurring_expenses : list RecurringExpense) (recurring_id user_id : Z)
    : (HTTPException + string) * list RecurringExpense :=
  match find (addressed recurring_id user_id) recurring_expenses with
  | None => (inl recurring_not_found, recurring_expenses)
  | Some recurring =>
      (inr "Recurring expense deleted successfully"%string,
       delete_first (addressed recurring_id user_id) recurring_expenses)
  end.

(** The requests of one user that write to table [recurring_expenses]. *)
Inductive recurring_request : Type :=
  | CreateRecurring (expense_data : RecurringExpenseCreate)
  | UpdateRecurring (recurring_id : Z) (expense_data : RecurringExpenseUpdate)
  | DeleteRecurring (recurring_id : Z).

(** The table after a request of user [user_id]. *)
Definition serve_recurring
    (user_id : Z) (recurring_expenses : list RecurringExpense)
    (r : recurring_request) : list RecurringExpense :=
  match r with
  | CreateRecurring d =>
      snd (create_recurring_expense recurring_expenses d user_id)
  | UpdateRecurring rid d =>
      snd (update_recurring_expense recurring_expenses rid d user_id)
  | DeleteRecurring rid =>
      snd (delete_recurring_expense recurring_expenses rid user_id)
  end.

(** The rows that do not belong to [user_id]. *)
Definition rows_of_others
    (user_id : Z) (recurring_expenses : list RecurringExpense)
    : list RecurringExpense :=
  filter (fun r => negb (re_owner_id r =? user_id)) recurring_expenses.

(* ================================================================== *)
(** * routers/budgets.py: reading the table                             *)
(* ================================================================== *)

(** [get_budgets]: the rows of the user.  The database returns them in an
    order of its choice; the list below has them in the order of [budgets],
    and is to be read up to a permutation. *)
Definition get_budgets (budgets : list Budgets.Budget) (user_id : Z)
    : list Budgets.Budget :=
  filter (fun b => Budgets.owner_id b =? user_id) budgets.

(** The budget rows that do not belong to [user_id]. *)
Definition budgets_of_others (user_id : Z) (budgets : list Budgets.Budget)
    : list Budgets.Budget :=
  filter (fun b => negb (Budgets.owner_id b =? user_id)) budgets.

(** The user a request to table [budgets] comes from. *)
Definition requester (r : Budgets.request) : Z :=
  match r with
  | Budgets.Create u _ | Budgets.Update u _ _ | Budgets.Delete u _ => u
  end.

(* ================================================================== *)
(** * routers/analytics.py: [get_by_category] and [get_by_month]        *)
(* ================================================================== *)

(** An entry of the list [get_by_category] returns: a dictionary with keys
    ["category"] (the enum's value), ["total"], ["percentage"], ["count"]. *)
Record CategoryDict : Type := mk_CategoryDict {
  cd_category : string;
  cd_total : float;
  cd_percentage : float;
  cd_count : Z
}.

(** [for category in CategoryEnum: if category in category_spending: ...]
    of [get_by_category]. *)
Fixpoint category_dicts
    (members : list CategoryEnum) (d : spending_dict) (total_spending : float)
    : result (list CategoryDict) :=
  match members with
  | [] => ret []
  | c :: members' =>
      match d c with
      | Some (total, count) =>
          percentage <- percentage_of total total_spending ;;
          rest <- category_dicts members' d total_spending ;;
          ret ({| cd_category := Budgets.value c;
                  cd_total := round2 total;
                  cd_percentage := round2 percentage;
                  cd_count := count |} :: rest)
      | None => category_dicts members' d total_spending
      end
  end.

(** [get_by_category]: the pair of ["by_category"] and ["total"].  The sums
    are taken over the user's rows in the order of [db_expenses], which
    stands for the order in which the query returns them. *)
Definition get_by_category (db_expenses : list Expense) (user_id : Z)
    : result (list CategoryDict * float) :=
  let expenses := filter (fun e => owner_id e =? user_id) db_expenses in
  let spending := category_spending expenses in
  let total_spending := py_sum (map amount expenses) in
  rows <- category_dicts CategoryEnum_members spending total_spending ;;
  ret (rows, round2 total_spending).

(** [defaultdict(float)] keyed by the year-month string. *)
Definition month_dict : Type := string -> option float.

Definition empty_month_dict : month_dict := fun _ => None.

(** [monthly_data[month_str] += a]; a missing key starts from [0.0]. *)
Definition add_month (d : month_dict) (month_str : string) (a : float)
    : month_dict :=
  let current := match d month_str with Some v => v | None => 0%float end in
  fun k => if String.eqb k month_str then Some (current + a)%float else d k.

(** [monthly_data.get(month_str, 0)] *)
Definition get_month (d : month_dict) (month_str : string) : float :=
  match d month_str with Some v => v | None => 0%float end.

(** [for exp in expenses: monthly_data[exp.date.strftime("%Y-%m")] += ...] *)
Definition monthly_data (expenses : list Expense) : month_dict :=
  fold_left (fun d e => add_month d (strftime_Y_m (date e)) (amount e))
            expenses empty_month_dict.

(** One iteration of the loop of [get_by_month]: the pair of ["month"] and
    ["total"]. *)
Definition month_row (data : month_dict) (now : datetime) (months i : Z)
    : result (string * float) :=
  let month_num := months - i in
  month_start <- lift_overflow (dt_sub now (timedelta_days (30 * month_num))) ;;
  let month_str := strftime_Y_m month_start in
  ret (month_str, round2 (get_month data month_str)).

(** [get_by_month]: the list under ["monthly_trends"]. *)
Definition get_by_month
    (db_expenses : list Expense) (user_id months : Z) (now : datetime)
    : result (list (string * float)) :=
  start_date <- lift_overflow (dt_sub now (timedelta_days (30 * months))) ;;
  let expenses := filter (in_window user_id start_date) db_expenses in
  let data := monthly_data expenses in
  for_each (month_row data now months) (range months).


(* ================================================================== *)
(** * routers/expenses.py                                               *)
(* ================================================================== *)

(** A [datetime] as a request carries it: its wall-clock reading, and the
    UTC offset when it is timezone-aware ([tzinfo is not None]). *)
Record py_datetime : Type := mk_py_datetime {
  wall : datetime;
  tzinfo : option timedelta
}.

(** [d.replace(tzinfo=None)]: the same wall-clock reading, made naive. *)
Definition replace_tzinfo_None (d : py_datetime) : datetime := wall d.

(** An exception no handler catches (the framework answers 500). *)
Inductive unhandled : Type := TypeError | ValueError | DateOutOfRange.

(** How a handler ends: it returns, raises an [HTTPException], or lets an
    exception escape. *)
Inductive response (A : Type) : Type :=
  | Ok (a : A)
  | Refused (e : HTTPException)
  | Crashed (x : unhandled).
Arguments Ok {A} a.
Arguments Refused {A} e.
Arguments Crashed {A} x.

(** [d > now] for a request datetime and a naive one: comparing an aware
    with a naive datetime raises [TypeError]. *)
Definition later_than (d : py_datetime) (now : datetime) : unhandled + bool :=
  match tzinfo d with
  | Some _ => inl TypeError
  | None => inr (dt_ltb now (wall d))
  end.

(** [ExpenseCreate]: [amount], [category], [description], [date]. *)
Record ExpenseCreate : Type := mk_ExpenseCreate {
  ec_amount : float;
  ec_category : CategoryEnum;
  ec_description : option string;
  ec_date : py_datetime
}.

(** [ExpenseUpdate]: every field optional. *)
Record ExpenseUpdate : Type := mk_ExpenseUpdate {
  eu_amount : option float;
  eu_category : option CategoryEnum;
  eu_description : option string;
  eu_date : option py_datetime
}.

Definition future_date : HTTPException :=
  {| status_code := HTTP_400_BAD_REQUEST;
     detail := "Expense date cannot be in the future" |}.

Definition expense_not_found : HTTPException :=
  {| status_code := HTTP_404_NOT_FOUND; detail := "Expense not found" |}.

(** [create_expense], with [current_time = datetime.utcnow()] made a
    parameter.  The date is checked on its naive reading; the column, a
    [DateTime] without time zone, keeps the wall-clock reading of what it is
    given. *)
Definition create_expense
    (expenses : list Expense) (expense_data : ExpenseCreate) (user_id : Z)
    (current_time : datetime) : response Expense * list Expense :=
  let expense_date :=
    match tzinfo (ec_date expense_data) with
    | Some _ => replace_tzinfo_None (ec_date expense_data)
    | None => wall (ec_date expense_data)
    end in
  if dt_ltb current_time expense_date then (Refused future_date, expenses)
  else
    let db_expense :=
      {| id := fresh_id (map id expenses);
         owner_id := user_id;
         amount := ec_amount expense_data;
         category := ec_category expense_data;
         description := ec_description expense_data;
         date := wall (ec_date expense_data);
         receipt_path := None |} in
    (Ok db_expense, expenses ++ [db_expense]).

(** The query [Expense.owner_id == user_id] with the optional filters of
    [get_expenses]; a filter that is not given is not applied. *)
Definition selected
    (user_id : Z) (start_date end_date : option datetime)
    (c : option CategoryEnum) (e : Expense) : bool :=
  (owner_id e =? user_id)
  && match start_date with
     | Some s => dt_leb s (date e) | None => true end
  && match end_date with
     | Some t => dt_leb (date e) t | None => true end
  && match c with
     | Some c => CategoryEnum_eqb (category e) c | None => true end.

(** [ExpenseListResponse]: [items], [total], [total_amount]. *)
Record ExpenseListResponse : Type := mk_ExpenseListResponse {
  items : list Expense;
  total : Z;
  total_amount : float
}.

(** [get_expenses]: the selected rows, their number and the sum of their
    amounts, the rows in the order of [db_expenses], which stands for the
    order in which the query returns them. *)
Definition get_expenses
    (db_expenses : list Expense) (user_id : Z)
    (start_date end_date : option datetime) (c : option CategoryEnum)
    : ExpenseListResponse :=
  let expenses := filter (selected user_id start_date end_date c) db_expenses in
  {| items := expenses;
     total := Z.of_nat (List.length expenses);
     total_amount := py_sum (map amount expenses) |}.

(** [and_(Expense.id == expense_id, Expense.owner_id == user_id)] *)
Definition owned (expense_id user_id : Z) (e : Expense) : bool :=
  (id e =? expense_id) && (owner_id e =? user_id).


(** The assignments of [update_expense] that come before the date. *)
Definition assign_fields (expense_data : ExpenseUpdate) (expense : Expense)
    : Expense :=
  {| id := id expense;
     owner_id := owner_id expense;
     amount := assign (eu_amount expense_data) (amount expense);
     category := assign (eu_category expense_data) (category expense);
     description :=
       match eu_description expense_data with
       | Some s => Some s
       | None => description expense
       end;
     date := date expense;
     receipt_path := receipt_path expense |}.

(** [expense.date = expense_data.date] *)
Definition set_date (d : datetime) (expense : Expense) : Expense :=
  {| id := id expense;
     owner_id := owner_id expense;
     amount := amount expense;
     category := category expense;
     description := description expense;
     date := d;
     receipt_path := receipt_path expense |}.

(** [update_expense], with [datetime.utcnow()] made a parameter.  The
    assignments are made on the session's object; nothing reaches the table
    unless [db.commit()] is reached. *)
Definition update_expense
    (expenses : list Expense) (expense_id : Z) (expense_data : ExpenseUpdate)
    (user_id : Z) (now : datetime) : response Expense * list Expense :=
  match find (owned expense_id user_id) expenses with
  | None => (Refused expense_not_found, expenses)
  | Some expense =>
      let expense1 := assign_fields expense_data expense in
      match eu_date expense_data with
      | None =>
          (Ok expense1,
           update_first (owned expense_id user_id)
                        (assign_fields expense_data) expenses)
      | Some d =>
          match later_than d now with
          | inl x => (Crashed x, expenses)
          | inr true => (Refused future_date, expenses)
          | inr false =>
              (Ok (set_date (wall d) expense1),
               update_first (owned expense_id user_id)
                 (fun e => set_date (wall d) (assign_fields expense_data e))
                 expenses)
          end
      end
  end.

Definition delete_expense
    (expenses : list Expense) (expense_id user_id : Z)
    : response string * list Expense :=
  match find (owned expense_id user_id) expenses with
  | None => (Refused expense_not_found, expenses)
  | Some expense =>
      (Ok "Expense deleted successfully"%string,
       delete_first (owned expense_id user_id) expenses)
  end.

(** The requests that write to table [expenses], each with the user it
    comes from; the recurring pass reads table [recurring_expenses]. *)
Inductive expense_request : Type :=
  | CreateExpense (user_id : Z) (expense_data : ExpenseCreate)
  | UpdateExpense (user_id expense_id : Z) (expense_data : ExpenseUpdate)
  | DeleteExpense (user_id expense_id : Z)
  | ProcessRecurring (recurring_expenses : list RecurringExpense).

(** Table [expenses] after a request served at time [now]. *)
Definition serve_expense
    (now : datetime) (expenses : list Expense) (r : expense_request)
    : list Expense :=
  match r with
  | CreateExpense u d => snd (create_expense expenses d u now)
  | UpdateExpense u i d => snd (update_expense expenses i d u now)
  | DeleteExpense u i => snd (delete_expense expenses i u)
  | ProcessRecurring rows =>
      snd (fst (process_recurring_expenses rows expenses now))
  end.

(** Requests served one after the other, each at its own time. *)
Fixpoint serve_expenses
    (expenses : list Expense) (rs : list (datetime * expense_request))
    : list Expense :=
  match rs with
  | [] => expenses
  | (now, r) :: rs' => serve_expenses (serve_expense now expenses r) rs'
  end.


(* ================================================================== *)
(** * security.py                                                       *)
(* ================================================================== *)

(** What the handlers take from outside the repository: the JWT payload
    type of [jose] with [payload.get("sub")], the builtins [int], [str],
    [str.split()] and [str.lower()], and the password hashing of
    [passlib] (a hash depends on a fresh salt). *)
Record library : Type := mk_library {
  payload : Type;
  payload_get_sub : payload -> option string;
  int_of_str : string -> option Z;
  str_of_int : Z -> string;
  str_split : string -> list string;
  str_lower : string -> string;
  pwd_hash : string -> string -> string;
  pwd_verify : string -> string -> bool
}.

(** The claims [create_access_token] signs: the entries of [data] that the
    callers use (["sub"], ["type"]) and ["exp"]. *)
Record token_claims : Type := mk_token_claims {
  tc_sub : string;
  tc_type : option string;
  tc_exp : datetime
}.

(** [jwt.decode(token, SECRET_KEY, algorithms=[ALGORITHM])] at some moment:
    [None] when it raises [JWTError] (bad signature, expired, malformed). *)
Definition decoder (lib : library) : Type := string -> option (payload lib).

Definition token_revoked : HTTPException :=
  {| status_code := 401; detail := "Token has been revoked" |}.

Definition invalid_token : HTTPException :=
  {| status_code := 401; detail := "Invalid token" |}.

(** [token in token_blacklist]; of the set only membership is observed, so
    it is kept as the list of the tokens added so far. *)
Definition blacklisted (token_blacklist : list string) (token : string) : bool :=
  existsb (String.eqb token) token_blacklist.

Definition verify_token (lib : library) (jwt_decode : decoder lib)
    (token_blacklist : list string) (token : string)
    : HTTPException + payload lib :=
  if blacklisted token_blacklist token then inl token_revoked
  else
    match jwt_decode token with
    | Some p => inr p
    | None => inl invalid_token
    end.

(** [token_blacklist.add(token)] *)
Definition revoke_token (token_blacklist : list string) (token : string)
    : list string :=
  token :: token_blacklist.

Definition forbidden (reason : string) : HTTPException :=
  {| status_code := 403; detail := reason |}.

(** [get_current_user]; [authorization] is the header, [None] when absent. *)
Definition get_current_user (lib : library) (jwt_decode : decoder lib)
    (token_blacklist : list string) (authorization : option string)
    : response Z :=
  match authorization with
  | None | Some EmptyString => Refused (forbidden "Not authenticated")
  | Some header =>
      match str_split lib header with
      | [scheme; token] =>
          if negb (String.eqb (str_lower lib scheme) "bearer") then
            Refused (forbidden "Invalid authentication scheme")
          else
            match verify_token lib jwt_decode token_blacklist token with
            | inl e => Refused e
            | inr p =>
                match payload_get_sub lib p with
                | None => Refused invalid_token
                | Some user_id =>
                    match int_of_str lib user_id with
                    | Some n => Ok n
                    | None => Crashed ValueError
                    end
                end
            end
      | _ => Refused (forbidden "Invalid authorization header")
      end
  end.

(** [logout]: the dependency [get_current_user] runs first; the handler
    then revokes [authorization.split()[1]]. *)
Definition logout (lib : library) (jwt_decode : decoder lib)
    (token_blacklist : list string) (authorization : option string)
    : response string * list string :=
  match get_current_user lib jwt_decode token_blacklist authorization with
  | Ok user_id =>
      (Ok "Logged out successfully"%string,
       match authorization with
       | None | Some EmptyString => token_blacklist
       | Some header =>
           match nth_error (str_split lib header) 1 with
           | Some token => revoke_token token_blacklist token
           | None => token_blacklist
           end
       end)
  | Refused e => (Refused e, token_blacklist)
  | Crashed x => (Crashed x, token_blacklist)
  end.

(* ================================================================== *)
(** * routers/auth.py                                                   *)
(* ================================================================== *)

Record User : Type := mk_User {
  u_id : Z;
  u_email : string;
  u_hashed_password : string;
  u_full_name : option string
}.

(** [UserRegister] *)
Record UserRegister : Type := mk_UserRegister {
  ur_email : string;
  ur_password : string;
  ur_full_name : option string
}.

(** [UpdateProfile] *)
Record UpdateProfile : Type := mk_UpdateProfile {
  up_full_name : option string;
  up_email : option string
}.

(** [ChangePassword] *)
Record ChangePassword : Type := mk_ChangePassword {
  cp_current_password : string;
  cp_new_password : string
}.

Definition user_not_found : HTTPException :=
  {| status_code := HTTP_404_NOT_FOUND; detail := "User not found" |}.

(** [register], up to the commit of the new user (the tokens are signed
    after it): the answer is the new row, or 400 for a taken email. *)
Definition register_user (lib : library) (salt : string)
    (users : list User) (user_data : UserRegister)
    : response User * list User :=
  match find (fun u => String.eqb (u_email u) (ur_email user_data)) users with
  | Some existing_user =>
      (Refused {| status_code := HTTP_400_BAD_REQUEST;
                  detail := "Email already registered" |}, users)
  | None =>
      let db_user :=
        {| u_id := fresh_id (map u_id users);
           u_email := ur_email user_data;
           u_hashed_password := pwd_hash lib salt (ur_password user_data);
           u_full_name := ur_full_name user_data |} in
      (Ok db_user, users ++ [db_user])
  end.

Definition set_full_name (name : option string) (u : User) : User :=
  {| u_id := u_id u; u_email := u_email u;
     u_hashed_password := u_hashed_password u;
     u_full_name := match name with Some n => Some n | None => u_full_name u end |}.

Definition set_email (email : string) (u : User) : User :=
  {| u_id := u_id u; u_email := email;
     u_hashed_password := u_hashed_password u;
     u_full_name := u_full_name u |}.

Definition set_hashed_password (h : string) (u : User) : User :=
  {| u_id := u_id u; u_email := u_email u;
     u_hashed_password := h; u_full_name := u_full_name u |}.

(** [update_profile] *)
Definition update_profile
    (users : list User) (profile_data : UpdateProfile) (user_id : Z)
    : response User * list User :=
  match find (fun u => u_id u =? user_id) users with
  | None => (Refused user_not_found, users)
  | Some user =>
      let user1 := set_full_name (up_full_name profile_data) user in
      match up_email profile_data with
      | None =>
          (Ok user1,
           update_first (fun u => u_id u =? user_id)
                        (set_full_name (up_full_name profile_data)) users)
      | Some email =>
          match find (fun u => String.eqb (u_email u) email
                               && negb (u_id u =? user_id)) users with
          | Some existing_user =>
              (Refused {| status_code := HTTP_400_BAD_REQUEST;
                          detail := "Email already in use" |}, users)
          | None =>
              (Ok (set_email email user1),
               update_first (fun u => u_id u =? user_id)
                 (fun u => set_email email
                             (set_full_name (up_full_name profile_data) u))
                 users)
          end
      end
  end.

(** [change_password] *)
Definition change_password (lib : library) (salt : string)
    (users : list User) (password_data : ChangePassword) (user_id : Z)
    : response string * list User :=
  match find (fun u => u_id u =? user_id) users with
  | None => (Refused user_not_found, users)
  | Some user =>
      if negb (pwd_verify lib (cp_current_password password_data)
                          (u_hashed_password user)) then
        (Refused {| status_code := 401;
                    detail := "Current password is incorrect" |}, users)
      else if String.eqb (cp_current_password password_data)
                         (cp_new_password password_data) then
        (Refused {| status_code := HTTP_400_BAD_REQUEST;
                    detail := "New password must be different from current password" |},
         users)
      else
        (Ok "Password changed successfully"%string,
         update_first (fun u => u_id u =? user_id)
           (set_hashed_password
              (pwd_hash lib salt (cp_new_password password_data)))
           users)
  end.

(** [Token] *)
Record Token : Type := mk_Token {
  access_token : string;
  refresh_token : string;
  token_type : string
}.

(** [UserLogin] *)
Record UserLogin : Type := mk_UserLogin {
  ul_email : string;
  ul_password : string
}.

(** [jwt.encode(to_encode, SECRET_KEY, algorithm=ALGORITHM)] *)
Definition encoder : Type := token_claims -> string.

Definition timedelta_minutes (m : Z) : timedelta :=
  mk_timedelta (m * 60 * US_PER_SECOND).

(** security.py, [create_access_token]: [data] holds ["sub"] and, for a
    refresh token, ["type"]; a zero [expires_delta] is false and falls back
    to the configured minutes like an absent one.  [None] stands for the
    [OverflowError] of [utcnow() + delta]. *)
Definition create_access_token (jwt_encode : encoder) (expire_minutes : Z)
    (sub : string) (type : option string) (expires_delta : option timedelta)
    (now : datetime) : option string :=
  let delta :=
    match expires_delta with
    | Some d => if td_us d =? 0 then timedelta_minutes expire_minutes else d
    | None => timedelta_minutes expire_minutes
    end in
  match dt_add now delta with
  | Some expire =>
      Some (jwt_encode {| tc_sub := sub; tc_type := type; tc_exp := expire |})
  | None => None
  end.

(** The two tokens [register] and [login] create for a user. *)
Definition issue_tokens (lib : library) (jwt_encode : encoder)
    (expire_minutes : Z) (user : User) (now : datetime) : response Token :=
  match create_access_token jwt_encode expire_minutes
          (str_of_int lib (u_id user)) None
          (Some (timedelta_minutes expire_minutes)) now with
  | None => Crashed DateOutOfRange
  | Some access =>
      match create_access_token jwt_encode expire_minutes
              (str_of_int lib (u_id user)) (Some "refresh"%string)
              (Some (timedelta_days 7)) now with
      | None => Crashed DateOutOfRange
      | Some refresh =>
          Ok {| access_token := access; refresh_token := refresh;
                token_type := "bearer" |}
      end
  end.

(** [login] *)
Definition login (lib : library) (jwt_encode : encoder)
    (expire_minutes : Z) (users : list User) (user_data : UserLogin)
    (now : datetime) : response Token :=
  match find (fun u => String.eqb (u_email u) (ul_email user_data)) users with
  | None =>
      Refused {| status_code := 401; detail := "Invalid email or password" |}
  | Some user =>
      if negb (pwd_verify lib (ul_password user_data) (u_hashed_password user))
      then
        Refused {| status_code := 401; detail := "Invalid email or password" |}
      else issue_tokens lib jwt_encode expire_minutes user now
  end.

(** The requests that write to table [users]. *)
Inductive user_request : Type :=
  | Register (salt : string) (user_data : UserRegister)
  | Profile (user_id : Z) (profile_data : UpdateProfile)
  | Password (salt : string) (user_id : Z) (password_data : ChangePassword).

Definition serve_user (lib : library) (users : list User) (r : user_request)
    : list User :=
  match r with
  | Register salt d => snd (register_user lib salt users d)
  | Profile u d => snd (update_profile users d u)
  | Password salt u d => snd (change_password lib salt users d u)
  end.


(* ================================================================== *)
(** * Notions used to state the properties                              *)
(* ================================================================== *)

(** Number of calendar days from [t] to [now]: the difference of the dates,
    whatever the times of day. *)
Definition calendar_day_difference (now t : datetime) : Z :=
  toordinal now - toordinal t.

(** What the loop does to a row of [recurring_expenses]. *)
Definition stamp (now : datetime) (r : RecurringExpense) : RecurringExpense :=
  if fires now r then set_last_generated r now else r.

(** Expense [e] is the instance of recurring record [r] generated at [now]:
    same owner, amount and category, dated [now], and carrying the record's
    description whenever the record has a non-empty one. *)
Definition materializes
    (now : datetime) (r : RecurringExpense) (e : Expense) : Prop :=
  owner_id e = re_owner_id r
  /\ amount e = re_amount r
  /\ category e = re_category r
  /\ date e = now
  /\ receipt_path e = None
  /\ (forall s, re_description r = Some s -> s <> EmptyString ->
        description e = Some s).

(** The expenses of one category. *)
Definition of_category (c : CategoryEnum) (expenses : list Expense)
    : list Expense :=
  filter (fun e => CategoryEnum_eqb (category e) c) expenses.

(** The categories with at least one expense, in declaration order. *)
Definition categories_present (expenses : list Expense) : list CategoryEnum :=
  filter (fun c => existsb (fun e => CategoryEnum_eqb (category e) c) expenses)
         CategoryEnum_members.

(** The row that the breakdown of [expenses] against [denominator] is to
    hold for category [c]: figures rounded to two decimals on emission. *)
Definition summary_row
    (expenses : list Expense) (denominator : float) (c : CategoryEnum)
    : CategorySummary :=
  let total := py_sum (map amount (of_category c expenses)) in
  {| cs_category := c;
     cs_total := round2 total;
     cs_percentage :=
       round2 (if PrimFloat.ltb 0 denominator
               then (total / denominator * 100)%float else 0%float);
     cs_count := Z.of_nat (List.length (of_category c expenses)) |}.

(** Start of bucket [i] (0 is the oldest) of a trend over [months] buckets
    of 30 days that ends at [now]. *)
Definition bucket_start (now : datetime) (months i : Z) : datetime :=
  mk_datetime (ticks now - 30 * (months - i) * US_PER_DAY).

(** The user's expenses with [bucket start <= date < bucket start + 30 days]. *)
Definition bucket (db_expenses : list Expense) (user_id : Z)
    (now : datetime) (months i : Z) : list Expense :=
  filter (fun e =>
            (owner_id e =? user_id)
            && (ticks (bucket_start now months i) <=? ticks (date e))
            && (ticks (date e)
                <? ticks (bucket_start now months i) + 30 * US_PER_DAY))
         db_expenses.

(** The rows the query of [get_analytics_summary] returns. *)
Definition window (db_expenses : list Expense) (user_id : Z)
    (start_date : datetime) : list Expense :=
  filter (in_window user_id start_date) db_expenses.

(** The breakdown of [expenses] against their own total. *)
Definition summary_rows (expenses : list Expense) (denominator : float)
    : list CategorySummary :=
  map (summary_row expenses denominator) (categories_present expenses).

(** Entry [i] of the monthly trend. *)
Definition trend_entry (db_expenses : list Expense) (user_id : Z)
    (now : datetime) (months i : Z) : MonthlySummary :=
  let b := bucket db_expenses user_id now months i in
  {| ms_month := strftime_Y_m (bucket_start now months i);
     ms_total := round2 (py_sum (map amount b));
     ms_by_category := summary_rows b (py_sum (map amount b)) |}.

(** The entry read by [d[c]] of a [defaultdict]. *)
Definition entry_or_default (v : option (float * Z)) : float * Z :=
  match v with Some v => v | None => (0%float, 0) end.

(** The denominator is zero ([0.0] or [-0.0]). *)
Definition is_zero (d : float) : Prop := PrimFloat.eqb d 0 = true.

(** A breakdown entry as the dictionary [get_by_category] emits. *)
Definition as_dict (row : CategorySummary) : CategoryDict :=
  {| cd_category := Budgets.value (cs_category row);
     cd_total := cs_total row;
     cd_percentage := cs_percentage row;
     cd_count := cs_count row |}.

(** The counts of a breakdown, added up. *)
Definition total_count (rows : list CategorySummary) : Z :=
  fold_right Z.add 0 (map cs_count rows).

(** The queried expenses whose date falls in the calendar month [label]. *)
Definition of_month (label : string) (expenses : list Expense) : list Expense :=
  filter (fun e => String.eqb (strftime_Y_m (date e)) label) expenses.

(** The bucket an expense dated [t] falls in, counted from the window
    start. *)
Definition bucket_index (start_date : datetime) (t : datetime) : Z :=
  (ticks t - ticks start_date) / (30 * US_PER_DAY).

(** No expense of the table is dated after [now]. *)
Definition none_in_future (now : datetime) (expenses : list Expense) : Prop :=
  Forall (fun e => ticks (date e) <= ticks now) expenses.

(** The clock never goes back: each request is served no earlier than the
    one before, the first no earlier than [t0]. *)
Fixpoint clock_advances (t0 : datetime) (rs : list (datetime * expense_request))
    : Prop :=
  match rs with
  | [] => True
  | (now, _) :: rs' => ticks t0 <= ticks now /\ clock_advances now rs'
  end.

(** The time of the last request ([t0] when there is none). *)
Fixpoint last_time (t0 : datetime) (rs : list (datetime * expense_request))
    : datetime :=
  match rs with
  | [] => t0
  | (now, _) :: rs' => last_time now rs'
  end.

(** The expenses that do not belong to [user_id]. *)
Definition expenses_of_others (user_id : Z) (expenses : list Expense)
    : list Expense :=
  filter (fun e => negb (owner_id e =? user_id)) expenses.

(** Table [users]: ids are unique (the primary key) and so are emails
    ([unique=True]). *)
Definition users_consistent (users : list User) : Prop :=
  NoDup (map u_id users) /\ NoDup (map u_email users).

Module Toy.

(** A stand-in for the outside world, to run the handlers on: a token is
    its own payload and subject, every subject reads as user 7. *)
Definition lib : library :=
  {| payload := string;
     payload_get_sub := fun p => Some p;
     int_of_str := fun _ => Some 7;
     str_of_int := fun _ => "7"%string;
     str_split := fun s => ["Bearer"%string; "token"%string];
     str_lower := fun _ => "bearer"%string;
     pwd_hash := fun salt password => String.append salt password;
     pwd_verify := fun password hashed => true |}.

Definition decode : decoder lib := fun token => Some token.

(** A second stand-in, with a header that is cut after ["Bearer "], a token
    that is the subject it was signed for, and ids written as "1". *)
Definition lib1 : library :=
  {| payload := string;
     payload_get_sub := fun p => Some p;
     int_of_str := fun _ => Some 1;
     str_of_int := fun _ => "1"%string;
     str_split := fun s =>
       [substring 0 6 s; substring 7 (String.length s - 7) s];
     str_lower := fun _ => "bearer"%string;
     pwd_hash := fun salt password => String.append salt password;
     pwd_verify := fun password hashed =>
       String.eqb hashed (String.append "salt" password) |}.

Definition encode1 : encoder := fun c => tc_sub c.

Definition decode1 : decoder lib1 := fun token => Some token.

End Toy.

(** Concrete inputs on which the handlers are evaluated. *)
Module Example.

Definition now : datetime := datetime_of 2024 5 20 10 30 0 0.

(** An expense of user 1, recorded on 2024-05-02. *)
Definition spent (n : Z) (c : CategoryEnum) (a : float) : Expense :=
  {| id := n; owner_id := 1; amount := a; category := c;
     description := None; date := datetime_of 2024 5 2 9 0 0 0;
     receipt_path := None |}.

(** [[{50, Food}, {50, Transport}]] *)
Definition two_halves : list Expense :=
  [spent 1 FOOD 50; spent 2 TRANSPORT 50].

(** Three equal categories. *)
Definition three_thirds : list Expense :=
  [spent 1 FOOD 10; spent 2 TRANSPORT 10; spent 3 HEALTH 10].

End Example.

(* ================================================================== *)
(** * The due check                                                     *)
(* ================================================================== *)

Section DueCheck.

Lemma EPOCH_ticks : ticks EPOCH = 719163 * US_PER_DAY.
Proof. reflexivity. Qed.

Lemma EPOCH_fields : year EPOCH = 1970 /\ month EPOCH = 1 /\ day EPOCH = 1.
Proof. vm_compute. repeat split. Qed.

(** An ordinal before 1971-01-01 lies in 1970 or earlier. *)
Lemma ord2ymd_year_le_1970 (n : Z) :
  n <= 719527 -> fst (fst (ord2ymd n)) <= 1970.
Proof.
  intros Hn. unfold ord2ymd, DI400Y, DI100Y, DI4Y. cbv zeta.
  destruct (_ || _).
  - cbn [fst]. Z.div_mod_to_equations. lia.
  - destruct (_ <? _); cbn [fst]; Z.div_mod_to_equations; lia.
Qed.

Lemma after_1970_ordinal (now : datetime) :
  1970 < year now -> 719528 <= toordinal now.
Proof.
  intros Hy. destruct (Z_le_gt_dec (toordinal now) 719527) as [Hle | Hgt].
  - apply ord2ymd_year_le_1970 in Hle. unfold year in Hy. lia.
  - lia.
Qed.

Lemma days_since_epoch (now : datetime) :
  719528 <= toordinal now -> 365 <= days (dt_diff now EPOCH).
Proof.
  unfold toordinal, days, dt_diff. cbn [td_us]. rewrite EPOCH_ticks.
  unfold US_PER_DAY, US_PER_HOUR, US_PER_SECOND.
  intros H. Z.div_mod_to_equations. lia.
Qed.

(** C1, the claim as stated fails: at noon of 1970-01-01 a daily record
    that was never generated is not due. *)
Lemma never_generated_not_due_in_1970 :
  let now := datetime_of 1970 1 1 12 0 0 0 in
  valid_datetime now /\ should_generate DAILY None now = false.
Proof. vm_compute. intuition discriminate. Qed.

(** C1 (amended): for every frequency and every [now] whose year is later
    than 1970, the year of the substituted [datetime(1970, 1, 1)], the due
    check with [last_generated] absent returns true. *)
Theorem never_generated_is_due
    (frequency : FrequencyEnum) (now : datetime) (Hyear : 1970 < year now) :
  should_generate frequency None now = true.
Proof.
  pose proof (days_since_epoch now (after_1970_ordinal now Hyear)) as Hd.
  destruct EPOCH_fields as (Hy & Hm & _).
  unfold should_generate. destruct frequency.
  - apply Z.leb_le. lia.
  - apply Z.leb_le. lia.
  - rewrite Hy. apply orb_true_iff. right.
    apply negb_true_iff, Z.eqb_neq. lia.
  - rewrite Hy. apply negb_true_iff, Z.eqb_neq. lia.
Qed.

Lemma never_generated_is_due_witness :
  should_generate WEEKLY None (datetime_of 2024 5 20 10 30 0 0) = true.
Proof.
  apply (never_generated_is_due WEEKLY (datetime_of 2024 5 20 10 30 0 0)).
  vm_compute. reflexivity.
Defined.

Lemma daily_elapsed (t now : datetime) :
  should_generate DAILY (Some t) now = true
  <-> US_PER_DAY <= ticks now - ticks t.
Proof.
  unfold should_generate, days, dt_diff. cbn [td_us].
  rewrite Z.leb_le. unfold US_PER_DAY, US_PER_HOUR, US_PER_SECOND.
  split; intros H; Z.div_mod_to_equations; lia.
Qed.

Lemma dt_add_ticks (a b : datetime) (d : timedelta) :
  dt_add a d = Some b -> ticks b = ticks a + td_us d.
Proof.
  unfold dt_add. destruct (_ && _); [|discriminate].
  intros [= <-]. reflexivity.
Qed.

(** C2, the claim as stated fails: from 23:00 to 01:00 of the next day the
    calendar-day difference is 1, yet the daily check is false. *)
Lemma daily_is_not_calendar_day_difference :
  let t := datetime_of 2024 1 1 23 0 0 0 in
  let now := datetime_of 2024 1 2 1 0 0 0 in
  (1 <=? calendar_day_difference now t) = true
  /\ should_generate DAILY (Some t) now = false.
Proof. vm_compute. split; reflexivity. Qed.

(** C2 (amended): the daily frequency is due exactly when at least 24 hours
    have elapsed from [t] to [now] (the [.days] of the difference counts
    whole elapsed days); in particular the check is false 23 hours after [t]
    and true 25 hours after [t]. *)
Theorem daily_due_after_24_hours
    (t now t23 t25 : datetime)
    (H23 : dt_add t (timedelta_hours 23) = Some t23)
    (H25 : dt_add t (timedelta_hours 25) = Some t25) :
  (should_generate DAILY (Some t) now = true
   <-> 24 * US_PER_HOUR <= ticks now - ticks t)
  /\ should_generate DAILY (Some t) t23 = false
  /\ should_generate DAILY (Some t) t25 = true.
Proof.
  apply dt_add_ticks in H23, H25. cbn [td_us timedelta_hours] in H23, H25.
  split; [exact (daily_elapsed t now) | split].
  - apply not_true_is_false. rewrite daily_elapsed.
    unfold US_PER_DAY, US_PER_HOUR, US_PER_SECOND in *. lia.
  - rewrite daily_elapsed.
    unfold US_PER_DAY, US_PER_HOUR, US_PER_SECOND in *. lia.
Qed.

Lemma daily_due_after_24_hours_witness :
  let t := datetime_of 2024 1 1 23 0 0 0 in
  (should_generate DAILY (Some t) (datetime_of 2024 1 2 1 0 0 0) = true
   <-> 24 * US_PER_HOUR
       <= ticks (datetime_of 2024 1 2 1 0 0 0) - ticks t)
  /\ should_generate DAILY (Some t) (datetime_of 2024 1 2 22 0 0 0) = false
  /\ should_generate DAILY (Some t) (datetime_of 2024 1 3 0 0 0 0) = true.
Proof.
  apply (daily_due_after_24_hours
           (datetime_of 2024 1 1 23 0 0 0) (datetime_of 2024 1 2 1 0 0 0)
           (datetime_of 2024 1 2 22 0 0 0) (datetime_of 2024 1 3 0 0 0 0));
    vm_compute; reflexivity.
Defined.

(** C4: the monthly frequency is due exactly when the (year, month) pair of
    [now] differs from that of [last_generated], whatever the days of the
    month (due from 2024-01-31 to 2024-02-01, not due from 2024-02-01 to
    2024-02-28); the yearly frequency is due exactly when the years differ. *)
Theorem monthly_yearly_compare_calendar_fields :
  forall last now : datetime,
    (should_generate MONTHLY (Some last) now = true
     <-> (year now, month now) <> (year last, month last))
    /\ (should_generate YEARLY (Some last) now = true
        <-> year now <> year last)
    /\ should_generate MONTHLY (Some (datetime_of 2024 1 31 0 0 0 0))
                       (datetime_of 2024 2 1 0 0 0 0) = true
    /\ should_generate MONTHLY (Some (datetime_of 2024 2 1 0 0 0 0))
                       (datetime_of 2024 2 28 0 0 0 0) = false.
Proof.
  intros last now.
  split; [| split; [| split; vm_compute; reflexivity]];
    unfold should_generate; split.
  - intros H [= Hy Hm]. rewrite Hy, Hm, !Z.eqb_refl in H. discriminate.
  - intros H.
    destruct (Z.eqb_spec (month now) (month last)) as [Hm | Hm];
      destruct (Z.eqb_spec (year now) (year last)) as [Hy | Hy];
      try reflexivity.
    exfalso. apply H. congruence.
  - intros H Hy. rewrite Hy, Z.eqb_refl in H. discriminate.
  - intros H. apply negb_true_iff, Z.eqb_neq. exact H.
Qed.

End DueCheck.

(* ================================================================== *)
(** * The pass over the recurring records                               *)
(* ================================================================== *)

Section ProcessRecurring.

Variable now : datetime.

Lemma new_expense_materializes (expenses : list Expense) (r : RecurringExpense) :
  materializes now r (new_expense expenses r now).
Proof.
  unfold materializes, new_expense. cbn.
  repeat split.
  intros s Hs Hne. rewrite Hs. destruct s; [contradiction | reflexivity].
Qed.

(** The loop, from any [expenses] table and any [count]: the rows are
    stamped, the due rows yield one new expense each, in order, and [count]
    grows by their number. *)
Lemma process_rows_spec (rows : list RecurringExpense) :
  forall (expenses : list Expense) (count : Z),
  exists new : list Expense,
    process_rows now rows expenses count
    = (map (stamp now) rows, expenses ++ new,
       count + Z.of_nat (List.length new))
    /\ Forall2 (materializes now) (filter (fires now) rows) new.
Proof.
  induction rows as [| r rows IH]; intros expenses count.
  - exists []. cbn. rewrite app_nil_r, Z.add_0_r. split; constructor.
  - cbn [process_rows filter map]. unfold stamp at 1.
    destruct (fires now r) eqn:Hf.
    + destruct (IH (expenses ++ [new_expense expenses r now]) (count + 1))
        as (new & Heq & Hall).
      exists (new_expense expenses r now :: new).
      rewrite Heq, <- app_assoc. cbn [app List.length].
      split.
      * f_equal. lia.
      * constructor; [apply new_expense_materializes | exact Hall].
    + destruct (IH expenses count) as (new & Heq & Hall).
      exists new. rewrite Heq. split; [reflexivity | exact Hall].
Qed.

End ProcessRecurring.

(** C3, the claim as stated fails: a due record without description yields
    an expense whose description is the text "Recurring: None", not the
    record's (absent) description. *)
Lemma generated_description_differs :
  let now := datetime_of 2024 5 20 10 30 0 0 in
  let r := {| re_id := 1; re_owner_id := 7; re_amount := 9.5%float;
              re_category := UTILITIES; re_description := None;
              re_frequency := MONTHLY; re_is_active := true;
              re_last_generated := None |} in
  fires now r = true
  /\ map description (snd (fst (process_recurring_expenses [r] [] now)))
     = [Some "Recurring: None"%string]
  /\ re_description r = None.
Proof. vm_compute. repeat split. Qed.

(** C3 (amended): one pass at [now] appends to [expenses] exactly one new
    Expense per active recurring record judged due, in order; each has the
    record's owner, amount and category, timestamp [now], and the record's
    description when the record has a non-empty one; every such record gets
    [last_generated = now], every other record is left as it was, and the
    reported count is the number of new expenses. *)
Theorem process_recurring_expenses_materializes :
  forall (recurring_expenses : list RecurringExpense)
         (expenses : list Expense) (now : datetime),
  exists new : list Expense,
    process_recurring_expenses recurring_expenses expenses now
    = (map (stamp now) recurring_expenses, expenses ++ new,
       Z.of_nat (List.length new))
    /\ Forall2 (materializes now)
               (filter (fires now) recurring_expenses) new
    /\ Forall (fun r => re_last_generated (stamp now r)
                        = if fires now r then Some now
                          else re_last_generated r)
              recurring_expenses.
Proof.
  intros rows expenses now.
  destruct (process_rows_spec now rows expenses 0) as (new & Heq & Hall).
  exists new. unfold process_recurring_expenses. rewrite Heq.
  split; [reflexivity | split; [exact Hall |]].
  apply Forall_forall. intros r _. unfold stamp.
  destruct (fires now r); reflexivity.
Qed.

(* ================================================================== *)
(** * The aggregator                                                    *)
(* ================================================================== *)

#[local] Set Warnings "-inexact-float".

Section Percentages.

Lemma positive_not_zero (d : float) :
  PrimFloat.ltb 0 d = true -> PrimFloat.eqb d 0 = false.
Proof.
  rewrite FloatAxioms.ltb_spec, FloatAxioms.eqb_spec.
  change (Prim2SF 0) with (S754_zero false).
  destruct (Prim2SF d) as [s | s | | s m e]; cbn;
    try discriminate; try reflexivity; destruct s; try discriminate;
    reflexivity.
Qed.

Lemma zero_not_positive (d : float) :
  is_zero d -> PrimFloat.ltb 0 d = false.
Proof.
  unfold is_zero. intros Hz.
  destruct (PrimFloat.ltb 0 d) eqn:Hlt; [| reflexivity].
  apply positive_not_zero in Hlt. congruence.
Qed.

(** The guard keeps the division away from a zero denominator. *)
Lemma percentage_of_value (total d : float) :
  percentage_of total d
  = inr (if PrimFloat.ltb 0 d then (total / d * 100)%float else 0%float).
Proof.
  unfold percentage_of, py_div.
  destruct (PrimFloat.ltb 0 d) eqn:Hlt; [| reflexivity].
  rewrite (positive_not_zero d Hlt). reflexivity.
Qed.

Lemma round2_zero : round2 0 = 0%float.
Proof. vm_compute. reflexivity. Qed.

(** Values [round(x, 2)] is known for: binary representation error decides
    2.675 and 1.005, exact ties go to the even neighbour. *)
Lemma round2_examples :
  round2 2.675 = 2.67%float /\ round2 1.005 = 1%float
  /\ round2 0.125 = 0.12%float /\ round2 0.375 = 0.38%float
  /\ round2 (100 / 3) = 33.33%float /\ round2 (-0.001) = (-0)%float
  /\ round2 25.5 = 25.5%float /\ round2 infinity = infinity.
Proof. vm_compute. repeat split. Qed.

Lemma py_sum_nil : py_sum [] = 0%float.
Proof. reflexivity. Qed.

End Percentages.

Section Breakdown.

Lemma CategoryEnum_eqb_eq (a b : CategoryEnum) :
  CategoryEnum_eqb a b = true <-> a = b.
Proof. destruct a, b; cbn; split; congruence. Qed.

Lemma CategoryEnum_eqb_refl (a : CategoryEnum) : CategoryEnum_eqb a a = true.
Proof. destruct a; reflexivity. Qed.

Lemma CategoryEnum_eqb_neq (a b : CategoryEnum) :
  CategoryEnum_eqb a b = false <-> a <> b.
Proof. destruct a, b; cbn; split; congruence. Qed.

Lemma add_spending_same (d : spending_dict) (c : CategoryEnum) (a : float) :
  add_spending d c a c
  = Some ((fst (entry_or_default (d c)) + a)%float,
          snd (entry_or_default (d c)) + 1).
Proof.
  unfold add_spending, entry_or_default.
  destruct (d c) as [[t n] |]; cbn; rewrite CategoryEnum_eqb_refl; reflexivity.
Qed.

Lemma add_spending_other (d : spending_dict) (c c' : CategoryEnum) (a : float) :
  c' <> c -> add_spending d c a c' = d c'.
Proof.
  intros Hne. apply CategoryEnum_eqb_neq in Hne.
  unfold add_spending. destruct (d c) as [[t n] |]; cbn; rewrite Hne;
    reflexivity.
Qed.

(** The dictionary after the loop, started from any dictionary [d]. *)
Lemma fill_lookup (c : CategoryEnum) (expenses : list Expense) :
  forall d : spending_dict,
    fold_left (fun d e => add_spending d (category e) (amount e)) expenses d c
    = match of_category c expenses with
      | [] => d c
      | _ :: _ =>
          Some (fold_left (fun acc x => (acc + x)%float)
                          (map amount (of_category c expenses))
                          (fst (entry_or_default (d c))),
                snd (entry_or_default (d c))
                + Z.of_nat (List.length (of_category c expenses)))
      end.
Proof.
  induction expenses as [| e expenses IH]; intros d; [reflexivity |].
  cbn [fold_left]. rewrite IH. unfold of_category. cbn [filter].
  fold (of_category c expenses).
  destruct (CategoryEnum_eqb (category e) c) eqn:Hc.
  - apply CategoryEnum_eqb_eq in Hc. subst c.
    rewrite add_spending_same. cbn [entry_or_default fst snd].
    destruct (of_category (category e) expenses) as [| e' rest].
    + cbn. do 2 f_equal.
    + cbn [map fold_left List.length]. do 2 f_equal. lia.
  - apply CategoryEnum_eqb_neq in Hc.
    rewrite add_spending_other by congruence. reflexivity.
Qed.

Lemma category_spending_lookup (expenses : list Expense) (c : CategoryEnum) :
  category_spending expenses c
  = if existsb (fun e => CategoryEnum_eqb (category e) c) expenses
    then Some (py_sum (map amount (of_category c expenses)),
               Z.of_nat (List.length (of_category c expenses)))
    else None.
Proof.
  unfold category_spending. rewrite fill_lookup.
  assert (Hex : existsb (fun e => CategoryEnum_eqb (category e) c) expenses
                = match of_category c expenses with
                  | [] => false | _ :: _ => true end).
  { unfold of_category. induction expenses as [| e l IH]; [reflexivity |].
    cbn. destruct (CategoryEnum_eqb (category e) c); [reflexivity | exact IH]. }
  rewrite Hex. destruct (of_category c expenses); reflexivity.
Qed.

Lemma summarize_categories_spec
    (expenses : list Expense) (denominator : float)
    (members : list CategoryEnum) :
  summarize_categories members (category_spending expenses) denominator
  = inr (map (summary_row expenses denominator)
             (filter (fun c => existsb
                        (fun e => CategoryEnum_eqb (category e) c) expenses)
                     members)).
Proof.
  induction members as [| c members IH]; [reflexivity |].
  cbn [summarize_categories filter].
  rewrite category_spending_lookup.
  destruct (existsb _ expenses); [| exact IH].
  rewrite percentage_of_value, IH. reflexivity.
Qed.

(** The loop over the enum never raises, and emits one row per category
    that has expenses, in declaration order. *)
Lemma breakdown_spec (expenses : list Expense) (denominator : float) :
  breakdown expenses denominator = inr (summary_rows expenses denominator).
Proof. apply summarize_categories_spec. Qed.

End Breakdown.

Section Trend.

Variables (db_expenses : list Expense) (user_id months : Z).
Variables (now start_date : datetime).
Hypothesis Hnow : valid_datetime now.
Hypothesis Hstart :
  dt_sub now (timedelta_days (30 * months)) = Some start_date.

Lemma toordinal_mono (a b : datetime) :
  ticks a <= ticks b -> toordinal a <= toordinal b.
Proof.
  intros H. unfold toordinal. apply Z.div_le_mono; [reflexivity | exact H].
Qed.

Lemma td_us_days (d : Z) : td_us (timedelta_days d) = d * US_PER_DAY.
Proof. reflexivity. Qed.

Lemma start_date_is_bucket_0 : start_date = bucket_start now months 0.
Proof.
  pose proof (dt_add_ticks _ _ _ Hstart) as H.
  change (td_us (mk_timedelta ?x)) with x in H. rewrite td_us_days in H.
  destruct start_date as [t]. unfold bucket_start. f_equal.
  change (ticks (mk_datetime t)) with t in H. rewrite H. ring.
Qed.

Lemma dt_add_valid (a b : datetime) (d : timedelta) :
  dt_add a d = Some b -> valid_datetime b.
Proof.
  unfold dt_add. set (r := mk_datetime (ticks a + td_us d)).
  destruct (0 <? toordinal r) eqn:H1; [| discriminate].
  destruct (toordinal r <=? MAXORDINAL) eqn:H2; [| discriminate].
  cbn [andb]. intros [= <-].
  apply Z.ltb_lt in H1. apply Z.leb_le in H2.
  unfold valid_datetime. lia.
Qed.

Lemma start_date_valid : valid_datetime start_date.
Proof. exact (dt_add_valid _ _ _ Hstart). Qed.

Lemma US_PER_DAY_pos : 0 < US_PER_DAY.
Proof. reflexivity. Qed.

Lemma bucket_start_valid (i : Z) :
  0 <= i <= months -> valid_datetime (bucket_start now months i).
Proof.
  intros Hi. pose proof start_date_valid as Hs.
  rewrite start_date_is_bucket_0 in Hs.
  pose proof US_PER_DAY_pos as Hd.
  assert (ticks (bucket_start now months 0)
          <= ticks (bucket_start now months i)) as Hlo
    by (unfold bucket_start; change (ticks (mk_datetime ?x)) with x; nia).
  assert (ticks (bucket_start now months i) <= ticks now) as Hhi
    by (unfold bucket_start; change (ticks (mk_datetime ?x)) with x; nia).
  apply toordinal_mono in Hlo, Hhi.
  unfold valid_datetime in *. lia.
Qed.

Lemma dt_add_in_range (a b : datetime) (d : timedelta) :
  valid_datetime b -> ticks b = ticks a + td_us d -> dt_add a d = Some b.
Proof.
  intros [H1 H2] Ht. unfold dt_add. rewrite <- Ht.
  destruct b as [tb]. cbn [ticks].
  replace (0 <? toordinal (mk_datetime tb)) with true
    by (symmetry; apply Z.ltb_lt; lia).
  replace (toordinal (mk_datetime tb) <=? MAXORDINAL) with true
    by (symmetry; apply Z.leb_le; lia).
  reflexivity.
Qed.

Lemma month_start_is_bucket_start (i : Z) :
  0 <= i <= months ->
  dt_sub now (timedelta_days (30 * (months - i)))
  = Some (bucket_start now months i).
Proof.
  intros Hi. unfold dt_sub. apply dt_add_in_range.
  - apply bucket_start_valid, Hi.
  - rewrite ?td_us_days. unfold bucket_start.
    change (ticks (mk_datetime ?x)) with x. change (td_us (mk_timedelta ?x)) with x.
    rewrite ?td_us_days. ring.
Qed.

Lemma month_end_is_next_bucket_start (i : Z) :
  0 <= i < months ->
  dt_add (bucket_start now months i) (timedelta_days 30)
  = Some (bucket_start now months (i + 1)).
Proof.
  intros Hi. apply dt_add_in_range.
  - apply bucket_start_valid. lia.
  - rewrite ?td_us_days. unfold bucket_start.
    change (ticks (mk_datetime ?x)) with x. change (td_us (mk_timedelta ?x)) with x.
    rewrite ?td_us_days. ring.
Qed.

Lemma filter_twice {A : Type} (p q : A -> bool) (l : list A) :
  filter p (filter q l) = filter (fun x => q x && p x) l.
Proof.
  induction l as [| x l IH]; [reflexivity |].
  cbn. destruct (q x); cbn; [destruct (p x) |]; rewrite ?IH; reflexivity.
Qed.

(** Restricting the queried rows to a bucket selects the user's rows of
    that bucket: the window starts where bucket 0 starts. *)
Lemma month_expenses_are_bucket (i : Z) :
  0 <= i < months ->
  filter (in_bucket (bucket_start now months i)
                    (bucket_start now months (i + 1)))
         (window db_expenses user_id start_date)
  = bucket db_expenses user_id now months i.
Proof.
  intros Hi. unfold window, bucket. rewrite filter_twice.
  apply filter_ext. intros e.
  unfold in_window, in_bucket, dt_leb, dt_ltb.
  rewrite start_date_is_bucket_0.
  replace (ticks (bucket_start now months (i + 1)))
    with (ticks (bucket_start now months i) + 30 * US_PER_DAY)
    by (unfold bucket_start; change (ticks (mk_datetime ?x)) with x; ring).
  pose proof US_PER_DAY_pos as Hd.
  assert (ticks (bucket_start now months 0)
          <= ticks (bucket_start now months i)) as Hlo
    by (unfold bucket_start; change (ticks (mk_datetime ?x)) with x; nia).
  destruct (owner_id e =? user_id); cbn [andb]; [| reflexivity].
  destruct (Z.leb_spec (ticks (bucket_start now months i)) (ticks (date e)))
    as [Hb | Hb]; cbn [andb].
  - replace (ticks (bucket_start now months 0) <=? ticks (date e)) with true
      by (symmetry; apply Z.leb_le; lia).
    reflexivity.
  - destruct (_ <=? _); reflexivity.
Qed.

Lemma monthly_trend_spec (i : Z) :
  0 <= i < months ->
  monthly_trend (window db_expenses user_id start_date) now months i
  = inr (trend_entry db_expenses user_id now months i).
Proof.
  intros Hi. unfold monthly_trend.
  rewrite month_start_is_bucket_start by lia. cbn [lift_overflow ret bind].
  rewrite month_end_is_next_bucket_start by lia. cbn [lift_overflow ret bind].
  rewrite month_expenses_are_bucket by lia.
  rewrite breakdown_spec. reflexivity.
Qed.

Lemma in_range (n i : Z) : In i (range n) <-> 0 <= i < n.
Proof.
  unfold range. rewrite in_map_iff. split.
  - intros (k & <- & Hk). apply in_seq in Hk. lia.
  - intros Hi. exists (Z.to_nat i). split; [lia |]. apply in_seq. lia.
Qed.

Lemma for_each_spec {A B : Type} (f : A -> result B) (g : A -> B)
    (l : list A) :
  (forall a, In a l -> f a = inr (g a)) -> for_each f l = inr (map g l).
Proof.
  induction l as [| a l IH]; intros H; [reflexivity |].
  cbn [for_each map]. rewrite (H a) by (left; reflexivity).
  cbn [bind]. rewrite IH by (intros b Hb; apply H; right; exact Hb).
  reflexivity.
Qed.

(** The whole handler in closed form. *)
Lemma get_analytics_summary_spec :
  get_analytics_summary db_expenses user_id months now
  = inr
      (let expenses := window db_expenses user_id start_date in
       let total := py_sum (map amount expenses) in
       {| total_spending := round2 total;
          current_month_spending :=
            round2 (py_sum (map amount
              (filter (fun e => dt_leb (replace_to_month_start now) (date e))
                      expenses)));
          by_category := summary_rows expenses total;
          monthly_trends :=
            map (trend_entry db_expenses user_id now months)
                (range months) |}).
Proof.
  unfold get_analytics_summary. rewrite Hstart.
  cbn [lift_overflow ret bind]. fold (window db_expenses user_id start_date).
  rewrite breakdown_spec. cbn [bind].
  rewrite (for_each_spec _ (trend_entry db_expenses user_id now months)).
  - reflexivity.
  - intros i Hi. apply in_range in Hi. apply monthly_trend_spec, Hi.
Qed.

End Trend.

Section Summary.

Lemma summary_rows_categories (expenses : list Expense) (d : float) :
  map cs_category (summary_rows expenses d) = categories_present expenses.
Proof.
  unfold summary_rows. rewrite map_map. cbn [summary_row cs_category].
  apply map_id.
Qed.

Lemma summary_rows_Forall (expenses : list Expense) (d : float)
    (P : CategorySummary -> Prop) :
  (forall c, P (summary_row expenses d c)) -> Forall P (summary_rows expenses d).
Proof.
  intros H. unfold summary_rows. apply Forall_forall. intros row Hrow.
  apply in_map_iff in Hrow as (c & <- & _). apply H.
Qed.

Lemma categories_present_iff (expenses : list Expense) (c : CategoryEnum) :
  In c (categories_present expenses)
  <-> exists e, In e expenses /\ category e = c.
Proof.
  unfold categories_present. rewrite filter_In, existsb_exists. split.
  - intros (_ & e & He & Hc). exists e. split; [exact He |].
    apply CategoryEnum_eqb_eq, Hc.
  - intros (e & He & Hc). split.
    + destruct c; cbn; tauto.
    + exists e. split; [exact He |]. apply CategoryEnum_eqb_eq, Hc.
Qed.

Lemma summary_rows_nil (d : float) : summary_rows [] d = [].
Proof. reflexivity. Qed.

Lemma range_length (n : Z) : 0 <= n -> Z.of_nat (List.length (range n)) = n.
Proof. intros Hn. unfold range. rewrite length_map, length_seq. lia. Qed.

Lemma range_nth (n i : Z) :
  0 <= i < n -> nth_error (range n) (Z.to_nat i) = Some i.
Proof.
  intros Hi. unfold range. rewrite nth_error_map.
  rewrite nth_error_nth' with (d := 0%nat) by (rewrite length_seq; lia).
  rewrite seq_nth by lia. cbn. f_equal. lia.
Qed.

(** The window start is in range for every window size the endpoint admits
    ([Query(12, ge=1, le=60)]) once the clock is not before 1970. *)
Lemma admitted_window_in_range (months : Z) (now : datetime) :
  valid_datetime now -> dt_leb EPOCH now = true -> 1 <= months <= 60 ->
  exists start_date,
    dt_sub now (timedelta_days (30 * months)) = Some start_date.
Proof.
  intros [_ Hmax] Hepoch Hm. apply Z.leb_le in Hepoch.
  rewrite EPOCH_ticks in Hepoch.
  exists (mk_datetime (ticks now - 30 * months * US_PER_DAY)).
  unfold dt_sub. apply dt_add_in_range.
  - assert (ticks (mk_datetime (ticks now - 30 * months * US_PER_DAY))
            <= ticks now) as Hhi.
    { change (ticks (mk_datetime ?x)) with x. pose proof US_PER_DAY_pos. nia. }
    apply toordinal_mono in Hhi.
    assert (1 <= toordinal (mk_datetime (ticks now - 30 * months * US_PER_DAY)))
      as Hlo.
    { unfold toordinal. change (ticks (mk_datetime ?x)) with x.
      apply Z.div_le_lower_bound; [exact US_PER_DAY_pos |].
      pose proof US_PER_DAY_pos. nia. }
    unfold valid_datetime. lia.
  - change (ticks (mk_datetime ?x)) with x.
    change (td_us (mk_timedelta ?x)) with x. rewrite td_us_days. ring.
Qed.

End Summary.

(** C5, the claim as stated fails: with three equal categories each
    percentage comes out as 33.33, which is not [100 * 10 / 30]. *)
Lemma percentage_is_rounded_on_emission :
  exists s,
    get_analytics_summary Example.three_thirds 1 1 Example.now = inr s
    /\ map cs_percentage (by_category s) = [33.33; 33.33; 33.33]%float
    /\ PrimFloat.eqb 33.33 (100 * 10 / 30) = false.
Proof. eexists. vm_compute. repeat split. Qed.

(** C5 (amended): the category breakdown holds exactly the categories with
    at least one queried record, in the enum's declaration order; each entry
    has total equal to the sum of that category's amounts rounded to two
    decimals, count equal to the number of that category's records, and
    percentage equal to [categoryTotal / totalSpend * 100] rounded to two
    decimals (0 unless totalSpend is positive), both computed from the
    unrounded sums.  For [[{50, Food}, {50, Transport}]] the breakdown is
    Food: total 50, percentage 50.0, count 1, Transport likewise, and
    [total_spending] is 100.0. *)
Theorem by_category_breakdown
    (db_expenses : list Expense) (user_id months : Z)
    (now start_date : datetime)
    (Hnow : valid_datetime now)
    (Hstart : dt_sub now (timedelta_days (30 * months)) = Some start_date) :
  (exists s,
     get_analytics_summary db_expenses user_id months now = inr s
     /\ let expenses := window db_expenses user_id start_date in
        let total_spend := py_sum (map amount expenses) in
        total_spending s = round2 total_spend
        /\ map cs_category (by_category s)
           = filter (fun c => existsb
                       (fun e => CategoryEnum_eqb (category e) c) expenses)
                    CategoryEnum_members
        /\ (forall c, In c (map cs_category (by_category s))
                      <-> exists e, In e expenses /\ category e = c)
        /\ Forall
             (fun row =>
                let mine := of_category (cs_category row) expenses in
                let category_total := py_sum (map amount mine) in
                cs_total row = round2 category_total
                /\ cs_count row = Z.of_nat (List.length mine)
                /\ cs_percentage row
                   = round2 (if PrimFloat.ltb 0 total_spend
                             then (category_total / total_spend * 100)%float
                             else 0%float))
             (by_category s))
  /\ (exists s,
        get_analytics_summary Example.two_halves 1 12 Example.now = inr s
        /\ by_category s
           = [ {| cs_category := FOOD; cs_total := 50;
                  cs_percentage := 50; cs_count := 1 |};
               {| cs_category := TRANSPORT; cs_total := 50;
                  cs_percentage := 50; cs_count := 1 |} ]
        /\ total_spending s = 100%float).
Proof.
  split.
  - eexists. split.
    + exact (get_analytics_summary_spec db_expenses user_id months now
               start_date Hnow Hstart).
    + cbv zeta. cbn [total_spending by_category].
      split; [reflexivity |].
      rewrite summary_rows_categories.
      split; [reflexivity |].
      split; [intros c; apply categories_present_iff |].
      apply summary_rows_Forall. intros c. cbn.
      repeat split.
  - eexists. vm_compute. repeat split.
Qed.

Lemma by_category_breakdown_witness :
  valid_datetime Example.now
  /\ dt_sub Example.now (timedelta_days (30 * 12))
     = Some (datetime_of 2023 5 26 10 30 0 0)
  /\ exists s,
       get_analytics_summary Example.two_halves 1 12 Example.now = inr s
       /\ total_spending s
          = round2 (py_sum (map amount
              (window Example.two_halves 1
                      (datetime_of 2023 5 26 10 30 0 0)))).
Proof.
  assert (Hnow : valid_datetime Example.now)
    by (vm_compute; split; discriminate).
  assert (Hstart : dt_sub Example.now (timedelta_days (30 * 12))
                   = Some (datetime_of 2023 5 26 10 30 0 0))
    by (vm_compute; reflexivity).
  split; [exact Hnow | split; [exact Hstart |]].
  destruct (by_category_breakdown Example.two_halves 1 12 Example.now
              (datetime_of 2023 5 26 10 30 0 0) Hnow Hstart)
    as [(s & Hs & Ht & _) _].
  exists s. split; [exact Hs | exact Ht].
Defined.

(** C6: for a window of [months] buckets the monthly trend has exactly
    [months] entries; entry [i] (0 first) is the bucket that starts
    [30 * (months - i)] days before [now] and is 30 days wide: it carries the
    year-month string of the bucket start, the rounded sum of the user's
    expenses with [start <= date < start + 30 days], and their per-category
    breakdown: one row for each category with a record in the bucket, in the
    enum's declaration order, with the category's rounded total, its number
    of records and its rounded share of the bucket's own total; the buckets
    follow one another in time, oldest first. *)
Theorem monthly_trend_buckets
    (db_expenses : list Expense) (user_id months : Z)
    (now start_date : datetime)
    (Hnow : valid_datetime now)
    (Hstart : dt_sub now (timedelta_days (30 * months)) = Some start_date)
    (Hmonths : 0 <= months) :
  exists s,
    get_analytics_summary db_expenses user_id months now = inr s
    /\ Z.of_nat (List.length (monthly_trends s)) = months
    /\ forall i, 0 <= i < months ->
         let b := bucket db_expenses user_id now months i in
         exists m,
           nth_error (monthly_trends s) (Z.to_nat i) = Some m
           /\ dt_sub now (timedelta_days (30 * (months - i)))
              = Some (bucket_start now months i)
           /\ ms_month m = strftime_Y_m (bucket_start now months i)
           /\ ms_total m = round2 (py_sum (map amount b))
           /\ breakdown b (py_sum (map amount b)) = inr (ms_by_category m)
           /\ ticks (bucket_start now months (i + 1))
              = ticks (bucket_start now months i) + 30 * US_PER_DAY
           /\ ms_by_category m = summary_rows b (py_sum (map amount b))
           /\ map cs_category (ms_by_category m)
              = filter (fun c => existsb
                          (fun e => CategoryEnum_eqb (category e) c) b)
                       CategoryEnum_members
           /\ (forall c, In c (map cs_category (ms_by_category m))
                         <-> exists e, In e b /\ category e = c)
           /\ Forall
                (fun row =>
                   let mine := of_category (cs_category row) b in
                   let category_total := py_sum (map amount mine) in
                   let bucket_total := py_sum (map amount b) in
                   cs_total row = round2 category_total
                   /\ cs_count row = Z.of_nat (List.length mine)
                   /\ cs_percentage row
                      = round2 (if PrimFloat.ltb 0 bucket_total
                                then (category_total / bucket_total * 100)%float
                                else 0%float))
                (ms_by_category m).
Proof.
  eexists. split.
  - exact (get_analytics_summary_spec db_expenses user_id months now
             start_date Hnow Hstart).
  - cbv zeta. cbn [monthly_trends]. split.
    + rewrite length_map. apply range_length, Hmonths.
    + intros i Hi. exists (trend_entry db_expenses user_id now months i).
      split; [| split; [| split; [| split; [| split; [| split]]]]].
      * rewrite nth_error_map, range_nth by exact Hi. reflexivity.
      * apply (month_start_is_bucket_start months now start_date Hnow Hstart).
        lia.
      * reflexivity.
      * reflexivity.
      * apply breakdown_spec.
      * unfold bucket_start. change (ticks (mk_datetime ?x)) with x. ring.
      * cbn [trend_entry ms_by_category].
        split; [reflexivity |].
        rewrite summary_rows_categories.
        split; [reflexivity |].
        split; [intros c; apply categories_present_iff |].
        apply summary_rows_Forall. intros c. cbn.
        repeat split.
Qed.

Lemma monthly_trend_buckets_witness :
  valid_datetime Example.now
  /\ dt_sub Example.now (timedelta_days (30 * 12))
     = Some (datetime_of 2023 5 26 10 30 0 0)
  /\ 0 <= 12
  /\ exists s,
       get_analytics_summary Example.two_halves 1 12 Example.now = inr s
       /\ Z.of_nat (List.length (monthly_trends s)) = 12.
Proof.
  assert (Hnow : valid_datetime Example.now)
    by (vm_compute; split; discriminate).
  assert (Hstart : dt_sub Example.now (timedelta_days (30 * 12))
                   = Some (datetime_of 2023 5 26 10 30 0 0))
    by (vm_compute; reflexivity).
  assert (Hmonths : 0 <= 12) by lia.
  split; [exact Hnow | split; [exact Hstart | split; [exact Hmonths |]]].
  destruct (monthly_trend_buckets Example.two_halves 1 12 Example.now
              (datetime_of 2023 5 26 10 30 0 0) Hnow Hstart Hmonths)
    as (s & Hs & Hlen & _).
  exists s. split; [exact Hs | exact Hlen].
Defined.

Lemma for_each_error {A B : Type} (f : A -> result B) (l : list A)
    (e : py_exception) :
  for_each f l = inl e -> exists a, In a l /\ f a = inl e.
Proof.
  induction l as [| a l IH]; [discriminate |].
  cbn [for_each]. destruct (f a) as [e' | b] eqn:Hfa; cbn [bind].
  - intros [= <-]. exists a. split; [left; reflexivity | exact Hfa].
  - destruct (for_each f l) as [e' | bs]; cbn [bind ret]; [| discriminate].
    intros [= <-]. destruct (IH eq_refl) as (a' & Ha' & Hf).
    exists a'. split; [right; exact Ha' | exact Hf].
Qed.

Lemma monthly_trend_no_division_by_zero
    (expenses : list Expense) (now : datetime) (months i : Z) :
  monthly_trend expenses now months i <> inl ZeroDivisionError.
Proof.
  unfold monthly_trend.
  destruct (dt_sub now _) as [month_start |]; cbn [lift_overflow bind ret raise];
    [| discriminate].
  destruct (dt_add month_start _) as [month_end |];
    cbn [lift_overflow bind ret raise]; [| discriminate].
  rewrite breakdown_spec. discriminate.
Qed.

Lemma no_division_by_zero
    (db_expenses : list Expense) (user_id months : Z) (now : datetime) :
  get_analytics_summary db_expenses user_id months now
  <> inl ZeroDivisionError.
Proof.
  unfold get_analytics_summary.
  destruct (dt_sub now _) as [start_date |]; cbn [lift_overflow bind ret raise];
    [| discriminate].
  rewrite breakdown_spec. cbn [bind].
  destruct (for_each _ _) as [e | trends] eqn:Hloop; cbn [bind ret];
    [| discriminate].
  intros [= ->]. apply for_each_error in Hloop as (i & _ & Hi).
  exact (monthly_trend_no_division_by_zero _ _ _ _ Hi).
Qed.

(** C7: the percentage against a zero denominator (the window's total or a
    bucket's total) is 0 and not an error; the division is only reached
    with a positive denominator, so [ZeroDivisionError] is never raised, and
    the handler returns a summary whenever its dates are in range. *)
Theorem zero_denominator_yields_zero_percent
    (db_expenses : list Expense) (user_id months : Z)
    (now start_date : datetime)
    (Hnow : valid_datetime now)
    (Hstart : dt_sub now (timedelta_days (30 * months)) = Some start_date) :
  (exists s, get_analytics_summary db_expenses user_id months now = inr s)
  /\ (forall total d, is_zero d -> percentage_of total d = inr 0%float)
  /\ (forall total d,
        exists p, percentage_of total d = inr p
                  /\ (PrimFloat.ltb 0 d = false -> p = 0%float))
  /\ (forall expenses d, is_zero d ->
        exists rows, breakdown expenses d = inr rows
                     /\ Forall (fun row => cs_percentage row = 0%float) rows)
  /\ (forall db u m t, get_analytics_summary db u m t <> inl ZeroDivisionError).
Proof.
  split; [| split; [| split; [| split]]].
  - eexists.
    exact (get_analytics_summary_spec db_expenses user_id months now
             start_date Hnow Hstart).
  - intros total d Hz. rewrite percentage_of_value, zero_not_positive by exact Hz.
    reflexivity.
  - intros total d. eexists. split; [apply percentage_of_value |].
    intros ->. reflexivity.
  - intros expenses d Hz. eexists. split; [apply breakdown_spec |].
    apply summary_rows_Forall. intros c. cbn [summary_row cs_percentage].
    rewrite zero_not_positive by exact Hz. apply round2_zero.
  - apply no_division_by_zero.
Qed.

Lemma zero_denominator_yields_zero_percent_witness :
  valid_datetime Example.now
  /\ dt_sub Example.now (timedelta_days (30 * 12))
     = Some (datetime_of 2023 5 26 10 30 0 0)
  /\ exists s,
       get_analytics_summary
         [Example.spent 1 FOOD 0; Example.spent 2 OTHER 0] 1 12 Example.now
       = inr s.
Proof.
  assert (Hnow : valid_datetime Example.now)
    by (vm_compute; split; discriminate).
  assert (Hstart : dt_sub Example.now (timedelta_days (30 * 12))
                   = Some (datetime_of 2023 5 26 10 30 0 0))
    by (vm_compute; reflexivity).
  split; [exact Hnow | split; [exact Hstart |]].
  exact (proj1 (zero_denominator_yields_zero_percent
                  [Example.spent 1 FOOD 0; Example.spent 2 OTHER 0] 1 12
                  Example.now (datetime_of 2023 5 26 10 30 0 0) Hnow Hstart)).
Defined.

(** C8: on an empty expense list, for every window size [months], the
    summary has [total_spending = 0], [current_month_spending = 0], an empty
    [by_category] and exactly [months] trend entries, each with total 0 and
    an empty per-category list. *)
Theorem empty_expense_list
    (user_id months : Z) (now start_date : datetime)
    (Hnow : valid_datetime now)
    (Hstart : dt_sub now (timedelta_days (30 * months)) = Some start_date)
    (Hmonths : 0 <= months) :
  exists s,
    get_analytics_summary [] user_id months now = inr s
    /\ total_spending s = 0%float
    /\ current_month_spending s = 0%float
    /\ by_category s = []
    /\ Z.of_nat (List.length (monthly_trends s)) = months
    /\ Forall (fun m => ms_total m = 0%float /\ ms_by_category m = [])
              (monthly_trends s).
Proof.
  eexists. split.
  - exact (get_analytics_summary_spec [] user_id months now
             start_date Hnow Hstart).
  - cbv zeta.
    cbn [total_spending current_month_spending by_category monthly_trends].
    change (window [] user_id start_date) with (@nil Expense).
    cbn [map filter]. rewrite py_sum_nil, round2_zero, summary_rows_nil.
    repeat split.
    + rewrite length_map. apply range_length, Hmonths.
    + apply Forall_forall. intros m Hm.
      apply in_map_iff in Hm as (i & <- & _).
      unfold trend_entry. change (bucket [] user_id now months i) with (@nil Expense).
      cbn [map ms_total ms_by_category].
      rewrite py_sum_nil, round2_zero, summary_rows_nil. split; reflexivity.
Qed.

Lemma empty_expense_list_witness :
  valid_datetime Example.now
  /\ dt_sub Example.now (timedelta_days (30 * 12))
     = Some (datetime_of 2023 5 26 10 30 0 0)
  /\ 0 <= 12
  /\ exists s,
       get_analytics_summary [] 1 12 Example.now = inr s
       /\ total_spending s = 0%float
       /\ current_month_spending s = 0%float
       /\ by_category s = []
       /\ Z.of_nat (List.length (monthly_trends s)) = 12
       /\ Forall (fun m => ms_total m = 0%float /\ ms_by_category m = [])
                 (monthly_trends s).
Proof.
  assert (Hnow : valid_datetime Example.now)
    by (vm_compute; split; discriminate).
  assert (Hstart : dt_sub Example.now (timedelta_days (30 * 12))
                   = Some (datetime_of 2023 5 26 10 30 0 0))
    by (vm_compute; reflexivity).
  assert (Hmonths : 0 <= 12) by lia.
  split; [exact Hnow | split; [exact Hstart | split; [exact Hmonths |]]].
  exact (empty_expense_list 1 12 Example.now
           (datetime_of 2023 5 26 10 30 0 0) Hnow Hstart Hmonths).
Defined.

(* ================================================================== *)
(** * Budgets: one row per owner and category                           *)
(* ================================================================== *)

Section BudgetInvariant.

Import Budgets.

Lemma matches_key (u : Z) (c : CategoryEnum) (b : Budget) :
  matches u c b = true <-> key b = (u, c).
Proof.
  unfold matches, key. rewrite andb_true_iff, Z.eqb_eq, CategoryEnum_eqb_eq.
  split; [intros [-> ->]; reflexivity | intros [= -> ->]; split; reflexivity].
Qed.

Lemma find_matches_none (u : Z) (c : CategoryEnum) (budgets : list Budget) :
  find (matches u c) budgets = None -> ~ In (u, c) (map key budgets).
Proof.
  intros Hnone Hin. apply in_map_iff in Hin as (b & Hk & Hb).
  pose proof (find_none _ _ Hnone b Hb) as Hf.
  apply matches_key in Hk. congruence.
Qed.

Lemma find_matches_some (u : Z) (c : CategoryEnum) (budgets : list Budget) :
  In (u, c) (map key budgets) ->
  exists existing, find (matches u c) budgets = Some existing.
Proof.
  intros Hin. destruct (find (matches u c) budgets) as [b |] eqn:Hf.
  - exists b. reflexivity.
  - exfalso. exact (find_matches_none u c budgets Hf Hin).
Qed.

Lemma update_first_keys (p : Budget -> bool) (limit : float)
    (budgets : list Budget) :
  map key (update_first p (set_monthly_limit limit) budgets) = map key budgets.
Proof.
  induction budgets as [| b budgets IH]; [reflexivity |].
  cbn [update_first]. destruct (p b); cbn [map]; [reflexivity |].
  rewrite IH. reflexivity.
Qed.

Lemma delete_first_keys_incl (p : Budget -> bool) (budgets : list Budget)
    (k : Z * CategoryEnum) :
  In k (map key (delete_first p budgets)) -> In k (map key budgets).
Proof.
  induction budgets as [| b budgets IH]; [intros [] |].
  cbn [delete_first]. destruct (p b); cbn [map In].
  - intros H. right. exact H.
  - intros [H | H]; [left; exact H | right; exact (IH H)].
Qed.

Lemma delete_first_unique (p : Budget -> bool) (budgets : list Budget) :
  unique_owner_category budgets ->
  unique_owner_category (delete_first p budgets).
Proof.
  unfold unique_owner_category.
  induction budgets as [| b budgets IH]; intros Hu; [constructor |].
  cbn [delete_first]. cbn [map] in Hu. inversion_clear Hu as [| ? ? Hnotin Hrest].
  destruct (p b); [exact Hrest |].
  cbn [map]. constructor; [| exact (IH Hrest)].
  intros Hin. apply Hnotin. exact (delete_first_keys_incl p budgets _ Hin).
Qed.

Lemma append_unique (budgets : list Budget) (b : Budget) :
  unique_owner_category budgets -> ~ In (key b) (map key budgets) ->
  unique_owner_category (budgets ++ [b]).
Proof.
  unfold unique_owner_category. intros Hu Hnotin.
  rewrite map_app. apply NoDup_app; [exact Hu | |].
  - cbn. constructor; [intros [] | constructor].
  - intros k Hk [<- | []]. exact (Hnotin Hk).
Qed.

(** Every request keeps the table free of duplicate (owner, category). *)
Lemma serve_unique (budgets : list Budget) (r : request) :
  unique_owner_category budgets -> unique_owner_category (serve budgets r).
Proof.
  intros Hu. destruct r as [u d | u c d | u c]; cbn [serve].
  - unfold create_budget.
    destruct (find (matches u (bc_category d)) budgets) eqn:Hf; cbn [snd];
      [exact Hu |].
    apply append_unique; [exact Hu |].
    exact (find_matches_none u (bc_category d) budgets Hf).
  - unfold update_budget.
    destruct (find (matches u c) budgets); cbn [snd]; [| exact Hu].
    unfold unique_owner_category. rewrite update_first_keys. exact Hu.
  - unfold delete_budget.
    destruct (find (matches u c) budgets); cbn [snd]; [| exact Hu].
    apply delete_first_unique, Hu.
Qed.

Lemma serve_all_unique (rs : list request) :
  forall budgets, unique_owner_category budgets ->
                  unique_owner_category (fold_left serve rs budgets).
Proof.
  induction rs as [| r rs IH]; intros budgets Hu; [exact Hu |].
  cbn [fold_left]. apply IH, serve_unique, Hu.
Qed.

Lemma unique_at_most_one (u : Z) (c : CategoryEnum) (budgets : list Budget) :
  unique_owner_category budgets ->
  (List.length (filter (matches u c) budgets) <= 1)%nat.
Proof.
  unfold unique_owner_category.
  induction budgets as [| b budgets IH]; intros Hu; [cbn; lia |].
  cbn [map] in Hu. inversion_clear Hu as [| ? ? Hnotin Hrest].
  cbn [filter]. destruct (matches u c b) eqn:Hm; [| exact (IH Hrest)].
  apply matches_key in Hm.
  assert (filter (matches u c) budgets = []) as ->; [| cbn; lia].
  destruct (filter (matches u c) budgets) as [| b' l] eqn:Hfil; [reflexivity |].
  exfalso. apply Hnotin.
  assert (In b' (filter (matches u c) budgets)) as Hb'
    by (rewrite Hfil; left; reflexivity).
  apply filter_In in Hb' as [Hin Hm']. apply matches_key in Hm'.
  rewrite Hm, <- Hm'. apply in_map, Hin.
Qed.

(** C9: a request to create a budget for an (owner, category) pair that
    already has one is answered with HTTP 400 and leaves the table as it
    is; every request (create, update, delete) keeps (owner_id, category)
    unique across the table, so in every state reached from the empty table
    an owner has at most one budget per category. *)
Theorem budget_unique_per_owner_and_category
    (budgets : list Budget) (budget_data : BudgetCreate) (user_id : Z)
    (Hunique : unique_owner_category budgets)
    (Hexists : In (user_id, bc_category budget_data) (map key budgets)) :
  (exists exn,
     create_budget budgets budget_data user_id = (inl exn, budgets)
     /\ status_code exn = 400)
  /\ (forall r, unique_owner_category (serve budgets r))
  /\ (forall rs, unique_owner_category (fold_left serve rs budgets))
  /\ (forall rs u c,
        unique_owner_category (fold_left serve rs [])
        /\ (List.length (filter (matches u c) (fold_left serve rs [])) <= 1)%nat).
Proof.
  split; [| split; [| split]].
  - destruct (find_matches_some _ _ _ Hexists) as (existing & Hf).
    unfold create_budget. rewrite Hf. eexists. split; reflexivity.
  - intros r. apply serve_unique, Hunique.
  - intros rs. apply serve_all_unique, Hunique.
  - intros rs u c.
    assert (unique_owner_category (fold_left serve rs [])) as Hu
      by (apply serve_all_unique; constructor).
    split; [exact Hu | apply unique_at_most_one, Hu].
Qed.

Lemma budget_unique_per_owner_and_category_witness :
  let budgets := [ {| id := 1; owner_id := 7; category := FOOD;
                      monthly_limit := 300 |} ] in
  let budget_data := {| bc_category := FOOD; bc_monthly_limit := 450 |} in
  unique_owner_category budgets
  /\ In (7, bc_category budget_data) (map key budgets)
  /\ exists exn,
       create_budget budgets budget_data 7 = (inl exn, budgets)
       /\ status_code exn = 400.
Proof.
  cbv zeta.
  assert (Hu : unique_owner_category
                 [ {| id := 1; owner_id := 7; category := FOOD;
                      monthly_limit := 300 |} ])
    by (repeat constructor; intros []).
  assert (Hin : In (7, bc_category {| bc_category := FOOD;
                                      bc_monthly_limit := 450 |})
                   (map key [ {| id := 1; owner_id := 7; category := FOOD;
                                 monthly_limit := 300 |} ]))
    by (left; reflexivity).
  split; [exact Hu | split; [exact Hin |]].
  exact (proj1 (budget_unique_per_owner_and_category _ _ 7 Hu Hin)).
Defined.

End BudgetInvariant.

(* ================================================================== *)
(** * Partial update of a recurring expense                             *)
(* ================================================================== *)

Section PartialUpdate.

(** [update_first] touches one position only: that of the row [find]
    returns. *)
Lemma update_first_frame {A : Type} (p : A -> bool) (f : A -> A) (l : list A)
    (x : A) :
  find p l = Some x ->
  exists i : nat,
    nth_error l i = Some x
    /\ nth_error (update_first p f l) i = Some (f x)
    /\ (forall j, j <> i -> nth_error (update_first p f l) j = nth_error l j)
    /\ (forall j y, (j < i)%nat -> nth_error l j = Some y -> p y = false).
Proof.
  induction l as [| a l IH]; [discriminate |].
  cbn [find update_first]. destruct (p a) eqn:Hp.
  - intros [= <-]. exists 0%nat. repeat split.
    + intros [| j] Hj; [contradiction | reflexivity].
    + intros j y Hj. lia.
  - intros Hf. destruct (IH Hf) as (i & Hi & Hi' & Hframe & Hbefore).
    exists (S i). repeat split; try assumption.
    + intros [| j] Hj; [reflexivity |]. cbn. apply Hframe. lia.
    + intros [| j] y Hj; cbn.
      * intros [= <-]. exact Hp.
      * apply Hbefore. lia.
Qed.

Lemma update_first_length {A : Type} (p : A -> bool) (f : A -> A)
    (l : list A) :
  List.length (update_first p f l) = List.length l.
Proof.
  induction l as [| a l IH]; [reflexivity |].
  cbn [update_first]. destruct (p a); cbn; [| rewrite IH]; reflexivity.
Qed.

(** C10: a partial update of the addressed recurring expense keeps the
    stored value of every field (amount, category, description, frequency,
    is_active) whose payload field is omitted, never turns a stored
    description back into null, leaves id, owner and last_generated alone,
    and changes no other row of the table. *)
Theorem update_recurring_expense_frame
    (recurring_expenses : list RecurringExpense) (recurring_id user_id : Z)
    (expense_data : RecurringExpenseUpdate) (recurring : RecurringExpense)
    (Hfound : find (addressed recurring_id user_id) recurring_expenses
              = Some recurring) :
  exists (updated : RecurringExpense) (table : list RecurringExpense),
    update_recurring_expense recurring_expenses recurring_id
                             expense_data user_id
    = (inr updated, table)
    /\ (ru_amount expense_data = None ->
        re_amount updated = re_amount recurring)
    /\ (ru_category expense_data = None ->
        re_category updated = re_category recurring)
    /\ (ru_description expense_data = None ->
        re_description updated = re_description recurring)
    /\ (ru_frequency expense_data = None ->
        re_frequency updated = re_frequency recurring)
    /\ (ru_is_active expense_data = None ->
        re_is_active updated = re_is_active recurring)
    /\ (re_description updated = None -> re_description recurring = None)
    /\ re_id updated = re_id recurring
    /\ re_owner_id updated = re_owner_id recurring
    /\ re_last_generated updated = re_last_generated recurring
    /\ List.length table = List.length recurring_expenses
    /\ exists i : nat,
         nth_error recurring_expenses i = Some recurring
         /\ nth_error table i = Some updated
         /\ forall j, j <> i ->
              nth_error table j = nth_error recurring_expenses j.
Proof.
  unfold update_recurring_expense. rewrite Hfound.
  exists (apply_update expense_data recurring). eexists.
  split; [reflexivity |].
  unfold apply_update. cbn [re_amount re_category re_description re_frequency
                            re_is_active re_id re_owner_id re_last_generated].
  split; [intros ->; reflexivity |].
  split; [intros ->; reflexivity |].
  split; [intros ->; reflexivity |].
  split; [intros ->; reflexivity |].
  split; [intros ->; reflexivity |].
  split; [destruct (ru_description expense_data); [discriminate | tauto] |].
  split; [reflexivity |].
  split; [reflexivity |].
  split; [reflexivity |].
  split; [apply update_first_length |].
  destruct (update_first_frame (addressed recurring_id user_id)
              (apply_update expense_data) recurring_expenses recurring Hfound)
    as (i & Hi & Hi' & Hframe & _).
  exists i. split; [exact Hi | split; [exact Hi' | exact Hframe]].
Qed.

Lemma update_recurring_expense_frame_witness :
  let rent := {| re_id := 1; re_owner_id := 7; re_amount := 900;
                 re_category := UTILITIES; re_description := Some "Rent"%string;
                 re_frequency := MONTHLY; re_is_active := true;
                 re_last_generated := None |} in
  let gym := {| re_id := 2; re_owner_id := 7; re_amount := 30;
                re_category := HEALTH; re_description := Some "Gym"%string;
                re_frequency := WEEKLY; re_is_active := true;
                re_last_generated := None |} in
  let payload := {| ru_amount := Some 35%float; ru_category := None;
                    ru_description := None; ru_frequency := None;
                    ru_is_active := None |} in
  find (addressed 2 7) [rent; gym] = Some gym
  /\ exists updated table,
       update_recurring_expense [rent; gym] 2 payload 7 = (inr updated, table)
       /\ re_description updated = Some "Gym"%string
       /\ nth_error table 0 = Some rent.
Proof.
  cbv zeta.
  split; [reflexivity |].
  destruct (update_recurring_expense_frame
              [ {| re_id := 1; re_owner_id := 7; re_amount := 900;
                   re_category := UTILITIES;
                   re_description := Some "Rent"%string;
                   re_frequency := MONTHLY; re_is_active := true;
                   re_last_generated := None |};
                {| re_id := 2; re_owner_id := 7; re_amount := 30;
                   re_category := HEALTH; re_description := Some "Gym"%string;
                   re_frequency := WEEKLY; re_is_active := true;
                   re_last_generated := None |} ]
              2 7
              {| ru_amount := Some 35%float; ru_category := None;
                 ru_description := None; ru_frequency := None;
                 ru_is_active := None |}
              {| re_id := 2; re_owner_id := 7; re_amount := 30;
                 re_category := HEALTH; re_description := Some "Gym"%string;
                 re_frequency := WEEKLY; re_is_active := true;
                 re_last_generated := None |}
              eq_refl)
    as (updated & table & Heq & _ & _ & Hdesc & _ & _ & _ & _ & _ & _ & _
        & i & Hi & _ & Hframe).
  exists updated, table. split; [exact Heq | split].
  - exact (Hdesc eq_refl).
  - destruct i as [| i]; [discriminate Hi |].
    rewrite (Hframe 0%nat) by discriminate. reflexivity.
Defined.

End PartialUpdate.

(* ================================================================== *)
(** * More on the recurring expenses                                    *)
(* ================================================================== *)

Section WeeklyRule.

Lemma weekly_elapsed (t now : datetime) :
  should_generate WEEKLY (Some t) now = true
  <-> 7 * US_PER_DAY <= ticks now - ticks t.
Proof.
  unfold should_generate, days, dt_diff. cbn [td_us].
  rewrite Z.leb_le. unfold US_PER_DAY, US_PER_HOUR, US_PER_SECOND.
  split; intros H; Z.div_mod_to_equations; lia.
Qed.

(** X1: the weekly frequency is due exactly when at least seven times 24
    hours have elapsed since [last_generated]: not yet one microsecond
    before, and from then on; whenever it is due, a daily record with the
    same stamp is due as well. *)
Theorem weekly_due_after_7_days
    (t now t_before t_week : datetime)
    (Hbefore : dt_add t (mk_timedelta (7 * US_PER_DAY - 1)) = Some t_before)
    (Hweek : dt_add t (timedelta_days 7) = Some t_week) :
  (should_generate WEEKLY (Some t) now = true
   <-> 7 * US_PER_DAY <= ticks now - ticks t)
  /\ should_generate WEEKLY (Some t) t_before = false
  /\ should_generate WEEKLY (Some t) t_week = true
  /\ (should_generate WEEKLY (Some t) now = true ->
      should_generate DAILY (Some t) now = true).
Proof.
  apply dt_add_ticks in Hbefore, Hweek.
  change (td_us (mk_timedelta ?x)) with x in Hbefore.
  rewrite td_us_days in Hweek.
  pose proof US_PER_DAY_pos as Hd.
  split; [exact (weekly_elapsed t now) | split; [| split]].
  - apply not_true_is_false. rewrite weekly_elapsed. lia.
  - rewrite weekly_elapsed. lia.
  - rewrite weekly_elapsed, daily_elapsed. lia.
Qed.

Lemma weekly_due_after_7_days_witness :
  let t := datetime_of 2024 1 1 8 0 0 0 in
  should_generate WEEKLY (Some t) (datetime_of 2024 1 8 7 59 59 999999) = false
  /\ should_generate WEEKLY (Some t) (datetime_of 2024 1 8 8 0 0 0) = true.
Proof.
  cbv zeta.
  pose proof (weekly_due_after_7_days
                (datetime_of 2024 1 1 8 0 0 0) (datetime_of 2024 1 8 8 0 0 0)
                (datetime_of 2024 1 8 7 59 59 999999)
                (datetime_of 2024 1 8 8 0 0 0) eq_refl eq_refl)
    as (_ & Hb & Hw & _).
  split; [exact Hb | exact Hw].
Defined.

End WeeklyRule.

Section SecondPass.

Variable now : datetime.

Lemma not_due_at_own_stamp (frequency : FrequencyEnum) :
  should_generate frequency (Some now) now = false.
Proof.
  unfold should_generate, days, dt_diff. cbn [td_us].
  rewrite Z.sub_diag, !Z.eqb_refl.
  destruct frequency; reflexivity.
Qed.

Lemma stamped_does_not_fire (r : RecurringExpense) :
  fires now (stamp now r) = false.
Proof.
  unfold stamp. destruct (fires now r) eqn:Hf; [| exact Hf].
  unfold fires, set_last_generated.
  cbn [re_is_active re_frequency re_last_generated].
  rewrite not_due_at_own_stamp. apply andb_false_r.
Qed.

Lemma stamp_twice (r : RecurringExpense) :
  stamp now (stamp now r) = stamp now r.
Proof.
  unfold stamp at 1. rewrite stamped_does_not_fire. reflexivity.
Qed.

Lemma no_stamped_row_fires (rows : list RecurringExpense) :
  filter (fires now) (map (stamp now) rows) = [].
Proof.
  induction rows as [| r rows IH]; [reflexivity |].
  cbn [map filter]. rewrite stamped_does_not_fire. exact IH.
Qed.

End SecondPass.

(** X2: a second pass at the same reference time does nothing: it reports
    count 0 and leaves both tables as the first pass left them. *)
Theorem process_twice_generates_nothing :
  forall (recurring_expenses : list RecurringExpense)
         (expenses : list Expense) (now : datetime),
    let '(rows1, expenses1, _) :=
      process_recurring_expenses recurring_expenses expenses now in
    process_recurring_expenses rows1 expenses1 now = (rows1, expenses1, 0).
Proof.
  intros rows expenses now. unfold process_recurring_expenses.
  destruct (process_rows_spec now rows expenses 0) as (new & -> & _).
  destruct (process_rows_spec now (map (stamp now) rows) (expenses ++ new) 0)
    as (new' & -> & Hall).
  rewrite no_stamped_row_fires in Hall. inversion Hall; subst.
  rewrite app_nil_r, map_map. f_equal. f_equal.
  apply map_ext. intros r. apply stamp_twice.
Qed.

Section FirstPass.

(** The loop over two runs of rows is the loop over the first, continued
    over the second. *)
Lemma process_rows_app (now : datetime) (rows1 rows2 : list RecurringExpense) :
  forall (expenses : list Expense) (count : Z),
    process_rows now (rows1 ++ rows2) expenses count
    = let '(done1, expenses1, count1) :=
        process_rows now rows1 expenses count in
      let '(done2, expenses2, count2) :=
        process_rows now rows2 expenses1 count1 in
      (done1 ++ done2, expenses2, count2).
Proof.
  induction rows1 as [| r rows1 IH]; intros expenses count.
  - cbn [app process_rows].
    destruct (process_rows now rows2 expenses count) as [[d e] c]. reflexivity.
  - cbn [app process_rows]. destruct (fires now r).
    + rewrite IH.
      destruct (process_rows now rows1 _ _) as [[d1 e1] c1].
      destruct (process_rows now rows2 e1 c1) as [[d2 e2] c2]. reflexivity.
    + rewrite IH.
      destruct (process_rows now rows1 _ _) as [[d1 e1] c1].
      destruct (process_rows now rows2 e1 c1) as [[d2 e2] c2]. reflexivity.
Qed.

Lemma due_when_never_generated (frequency : FrequencyEnum) (now : datetime) :
  1970 < year now -> should_generate frequency None now = true.
Proof.
  intros Hyear.
  pose proof (days_since_epoch now (after_1970_ordinal now Hyear)) as Hd.
  destruct EPOCH_fields as (Hy & _ & _).
  unfold should_generate. destruct frequency.
  - apply Z.leb_le. lia.
  - apply Z.leb_le. lia.
  - rewrite Hy. apply orb_true_iff. right.
    apply negb_true_iff, Z.eqb_neq. lia.
  - rewrite Hy. apply negb_true_iff, Z.eqb_neq. lia.
Qed.

(** X3: a recurring expense that was just created is active and was never
    generated, so the next pass (at any time after 1970) generates its
    first instance: the last new expense belongs to the creating user, has
    the submitted amount and category, is dated [now], and the record is
    stamped with [now]; the rows that were there before are processed as
    they would have been without it. *)
Theorem created_recurring_fires_on_first_pass
    (recurring_expenses : list RecurringExpense)
    (expense_data : RecurringExpenseCreate) (user_id : Z)
    (expenses : list Expense) (now : datetime)
    (Hyear : 1970 < year now) :
  let '(created, table) :=
    create_recurring_expense recurring_expenses expense_data user_id in
  exists (earlier : list Expense) (e : Expense),
    process_recurring_expenses table expenses now
    = (map (stamp now) recurring_expenses ++ [set_last_generated created now],
       expenses ++ earlier ++ [e],
       Z.of_nat (List.length earlier) + 1)
    /\ fst (fst (process_recurring_expenses recurring_expenses expenses now))
       = map (stamp now) recurring_expenses
    /\ snd (fst (process_recurring_expenses recurring_expenses expenses now))
       = expenses ++ earlier
    /\ owner_id e = user_id
    /\ amount e = rc_amount expense_data
    /\ category e = rc_category expense_data
    /\ date e = now.
Proof.
  unfold create_recurring_expense. cbv zeta.
  set (created := mk_RecurringExpense _ _ _ _ _ _ _ _).
  assert (Hf : fires now created = true).
  { unfold fires, created. cbn [re_is_active re_frequency re_last_generated].
    apply due_when_never_generated, Hyear. }
  unfold process_recurring_expenses.
  destruct (process_rows_spec now recurring_expenses expenses 0)
    as (earlier & Heq & _).
  exists earlier, (new_expense (expenses ++ earlier) created now).
  rewrite process_rows_app, Heq. cbn [process_rows fst snd]. rewrite Hf.
  rewrite <- app_assoc, Z.add_0_l. repeat split.
Qed.

End FirstPass.

Lemma created_recurring_fires_on_first_pass_witness :
  let data := {| rc_amount := 12.5; rc_category := FOOD;
                 rc_description := Some "Lunch plan"%string;
                 rc_frequency := WEEKLY |} in
  1970 < year Example.now
  /\ exists e,
       snd (fst (process_recurring_expenses
                   (snd (create_recurring_expense [] data 7)) []
                   Example.now)) = [e]
       /\ owner_id e = 7 /\ date e = Example.now.
Proof.
  cbv zeta.
  assert (Hyear : 1970 < year Example.now) by (vm_compute; reflexivity).
  split; [exact Hyear |].
  pose proof (created_recurring_fires_on_first_pass
                [] {| rc_amount := 12.5; rc_category := FOOD;
                      rc_description := Some "Lunch plan"%string;
                      rc_frequency := WEEKLY |} 7 [] Example.now Hyear) as H.
  unfold create_recurring_expense in H. cbv zeta in H.
  destruct H as (earlier & e & Heq & _ & Hearlier & Ho & _ & _ & Hd).
  exists e. unfold create_recurring_expense. cbv zeta. cbn [snd].
  rewrite Heq. cbn [fst snd].
  destruct earlier as [| x earlier].
  - split; [reflexivity | split; assumption].
  - discriminate Hearlier.
Defined.

(* ================================================================== *)
(** * Tables: what a request of one user can touch                      *)
(* ================================================================== *)

Section Tables.

Context {A : Type}.
Variables (p keep : A -> bool) (f : A -> A).

Lemma filter_update_first (l : list A) :
  (forall x, p x = true -> keep x = false /\ keep (f x) = false) ->
  filter keep (update_first p f l) = filter keep l.
Proof.
  intros H. induction l as [| x l IH]; [reflexivity |].
  cbn [update_first]. destruct (p x) eqn:Hp.
  - destruct (H x Hp) as [H1 H2]. cbn [filter]. rewrite H1, H2. reflexivity.
  - cbn [filter]. rewrite IH. reflexivity.
Qed.

Lemma filter_delete_first (l : list A) :
  (forall x, p x = true -> keep x = false) ->
  filter keep (delete_first p l) = filter keep l.
Proof.
  intros H. induction l as [| x l IH]; [reflexivity |].
  cbn [delete_first]. destruct (p x) eqn:Hp.
  - cbn [filter]. rewrite (H x Hp). reflexivity.
  - cbn [filter]. rewrite IH. reflexivity.
Qed.

Lemma filter_append_one (l : list A) (x : A) :
  keep x = false -> filter keep (l ++ [x]) = filter keep l.
Proof.
  intros H. rewrite filter_app. cbn [filter]. rewrite H. apply app_nil_r.
Qed.

Lemma find_delete_first_other (q : A -> bool) (l : list A) :
  (forall x, q x = true -> p x = false) ->
  find q (delete_first p l) = find q l.
Proof.
  intros H. induction l as [| x l IH]; [reflexivity |].
  cbn [delete_first]. destruct (p x) eqn:Hp.
  - cbn [find]. destruct (q x) eqn:Hq; [| reflexivity].
    rewrite (H x Hq) in Hp. discriminate.
  - cbn [find]. rewrite IH. reflexivity.
Qed.

Lemma delete_first_length (l : list A) (x : A) :
  find p l = Some x ->
  (List.length (delete_first p l) + 1 = List.length l)%nat.
Proof.
  revert x. induction l as [| a l IH]; intros x; [discriminate |].
  cbn [find delete_first]. destruct (p a).
  - intros _. cbn. lia.
  - intros Hf. cbn [List.length]. rewrite <- (IH x Hf). lia.
Qed.

Lemma delete_first_In (l : list A) (x : A) :
  In x (delete_first p l) -> In x l.
Proof.
  induction l as [| a l IH]; [intros [] |].
  cbn [delete_first]. destruct (p a).
  - intros H. right. exact H.
  - intros [H | H]; [left; exact H | right; exact (IH H)].
Qed.

End Tables.

Section RecurringIsolation.

Lemma addressed_owner (rid u : Z) (r : RecurringExpense) :
  addressed rid u r = true -> re_id r = rid /\ re_owner_id r = u.
Proof.
  unfold addressed. rewrite andb_true_iff, !Z.eqb_eq. tauto.
Qed.

Lemma serve_recurring_others
    (user_id : Z) (table : list RecurringExpense) (r : recurring_request) :
  rows_of_others user_id (serve_recurring user_id table r)
  = rows_of_others user_id table.
Proof.
  unfold rows_of_others. destruct r as [d | rid d | rid]; cbn [serve_recurring].
  - unfold create_recurring_expense. cbn [snd].
    apply filter_append_one. cbn [re_owner_id]. rewrite Z.eqb_refl. reflexivity.
  - unfold update_recurring_expense.
    destruct (find _ table); cbn [snd]; [| reflexivity].
    apply filter_update_first. intros x Hx.
    apply addressed_owner in Hx as [_ Ho].
    unfold apply_update. cbn [re_owner_id]. rewrite Ho, Z.eqb_refl.
    split; reflexivity.
  - unfold delete_recurring_expense.
    destruct (find _ table); cbn [snd]; [| reflexivity].
    apply filter_delete_first. intros x Hx.
    apply addressed_owner in Hx as [_ Ho]. rewrite Ho, Z.eqb_refl. reflexivity.
Qed.

Lemma find_addressed_none
    (table : list RecurringExpense) (rid u : Z) :
  (forall r, In r table -> re_id r = rid -> re_owner_id r <> u) ->
  find (addressed rid u) table = None.
Proof.
  intros H. destruct (find (addressed rid u) table) as [r |] eqn:Hf;
    [| reflexivity].
  apply find_some in Hf as [Hin Ha]. apply addressed_owner in Ha as [Hi Ho].
  exfalso. exact (H r Hin Hi Ho).
Qed.

(** X4: whatever a user requests (create, update, delete, any number of
    times), the recurring expenses of the other users stay exactly as they
    were, and the list any other user gets reads the same. *)
Theorem recurring_expenses_of_others_unchanged :
  forall (user_id : Z) (requests : list recurring_request)
         (table : list RecurringExpense),
    rows_of_others user_id (fold_left (serve_recurring user_id) requests table)
    = rows_of_others user_id table
    /\ forall other,
         other <> user_id ->
         get_recurring_expenses
           (fold_left (serve_recurring user_id) requests table) other
         = get_recurring_expenses table other.
Proof.
  intros user_id requests.
  assert (Hkeep : forall table,
            rows_of_others user_id
              (fold_left (serve_recurring user_id) requests table)
            = rows_of_others user_id table).
  { induction requests as [| r requests IH]; intros table; [reflexivity |].
    cbn [fold_left]. rewrite IH. apply serve_recurring_others. }
  intros table. split; [apply Hkeep |].
  intros other Hother.
  assert (Hsub : forall l : list RecurringExpense,
            get_recurring_expenses l other
            = get_recurring_expenses (rows_of_others user_id l) other).
  { intros l. unfold get_recurring_expenses, rows_of_others.
    rewrite filter_twice. apply filter_ext. intros r.
    destruct (Z.eqb_spec (re_owner_id r) other) as [-> | Hne].
    - replace (other =? user_id) with false
        by (symmetry; apply Z.eqb_neq; exact Hother).
      reflexivity.
    - symmetry. apply andb_false_r. }
  rewrite (Hsub (fold_left _ _ _)), (Hsub table), Hkeep. reflexivity.
Qed.

(** X5: a recurring expense owned by someone else is out of reach: get,
    update and delete with its id are answered with 404, and the table is
    left untouched. *)
Theorem foreign_recurring_expense_is_not_found
    (user_id recurring_id : Z) (table : list RecurringExpense)
    (expense_data : RecurringExpenseUpdate)
    (Hforeign : forall r, In r table -> re_id r = recurring_id ->
                          re_owner_id r <> user_id) :
  get_recurring_expense table recurring_id user_id
  = inl recurring_not_found
  /\ update_recurring_expense table recurring_id expense_data user_id
     = (inl recurring_not_found, table)
  /\ delete_recurring_expense table recurring_id user_id
     = (inl recurring_not_found, table)
  /\ status_code recurring_not_found = 404.
Proof.
  pose proof (find_addressed_none table recurring_id user_id Hforeign) as Hnone.
  unfold get_recurring_expense, update_recurring_expense,
    delete_recurring_expense.
  rewrite Hnone. repeat split.
Qed.

Lemma foreign_recurring_expense_is_not_found_witness :
  let gym := {| re_id := 2; re_owner_id := 7; re_amount := 30;
                re_category := HEALTH; re_description := Some "Gym"%string;
                re_frequency := WEEKLY; re_is_active := true;
                re_last_generated := None |} in
  let payload := {| ru_amount := Some 1%float; ru_category := None;
                    ru_description := None; ru_frequency := None;
                    ru_is_active := Some false |} in
  (forall r, In r [gym] -> re_id r = 2 -> re_owner_id r <> 8)
  /\ update_recurring_expense [gym] 2 payload 8
     = (inl recurring_not_found, [gym]).
Proof.
  cbv zeta.
  match goal with |- ?H /\ _ => assert (Hforeign : H) end.
  { intros r [<- | []] _. cbn. discriminate. }
  split; [exact Hforeign |].
  exact (proj1 (proj2 (foreign_recurring_expense_is_not_found 8 2 _
                         {| ru_amount := Some 1%float; ru_category := None;
                            ru_description := None; ru_frequency := None;
                            ru_is_active := Some false |} Hforeign))).
Defined.

Lemma delete_first_drops_id (table : list RecurringExpense) (rid u : Z)
    (r : RecurringExpense) :
  NoDup (map re_id table) ->
  find (addressed rid u) table = Some r ->
  forall x, In x (delete_first (addressed rid u) table) -> re_id x <> rid.
Proof.
  induction table as [| a table IH]; [discriminate |].
  cbn [map find delete_first]. intros Hnd. inversion_clear Hnd as [| ? ? Hnotin Hrest].
  destruct (addressed rid u a) eqn:Ha.
  - intros _ x Hx Hid. apply addressed_owner in Ha as [Hi _].
    apply Hnotin. rewrite Hi, <- Hid. apply in_map, Hx.
  - intros Hf x [<- | Hx].
    + intros Hid. apply (find_some _ _) in Hf as [Hin Hr].
      apply addressed_owner in Hr as [Hi _].
      apply Hnotin. rewrite Hid, <- Hi. apply in_map, Hin.
    + exact (IH Hrest Hf x Hx).
Qed.

(** X6: once its owner has deleted a recurring expense, the id is gone for
    every user (404 on get), the table is one row shorter, and every other
    id is answered as before (ids being unique, as the primary key makes
    them). *)
Theorem deleted_recurring_expense_is_gone
    (table : list RecurringExpense) (recurring_id user_id : Z)
    (recurring : RecurringExpense)
    (Hids : NoDup (map re_id table))
    (Hfound : find (addressed recurring_id user_id) table = Some recurring) :
  exists table',
    delete_recurring_expense table recurring_id user_id
    = (inr "Recurring expense deleted successfully"%string, table')
    /\ (forall u, get_recurring_expense table' recurring_id u
                  = inl recurring_not_found)
    /\ (List.length table' + 1 = List.length table)%nat
    /\ (forall rid u, rid <> recurring_id ->
          get_recurring_expense table' rid u
          = get_recurring_expense table rid u).
Proof.
  unfold delete_recurring_expense. rewrite Hfound. eexists.
  split; [reflexivity | split; [| split]].
  - intros u. unfold get_recurring_expense.
    rewrite find_addressed_none; [reflexivity |].
    intros x Hx Hid. exfalso.
    exact (delete_first_drops_id table recurring_id user_id recurring
             Hids Hfound x Hx Hid).
  - apply (delete_first_length _ _ recurring), Hfound.
  - intros rid u Hne. unfold get_recurring_expense.
    rewrite find_delete_first_other; [reflexivity |].
    intros x Hx. apply addressed_owner in Hx as [Hi _].
    unfold addressed. apply andb_false_iff. left. apply Z.eqb_neq. lia.
Qed.

Lemma deleted_recurring_expense_is_gone_witness :
  let rent := {| re_id := 1; re_owner_id := 7; re_amount := 900;
                 re_category := UTILITIES; re_description := Some "Rent"%string;
                 re_frequency := MONTHLY; re_is_active := true;
                 re_last_generated := None |} in
  let gym := {| re_id := 2; re_owner_id := 7; re_amount := 30;
                re_category := HEALTH; re_description := Some "Gym"%string;
                re_frequency := WEEKLY; re_is_active := true;
                re_last_generated := None |} in
  NoDup (map re_id [rent; gym])
  /\ find (addressed 2 7) [rent; gym] = Some gym
  /\ exists table',
       delete_recurring_expense [rent; gym] 2 7
       = (inr "Recurring expense deleted successfully"%string, table')
       /\ get_recurring_expense table' 2 7 = inl recurring_not_found.
Proof.
  cbv zeta.
  match goal with |- ?H /\ _ => assert (Hids : H) end.
  { cbn. repeat constructor; cbn; intuition discriminate. }
  split; [exact Hids | split; [reflexivity |]].
  destruct (deleted_recurring_expense_is_gone _ 2 7 _ Hids eq_refl)
    as (table' & Heq & Hgone & _).
  exists table'. split; [exact Heq | apply Hgone].
Defined.

End RecurringIsolation.

(* ================================================================== *)
(** * More on the budgets                                               *)
(* ================================================================== *)

Section Lookup.

Context {A : Type}.
Variables (p : A -> bool) (f : A -> A).

Lemma find_update_first (l : list A) :
  (forall x, p x = true -> p (f x) = true) ->
  find p (update_first p f l) = option_map f (find p l).
Proof.
  intros H. induction l as [| a l IH]; [reflexivity |].
  cbn [update_first find]. destruct (p a) eqn:Hp.
  - cbn [find]. rewrite (H a Hp). reflexivity.
  - cbn [find]. rewrite Hp. exact IH.
Qed.

Lemma find_update_first_other (q : A -> bool) (l : list A) :
  (forall x, p x = true -> q x = false /\ q (f x) = false) ->
  find q (update_first p f l) = find q l.
Proof.
  intros H. induction l as [| a l IH]; [reflexivity |].
  cbn [update_first]. destruct (p a) eqn:Hp.
  - destruct (H a Hp) as [H1 H2]. cbn [find]. rewrite H1, H2. reflexivity.
  - cbn [find]. rewrite IH. reflexivity.
Qed.

Lemma find_append_one (l : list A) (x : A) :
  find p l = None -> p x = true -> find p (l ++ [x]) = Some x.
Proof.
  intros Hn Hx. induction l as [| a l IH]; cbn [app find].
  - rewrite Hx. reflexivity.
  - cbn [find] in Hn. destruct (p a); [discriminate | exact (IH Hn)].
Qed.

Lemma find_append_other (q : A -> bool) (l : list A) (x : A) :
  q x = false -> find q (l ++ [x]) = find q l.
Proof.
  intros Hx. induction l as [| a l IH]; cbn [app find].
  - rewrite Hx. reflexivity.
  - destruct (q a); [reflexivity | exact IH].
Qed.

End Lookup.

Section BudgetRoundTrips.

Import Budgets.

Lemma matches_refl_key (b : Budget) :
  matches (owner_id b) (category b) b = true.
Proof. apply matches_key. reflexivity. Qed.

Lemma matches_other_pair (u u' : Z) (c c' : CategoryEnum) (b : Budget) :
  (u', c') <> (u, c) -> matches u c b = true -> matches u' c' b = false.
Proof.
  intros Hne Hm. apply matches_key in Hm.
  destruct (matches u' c' b) eqn:Hm'; [| reflexivity].
  apply matches_key in Hm'. congruence.
Qed.

(** X7: creating a budget for a pair (owner, category) that has none stores
    it as the newest row of the table with the submitted limit; from then on
    the pair looks up that row, the user's list holds it next to the rows it
    held before (in whatever order the database lists them), a second create
    for the pair is rejected with 400, and every other pair looks up what
    it did before. *)
Theorem created_budget_is_found
    (budgets : list Budget) (budget_data : BudgetCreate) (user_id : Z)
    (Hfree : find (matches user_id (bc_category budget_data)) budgets = None) :
  exists b,
    create_budget budgets budget_data user_id = (inr b, budgets ++ [b])
    /\ owner_id b = user_id
    /\ category b = bc_category budget_data
    /\ monthly_limit b = bc_monthly_limit budget_data
    /\ find (matches user_id (bc_category budget_data)) (budgets ++ [b])
       = Some b
    /\ Permutation (get_budgets (budgets ++ [b]) user_id)
                   (b :: get_budgets budgets user_id)
    /\ (forall again,
          bc_category again = bc_category budget_data ->
          exists exn,
            create_budget (budgets ++ [b]) again user_id
            = (inl exn, budgets ++ [b])
            /\ status_code exn = 400)
    /\ (forall u c,
          (u, c) <> (user_id, bc_category budget_data) ->
          find (matches u c) (budgets ++ [b]) = find (matches u c) budgets).
Proof.
  unfold create_budget. rewrite Hfree. eexists.
  split; [reflexivity |]. cbn [owner_id category monthly_limit].
  set (b := mk_Budget _ _ _ _).
  assert (Hb : matches user_id (bc_category budget_data) b = true)
    by (apply matches_key; reflexivity).
  assert (Hfound : find (matches user_id (bc_category budget_data))
                        (budgets ++ [b]) = Some b)
    by (apply find_append_one; assumption).
  repeat split.
  - exact Hfound.
  - unfold get_budgets. rewrite filter_app. cbn [filter owner_id b].
    rewrite Z.eqb_refl. symmetry. apply Permutation_cons_append.
  - intros again Hc. rewrite Hc, Hfound. eexists. split; reflexivity.
  - intros u c Hne. apply find_append_other.
    exact (matches_other_pair _ _ _ _ b Hne Hb).
Qed.

Lemma created_budget_is_found_witness :
  let food := {| id := 1; owner_id := 7; category := FOOD;
                 monthly_limit := 300 |} in
  let budget_data := {| bc_category := HEALTH; bc_monthly_limit := 80 |} in
  find (matches 7 (bc_category budget_data)) [food] = None
  /\ exists b,
       create_budget [food] budget_data 7 = (inr b, [food] ++ [b])
       /\ find (matches 7 HEALTH) ([food] ++ [b]) = Some b.
Proof.
  cbv zeta. split; [reflexivity |].
  destruct (created_budget_is_found
              [ {| id := 1; owner_id := 7; category := FOOD;
                   monthly_limit := 300 |} ]
              {| bc_category := HEALTH; bc_monthly_limit := 80 |} 7 eq_refl)
    as (b & Heq & _ & _ & _ & Hfound & _).
  exists b. split; [exact Heq | exact Hfound].
Defined.

(** X8: updating the budget of a pair (owner, category) changes its limit
    and nothing else: the same id, owner and category, the same position in
    the table; the pair then looks up the updated row, every other pair
    looks up what it did before, and the table keeps its length. *)
Theorem updated_budget_is_found
    (budgets : list Budget) (c : CategoryEnum) (budget_data : BudgetUpdate)
    (user_id : Z) (budget : Budget)
    (Hfound : find (matches user_id c) budgets = Some budget) :
  exists updated table,
    update_budget budgets c budget_data user_id = (inr updated, table)
    /\ monthly_limit updated = bu_monthly_limit budget_data
    /\ id updated = id budget
    /\ owner_id updated = user_id
    /\ category updated = c
    /\ find (matches user_id c) table = Some updated
    /\ List.length table = List.length budgets
    /\ (exists i, nth_error budgets i = Some budget
                  /\ nth_error table i = Some updated
                  /\ forall j, j <> i -> nth_error table j = nth_error budgets j)
    /\ (forall u c', (u, c') <> (user_id, c) ->
          find (matches u c') table = find (matches u c') budgets).
Proof.
  unfold update_budget. rewrite Hfound. do 2 eexists.
  split; [reflexivity |].
  pose proof (find_some _ _ Hfound) as [_ Hm].
  pose proof (proj1 (matches_key _ _ _) Hm) as Hk. injection Hk as Ho Hc.
  cbn [set_monthly_limit monthly_limit id owner_id category].
  repeat split; try assumption.
  - rewrite find_update_first, Hfound; [reflexivity |].
    intros x Hx. exact Hx.
  - apply update_first_length.
  - destruct (update_first_frame (matches user_id c)
                (set_monthly_limit (bu_monthly_limit budget_data))
                budgets budget Hfound) as (i & Hi & Hi' & Hframe & _).
    exists i. repeat split; assumption.
  - intros u c' Hne. apply find_update_first_other. intros x Hx.
    split; exact (matches_other_pair _ _ _ _ _ Hne Hx).
Qed.

Lemma updated_budget_is_found_witness :
  let food := {| id := 1; owner_id := 7; category := FOOD;
                 monthly_limit := 300 |} in
  find (matches 7 FOOD) [food] = Some food
  /\ exists updated table,
       update_budget [food] FOOD {| bu_monthly_limit := 350 |} 7
       = (inr updated, table)
       /\ monthly_limit updated = 350%float
       /\ find (matches 7 FOOD) table = Some updated.
Proof.
  cbv zeta. split; [reflexivity |].
  destruct (updated_budget_is_found
              [ {| id := 1; owner_id := 7; category := FOOD;
                   monthly_limit := 300 |} ]
              FOOD {| bu_monthly_limit := 350 |} 7 _ eq_refl)
    as (updated & table & Heq & Hlimit & _ & _ & _ & Hfound & _).
  exists updated, table. repeat split; assumption.
Defined.

Lemma find_delete_first_unique
    (budgets : list Budget) (u : Z) (c : CategoryEnum) :
  unique_owner_category budgets ->
  find (matches u c) (delete_first (matches u c) budgets) = None.
Proof.
  unfold unique_owner_category.
  induction budgets as [| a budgets IH]; intros Hu; [reflexivity |].
  cbn [map] in Hu. inversion_clear Hu as [| ? ? Hnotin Hrest].
  cbn [delete_first]. destruct (matches u c a) eqn:Ha.
  - destruct (find (matches u c) budgets) as [x |] eqn:Hf; [| reflexivity].
    exfalso. apply find_some in Hf as [Hin Hx].
    apply matches_key in Ha, Hx. apply Hnotin.
    rewrite Ha, <- Hx. apply in_map, Hin.
  - cbn [find]. rewrite Ha. exact (IH Hrest).
Qed.

(** X9: with (owner, category) unique, deleting the budget of a pair
    removes exactly one row; the pair then has no budget (update and delete
    answer 404), a new budget can be created for it, and every other pair
    looks up what it did before. *)
Theorem deleted_budget_is_gone
    (budgets : list Budget) (c : CategoryEnum) (user_id : Z) (budget : Budget)
    (Hunique : unique_owner_category budgets)
    (Hfound : find (matches user_id c) budgets = Some budget) :
  exists table,
    delete_budget budgets c user_id
    = (inr "Budget deleted successfully"%string, table)
    /\ (List.length table + 1 = List.length budgets)%nat
    /\ find (matches user_id c) table = None
    /\ (forall budget_data,
          update_budget table c budget_data user_id
          = (inl {| status_code := 404; detail := "Budget not found" |},
             table))
    /\ delete_budget table c user_id
       = (inl {| status_code := 404; detail := "Budget not found" |}, table)
    /\ (forall limit,
          exists b,
            create_budget table {| bc_category := c;
                                   bc_monthly_limit := limit |} user_id
            = (inr b, table ++ [b]))
    /\ (forall u c', (u, c') <> (user_id, c) ->
          find (matches u c') table = find (matches u c') budgets).
Proof.
  unfold delete_budget at 1. rewrite Hfound. eexists.
  split; [reflexivity |].
  pose proof (find_delete_first_unique budgets user_id c Hunique) as Hnone.
  split; [apply (delete_first_length _ _ budget), Hfound |].
  split; [exact Hnone |].
  split; [intros d; unfold update_budget; rewrite Hnone; reflexivity |].
  split; [unfold delete_budget; rewrite Hnone; reflexivity |].
  split.
  - intros limit. unfold create_budget. cbn [bc_category].
    rewrite Hnone. eexists. reflexivity.
  - intros u c' Hne. apply find_delete_first_other. intros x Hx.
    destruct (matches user_id c x) eqn:Hm; [| reflexivity].
    rewrite (matches_other_pair _ _ _ _ x Hne Hm) in Hx. discriminate.
Qed.

Lemma deleted_budget_is_gone_witness :
  let food := {| id := 1; owner_id := 7; category := FOOD;
                 monthly_limit := 300 |} in
  unique_owner_category [food]
  /\ find (matches 7 FOOD) [food] = Some food
  /\ exists table,
       delete_budget [food] FOOD 7
       = (inr "Budget deleted successfully"%string, table)
       /\ find (matches 7 FOOD) table = None.
Proof.
  cbv zeta.
  assert (Hu : unique_owner_category
                 [ {| id := 1; owner_id := 7; category := FOOD;
                      monthly_limit := 300 |} ])
    by (repeat constructor; intros []).
  split; [exact Hu | split; [reflexivity |]].
  destruct (deleted_budget_is_gone _ FOOD 7 _ Hu eq_refl)
    as (table & Heq & _ & Hnone & _).
  exists table. split; [exact Heq | exact Hnone].
Defined.

Lemma matches_owner (u : Z) (c : CategoryEnum) (b : Budget) :
  matches u c b = true -> owner_id b = u.
Proof. intros H. apply matches_key in H. injection H as H _. exact H. Qed.

Lemma serve_budget_others (budgets : list Budget) (r : request) :
  budgets_of_others (requester r) (serve budgets r)
  = budgets_of_others (requester r) budgets.
Proof.
  unfold budgets_of_others.
  destruct r as [u d | u c d | u c]; cbn [serve requester].
  - unfold create_budget. destruct (find _ budgets); cbn [snd]; [reflexivity |].
    apply filter_append_one. cbn [owner_id]. rewrite Z.eqb_refl. reflexivity.
  - unfold update_budget. destruct (find _ budgets); cbn [snd]; [| reflexivity].
    apply filter_update_first. intros x Hx. apply matches_owner in Hx.
    cbn [set_monthly_limit owner_id]. rewrite Hx, Z.eqb_refl.
    split; reflexivity.
  - unfold delete_budget. destruct (find _ budgets); cbn [snd]; [| reflexivity].
    apply filter_delete_first. intros x Hx. apply matches_owner in Hx.
    rewrite Hx, Z.eqb_refl. reflexivity.
Qed.

(** X10: a create, update or delete request for budgets never touches a
    budget of a user other than the requester; over any sequence of
    requests, the budgets of a user who sent none of them stay as they
    were, and that user's list reads the same. *)
Theorem budgets_of_others_unchanged
    (user_id : Z) (requests : list request) (budgets : list Budget)
    (Hothers : Forall (fun r => requester r <> user_id) requests) :
  get_budgets (fold_left serve requests budgets) user_id
  = get_budgets budgets user_id
  /\ forall r, budgets_of_others (requester r) (serve budgets r)
               = budgets_of_others (requester r) budgets.
Proof.
  split; [| intros r; apply serve_budget_others].
  revert budgets. induction Hothers as [| r requests Hr _ IH];
    intros budgets; [reflexivity |].
  cbn [fold_left]. rewrite IH.
  pose proof (serve_budget_others budgets r) as Hkeep.
  unfold budgets_of_others in Hkeep. unfold get_budgets.
  (* the requester's rows aside, the two tables agree; the user's rows are
     among those *)
  assert (Hsub : forall l : list Budget,
             filter (fun b => owner_id b =? user_id) l
             = filter (fun b => owner_id b =? user_id)
                      (filter (fun b => negb (owner_id b =? requester r)) l)).
  { intros l. rewrite filter_twice. apply filter_ext. intros b.
    destruct (Z.eqb_spec (owner_id b) user_id) as [-> | Hne].
    - replace (user_id =? requester r) with false
        by (symmetry; apply Z.eqb_neq; congruence).
      reflexivity.
    - symmetry. apply andb_false_r. }
  rewrite (Hsub (serve budgets r)), (Hsub budgets), Hkeep. reflexivity.
Qed.

Lemma budgets_of_others_unchanged_witness :
  let food := {| id := 1; owner_id := 7; category := FOOD;
                 monthly_limit := 300 |} in
  let requests := [ Delete 8 FOOD;
                    Create 8 {| bc_category := FOOD; bc_monthly_limit := 10 |} ] in
  Forall (fun r => requester r <> 7) requests
  /\ get_budgets (fold_left serve requests [food]) 7 = get_budgets [food] 7.
Proof.
  cbv zeta.
  match goal with |- ?H /\ _ => assert (Hothers : H) end.
  { repeat constructor; cbn; discriminate. }
  split; [exact Hothers |].
  exact (proj1 (budgets_of_others_unchanged 7 _ _ Hothers)).
Defined.

End BudgetRoundTrips.

(* ================================================================== *)
(** * More on the aggregator                                            *)
(* ================================================================== *)

Section Buckets.

Variables (db_expenses : list Expense) (user_id months : Z).
Variables (now start_date : datetime).
Hypothesis Hstart :
  dt_sub now (timedelta_days (30 * months)) = Some start_date.

Lemma window_start_ticks :
  ticks start_date = ticks now - 30 * months * US_PER_DAY.
Proof.
  rewrite (start_date_is_bucket_0 months now start_date Hstart).
  unfold bucket_start. change (ticks (mk_datetime ?x)) with x. ring.
Qed.

Lemma bucket_In (i : Z) (e : Expense) :
  In e (bucket db_expenses user_id now months i)
  <-> In e db_expenses /\ owner_id e = user_id
      /\ ticks start_date + 30 * US_PER_DAY * i <= ticks (date e)
         < ticks start_date + 30 * US_PER_DAY * (i + 1).
Proof.
  unfold bucket. rewrite filter_In, !andb_true_iff, Z.eqb_eq, Z.leb_le, Z.ltb_lt.
  rewrite window_start_ticks. unfold bucket_start.
  change (ticks (mk_datetime ?x)) with x.
  unfold US_PER_DAY, US_PER_HOUR, US_PER_SECOND.
  split.
  - intros (Hdb & (Ho & Hlo) & Hhi). repeat split; try assumption; lia.
  - intros (Hdb & Ho & Hlo & Hhi). repeat split; try assumption; lia.
Qed.

Lemma window_In (e : Expense) :
  In e (window db_expenses user_id start_date)
  <-> In e db_expenses /\ owner_id e = user_id
      /\ ticks start_date <= ticks (date e).
Proof.
  unfold window, in_window, dt_leb.
  rewrite filter_In, andb_true_iff, Z.eqb_eq, Z.leb_le. tauto.
Qed.

End Buckets.

(** X11: the 30-day buckets cut the part of the window before [now] into
    disjoint pieces: a queried expense dated before [now] lies in exactly
    one bucket, the one its distance from the window start selects; and
    every bucket holds only queried expenses dated before [now], so an
    expense dated [now] or later is counted in [total_spending] but in no
    bucket. *)
Theorem window_expense_in_one_bucket
    (db_expenses : list Expense) (user_id months : Z)
    (now start_date : datetime) (e : Expense)
    (Hstart : dt_sub now (timedelta_days (30 * months)) = Some start_date)
    (Hin : In e (window db_expenses user_id start_date))
    (Hpast : ticks (date e) < ticks now) :
  (let i := bucket_index start_date (date e) in
   0 <= i < months
   /\ In e (bucket db_expenses user_id now months i)
   /\ forall j, In e (bucket db_expenses user_id now months j) -> j = i)
  /\ (forall j e', 0 <= j < months ->
        In e' (bucket db_expenses user_id now months j) ->
        In e' (window db_expenses user_id start_date)
        /\ ticks (date e') < ticks now).
Proof.
  pose proof (window_start_ticks months now start_date Hstart) as Hs.
  split.
  - cbv zeta. apply (window_In db_expenses user_id start_date) in Hin.
    destruct Hin as (Hdb & Ho & Hlo).
    unfold bucket_index.
    split; [| split].
    + unfold US_PER_DAY, US_PER_HOUR, US_PER_SECOND in *.
      Z.div_mod_to_equations. lia.
    + apply (bucket_In db_expenses user_id months now start_date Hstart).
      split; [exact Hdb | split; [exact Ho |]].
      unfold US_PER_DAY, US_PER_HOUR, US_PER_SECOND in *.
      Z.div_mod_to_equations. lia.
    + intros j Hj.
      apply (bucket_In db_expenses user_id months now start_date Hstart) in Hj.
      destruct Hj as (_ & _ & Hj).
      unfold US_PER_DAY, US_PER_HOUR, US_PER_SECOND in *.
      Z.div_mod_to_equations. lia.
  - intros j e' Hj He'.
    apply (bucket_In db_expenses user_id months now start_date Hstart) in He'.
    destruct He' as (Hdb & Ho & Hb).
    split.
    + apply window_In. split; [exact Hdb | split; [exact Ho |]].
      unfold US_PER_DAY, US_PER_HOUR, US_PER_SECOND in *. lia.
    + unfold US_PER_DAY, US_PER_HOUR, US_PER_SECOND in *. lia.
Qed.

Lemma window_expense_in_one_bucket_witness :
  dt_sub Example.now (timedelta_days (30 * 12))
  = Some (datetime_of 2023 5 26 10 30 0 0)
  /\ In (Example.spent 1 FOOD 50)
        (window Example.two_halves 1 (datetime_of 2023 5 26 10 30 0 0))
  /\ ticks (date (Example.spent 1 FOOD 50)) < ticks Example.now
  /\ In (Example.spent 1 FOOD 50) (bucket Example.two_halves 1 Example.now 12 11).
Proof.
  assert (Hstart : dt_sub Example.now (timedelta_days (30 * 12))
                   = Some (datetime_of 2023 5 26 10 30 0 0))
    by (vm_compute; reflexivity).
  assert (Hin : In (Example.spent 1 FOOD 50)
                   (window Example.two_halves 1
                           (datetime_of 2023 5 26 10 30 0 0)))
    by (left; reflexivity).
  assert (Hpast : ticks (date (Example.spent 1 FOOD 50)) < ticks Example.now)
    by (vm_compute; reflexivity).
  split; [exact Hstart | split; [exact Hin | split; [exact Hpast |]]].
  exact (proj1 (proj2 (proj1 (window_expense_in_one_bucket
                                Example.two_halves 1 12 Example.now
                                (datetime_of 2023 5 26 10 30 0 0)
                                (Example.spent 1 FOOD 50)
                                Hstart Hin Hpast)))).
Defined.

Section Counts.

Lemma absent_category_is_empty (expenses : list Expense) (c : CategoryEnum) :
  existsb (fun e => CategoryEnum_eqb (category e) c) expenses = false ->
  of_category c expenses = [].
Proof.
  unfold of_category. induction expenses as [| e l IH]; [reflexivity |].
  cbn [existsb filter]. destruct (CategoryEnum_eqb (category e) c);
    [discriminate | exact IH].
Qed.

Lemma sum_over_filter (f : CategoryEnum -> Z) (keep : CategoryEnum -> bool)
    (l : list CategoryEnum) :
  (forall c, keep c = false -> f c = 0) ->
  fold_right Z.add 0 (map f (filter keep l)) = fold_right Z.add 0 (map f l).
Proof.
  intros H. induction l as [| c l IH]; [reflexivity |].
  cbn [filter map fold_right]. destruct (keep c) eqn:Hk.
  - cbn [map fold_right]. rewrite IH. reflexivity.
  - rewrite IH, (H c Hk). reflexivity.
Qed.

(** Every expense is in the list of exactly one category. *)
Lemma categories_cover (expenses : list Expense) :
  fold_right Z.add 0
    (map (fun c => Z.of_nat (List.length (of_category c expenses)))
         CategoryEnum_members)
  = Z.of_nat (List.length expenses).
Proof.
  induction expenses as [| e l IH]; [reflexivity |].
  unfold CategoryEnum_members, of_category in *.
  cbn [map fold_right filter List.length] in *.
  destruct (category e); cbn [CategoryEnum_eqb List.length]; lia.
Qed.

Lemma summary_rows_total_count (expenses : list Expense) (d : float) :
  total_count (summary_rows expenses d) = Z.of_nat (List.length expenses).
Proof.
  unfold total_count, summary_rows, categories_present.
  rewrite map_map. cbn [summary_row cs_count].
  rewrite sum_over_filter; [apply categories_cover |].
  intros c Hc. rewrite absent_category_is_empty by exact Hc. reflexivity.
Qed.

End Counts.

(** X12: the counts of a breakdown add up to the number of expenses it was
    computed from: those of [by_category] to the number of queried
    expenses, those of each monthly entry to the number of expenses in its
    bucket; no expense is counted twice or dropped. *)
Theorem breakdown_counts_add_up
    (db_expenses : list Expense) (user_id months : Z)
    (now start_date : datetime)
    (Hnow : valid_datetime now)
    (Hstart : dt_sub now (timedelta_days (30 * months)) = Some start_date) :
  exists s,
    get_analytics_summary db_expenses user_id months now = inr s
    /\ total_count (by_category s)
       = Z.of_nat (List.length (window db_expenses user_id start_date))
    /\ forall i, 0 <= i < months ->
         exists m,
           nth_error (monthly_trends s) (Z.to_nat i) = Some m
           /\ total_count (ms_by_category m)
              = Z.of_nat (List.length
                            (bucket db_expenses user_id now months i)).
Proof.
  eexists. split.
  - exact (get_analytics_summary_spec db_expenses user_id months now
             start_date Hnow Hstart).
  - cbv zeta. cbn [by_category monthly_trends]. split.
    + apply summary_rows_total_count.
    + intros i Hi. eexists. split.
      * rewrite nth_error_map, range_nth by exact Hi. reflexivity.
      * unfold trend_entry. cbn [ms_by_category].
        apply summary_rows_total_count.
Qed.

Lemma breakdown_counts_add_up_witness :
  valid_datetime Example.now
  /\ dt_sub Example.now (timedelta_days (30 * 12))
     = Some (datetime_of 2023 5 26 10 30 0 0)
  /\ exists s,
       get_analytics_summary Example.three_thirds 1 12 Example.now = inr s
       /\ total_count (by_category s) = 3.
Proof.
  assert (Hnow : valid_datetime Example.now)
    by (vm_compute; split; discriminate).
  assert (Hstart : dt_sub Example.now (timedelta_days (30 * 12))
                   = Some (datetime_of 2023 5 26 10 30 0 0))
    by (vm_compute; reflexivity).
  split; [exact Hnow | split; [exact Hstart |]].
  destruct (breakdown_counts_add_up Example.three_thirds 1 12 Example.now
              (datetime_of 2023 5 26 10 30 0 0) Hnow Hstart)
    as (s & Hs & Hcount & _).
  exists s. split; [exact Hs |]. rewrite Hcount. reflexivity.
Defined.

Section ByCategory.

Lemma category_dicts_spec
    (expenses : list Expense) (denominator : float)
    (members : list CategoryEnum) :
  category_dicts members (category_spending expenses) denominator
  = inr (map as_dict
           (map (summary_row expenses denominator)
                (filter (fun c => existsb
                           (fun e => CategoryEnum_eqb (category e) c) expenses)
                        members))).
Proof.
  induction members as [| c members IH]; [reflexivity |].
  cbn [category_dicts filter].
  rewrite category_spending_lookup.
  destruct (existsb _ expenses); [| exact IH].
  rewrite percentage_of_value, IH. reflexivity.
Qed.

Lemma window_covers_all
    (db_expenses : list Expense) (user_id : Z) (start_date : datetime) :
  (forall e, In e db_expenses -> owner_id e = user_id ->
             ticks start_date <= ticks (date e)) ->
  window db_expenses user_id start_date
  = filter (fun e => owner_id e =? user_id) db_expenses.
Proof.
  intros H. unfold window. apply filter_ext_in. intros e He.
  unfold in_window, dt_leb.
  destruct (Z.eqb_spec (owner_id e) user_id) as [Ho | Ho]; [| reflexivity].
  cbn [andb]. apply Z.leb_le, H; assumption.
Qed.

Lemma filter_Permutation {A : Type} (f : A -> bool) (l l' : list A) :
  Permutation l l' -> Permutation (filter f l) (filter f l').
Proof.
  induction 1 as [| x l l' _ IH | x y l | l l' l'' _ IH1 _ IH2].
  - apply perm_nil.
  - cbn [filter]. destruct (f x); [apply perm_skip |]; exact IH.
  - cbn [filter]. destruct (f y), (f x);
      try apply Permutation_refl. apply perm_swap.
  - exact (Permutation_trans IH1 IH2).
Qed.

Lemma categories_present_Permutation (l l' : list Expense) :
  Permutation l l' -> categories_present l = categories_present l'.
Proof.
  intros H. unfold categories_present. apply filter_ext. intros c.
  apply eq_true_iff_eq. rewrite !existsb_exists.
  split; intros (e & He & Hc); exists e; (split; [| exact Hc]).
  - exact (Permutation_in e H He).
  - exact (Permutation_in e (Permutation_sym H) He).
Qed.

Lemma of_category_count_Permutation (c : CategoryEnum) (l l' : list Expense) :
  Permutation l l' ->
  List.length (of_category c l) = List.length (of_category c l').
Proof.
  intros H. apply Permutation_length, filter_Permutation, H.
Qed.

End ByCategory.

(** X13: [get_by_category] never raises: its list is the breakdown of the
    user's expenses against their own total, each category written as its
    value, with the sums taken over the rows in the order its query returns
    them, and its total is their rounded sum.  When all of the user's
    expenses lie in the window of [get_analytics_summary], the two endpoints
    list the same categories with the same counts, in whatever orders the
    two queries return the rows. *)
Theorem by_category_endpoint_agrees_with_summary
    (db_expenses by_owner : list Expense) (user_id months : Z)
    (now start_date : datetime)
    (Hnow : valid_datetime now)
    (Hstart : dt_sub now (timedelta_days (30 * months)) = Some start_date)
    (Horder : Permutation db_expenses by_owner)
    (Hall : forall e, In e db_expenses -> owner_id e = user_id ->
                      ticks start_date <= ticks (date e)) :
  (forall db u,
     let expenses := filter (fun e => owner_id e =? u) db in
     let total_spend := py_sum (map amount expenses) in
     get_by_category db u
     = inr (map as_dict (summary_rows expenses total_spend),
            round2 total_spend))
  /\ exists s rows total,
       get_analytics_summary db_expenses user_id months now = inr s
       /\ get_by_category by_owner user_id = inr (rows, total)
       /\ map (fun d => (cd_category d, cd_count d)) rows
          = map (fun row => (Budgets.value (cs_category row), cs_count row))
                (by_category s).
Proof.
  assert (Hspec : forall db u,
            get_by_category db u
            = inr (map as_dict
                     (summary_rows
                        (filter (fun e => owner_id e =? u) db)
                        (py_sum (map amount
                                   (filter (fun e => owner_id e =? u) db)))),
                   round2 (py_sum (map amount
                                     (filter (fun e => owner_id e =? u) db))))).
  { intros db u. unfold get_by_category. cbv zeta.
    rewrite category_dicts_spec. reflexivity. }
  split; [exact Hspec |].
  eexists. do 2 eexists.
  split; [exact (get_analytics_summary_spec db_expenses user_id months now
                   start_date Hnow Hstart) |].
  split; [apply Hspec |].
  cbv zeta. cbn [by_category].
  rewrite (window_covers_all db_expenses user_id start_date Hall).
  assert (Hperm : Permutation
                    (filter (fun e => owner_id e =? user_id) by_owner)
                    (filter (fun e => owner_id e =? user_id) db_expenses))
    by (apply filter_Permutation, Permutation_sym, Horder).
  unfold summary_rows. rewrite !map_map.
  rewrite (categories_present_Permutation _ _ Hperm).
  apply map_ext. intros c. cbn [as_dict summary_row cd_category cd_count
                                cs_category cs_count].
  rewrite (of_category_count_Permutation c _ _ Hperm). reflexivity.
Qed.

Lemma by_category_endpoint_agrees_with_summary_witness :
  let by_owner := [Example.spent 2 TRANSPORT 50; Example.spent 1 FOOD 50] in
  valid_datetime Example.now
  /\ dt_sub Example.now (timedelta_days (30 * 12))
     = Some (datetime_of 2023 5 26 10 30 0 0)
  /\ Permutation Example.two_halves by_owner
  /\ (forall e, In e Example.two_halves -> owner_id e = 1 ->
                ticks (datetime_of 2023 5 26 10 30 0 0) <= ticks (date e))
  /\ exists s rows total,
       get_analytics_summary Example.two_halves 1 12 Example.now = inr s
       /\ get_by_category by_owner 1 = inr (rows, total)
       /\ map (fun d => (cd_category d, cd_count d)) rows
          = map (fun row => (Budgets.value (cs_category row), cs_count row))
                (by_category s).
Proof.
  cbv zeta.
  assert (Hnow : valid_datetime Example.now)
    by (vm_compute; split; discriminate).
  assert (Hstart : dt_sub Example.now (timedelta_days (30 * 12))
                   = Some (datetime_of 2023 5 26 10 30 0 0))
    by (vm_compute; reflexivity).
  assert (Horder : Permutation Example.two_halves
                     [Example.spent 2 TRANSPORT 50; Example.spent 1 FOOD 50])
    by apply perm_swap.
  assert (Hall : forall e, In e Example.two_halves -> owner_id e = 1 ->
                   ticks (datetime_of 2023 5 26 10 30 0 0) <= ticks (date e)).
  { intros e [<- | [<- | []]] _; vm_compute; discriminate. }
  split; [exact Hnow | split; [exact Hstart | split; [exact Horder |
    split; [exact Hall |]]]].
  exact (proj2 (by_category_endpoint_agrees_with_summary
                  Example.two_halves
                  [Example.spent 2 TRANSPORT 50; Example.spent 1 FOOD 50]
                  1 12 Example.now
                  (datetime_of 2023 5 26 10 30 0 0) Hnow Hstart Horder Hall)).
Defined.

Section ByMonth.

Lemma add_month_same (d : month_dict) (k : string) (a : float) :
  add_month d k a k = Some (get_month d k + a)%float.
Proof. unfold add_month, get_month. rewrite String.eqb_refl. reflexivity. Qed.

Lemma add_month_other (d : month_dict) (k k' : string) (a : float) :
  k' <> k -> add_month d k a k' = d k'.
Proof.
  intros Hne. unfold add_month.
  rewrite (proj2 (String.eqb_neq k' k) Hne). reflexivity.
Qed.

(** The dictionary after the loop, started from any dictionary [d]. *)
Lemma fill_month_lookup (k : string) (expenses : list Expense) :
  forall d : month_dict,
    get_month
      (fold_left (fun d e => add_month d (strftime_Y_m (date e)) (amount e))
                 expenses d) k
    = fold_left (fun acc x => (acc + x)%float)
                (map amount (of_month k expenses)) (get_month d k).
Proof.
  induction expenses as [| e expenses IH]; intros d; [reflexivity |].
  cbn [fold_left]. rewrite IH. unfold of_month. cbn [filter].
  destruct (String.eqb_spec (strftime_Y_m (date e)) k) as [<- | Hne].
  - cbn [map fold_left]. unfold get_month at 1. rewrite add_month_same.
    reflexivity.
  - unfold get_month at 1. rewrite add_month_other by congruence.
    reflexivity.
Qed.

Lemma monthly_data_lookup (expenses : list Expense) (k : string) :
  get_month (monthly_data expenses) k
  = py_sum (map amount (of_month k expenses)).
Proof. unfold monthly_data. rewrite fill_month_lookup. reflexivity. Qed.

End ByMonth.

(** X14: [get_by_month] returns one entry per bucket of
    [get_analytics_summary], with the same year-month labels in the same
    order; but the total of an entry is the sum, rounded to two decimals, of
    all queried expenses whose own date falls in the calendar month of the
    label, not of the expenses of the 30-day bucket. *)
Theorem by_month_groups_by_calendar_month
    (db_expenses : list Expense) (user_id months : Z)
    (now start_date : datetime)
    (Hnow : valid_datetime now)
    (Hstart : dt_sub now (timedelta_days (30 * months)) = Some start_date) :
  exists s rows,
    get_analytics_summary db_expenses user_id months now = inr s
    /\ get_by_month db_expenses user_id months now = inr rows
    /\ map fst rows = map ms_month (monthly_trends s)
    /\ List.length rows = Z.to_nat months
    /\ Forall
         (fun row =>
            snd row
            = round2 (py_sum (map amount
                (of_month (fst row)
                          (window db_expenses user_id start_date)))))
         rows.
Proof.
  do 2 eexists. split.
  - exact (get_analytics_summary_spec db_expenses user_id months now
             start_date Hnow Hstart).
  - unfold get_by_month. rewrite Hstart. cbn [lift_overflow ret bind].
    fold (window db_expenses user_id start_date).
    rewrite (for_each_spec _
               (fun i => (strftime_Y_m (bucket_start now months i),
                          round2 (py_sum (map amount
                            (of_month (strftime_Y_m (bucket_start now months i))
                               (window db_expenses user_id start_date))))))).
    + split; [reflexivity |]. cbv zeta. cbn [monthly_trends].
      rewrite !map_map. cbn [fst snd trend_entry ms_month].
      split; [reflexivity |].
      split; [rewrite length_map; unfold range;
              rewrite length_map, length_seq; reflexivity |].
      apply Forall_forall. intros row Hrow.
      apply in_map_iff in Hrow as (i & <- & _). reflexivity.
    + intros i Hi. apply in_range in Hi. unfold month_row.
      rewrite (month_start_is_bucket_start months now start_date Hnow Hstart)
        by lia.
      cbn [lift_overflow ret bind]. rewrite monthly_data_lookup. reflexivity.
Qed.

Lemma by_month_groups_by_calendar_month_witness :
  valid_datetime Example.now
  /\ dt_sub Example.now (timedelta_days (30 * 12))
     = Some (datetime_of 2023 5 26 10 30 0 0)
  /\ exists rows,
       get_by_month Example.two_halves 1 12 Example.now = inr rows
       /\ List.length rows = 12%nat.
Proof.
  assert (Hnow : valid_datetime Example.now)
    by (vm_compute; split; discriminate).
  assert (Hstart : dt_sub Example.now (timedelta_days (30 * 12))
                   = Some (datetime_of 2023 5 26 10 30 0 0))
    by (vm_compute; reflexivity).
  split; [exact Hnow | split; [exact Hstart |]].
  destruct (by_month_groups_by_calendar_month Example.two_halves 1 12
              Example.now (datetime_of 2023 5 26 10 30 0 0) Hnow Hstart)
    as (s & rows & _ & Hrows & _ & Hlen & _).
  exists rows. split; [exact Hrows | exact Hlen].
Defined.

(* ================================================================== *)
(** * The expenses                                                      *)
(* ================================================================== *)

Section NoFutureDates.

Lemma Forall_update_first {A : Type} (P : A -> Prop) (p : A -> bool)
    (f : A -> A) (l : list A) :
  Forall P l -> (forall x, P x -> P (f x)) -> Forall P (update_first p f l).
Proof.
  intros Hl Hf. induction Hl as [| a l Ha Hl IH]; [constructor |].
  cbn [update_first]. destruct (p a); constructor; auto.
Qed.

Lemma Forall_delete_first {A : Type} (P : A -> Prop) (p : A -> bool)
    (l : list A) :
  Forall P l -> Forall P (delete_first p l).
Proof.
  intros Hl. induction Hl as [| a l Ha Hl IH]; [constructor |].
  cbn [delete_first]. destruct (p a); [exact Hl | constructor; assumption].
Qed.

Lemma none_in_future_later (t now : datetime) (expenses : list Expense) :
  ticks t <= ticks now -> none_in_future t expenses ->
  none_in_future now expenses.
Proof.
  intros Ht H. unfold none_in_future in *.
  eapply Forall_impl; [| exact H]. cbv beta. intros e He. lia.
Qed.

Lemma generated_at_now (now : datetime) (due : list RecurringExpense)
    (new : list Expense) :
  Forall2 (materializes now) due new -> none_in_future now new.
Proof.
  intros H. unfold none_in_future.
  induction H as [| r e due new Hm _ IH]; constructor; [| exact IH].
  destruct Hm as (_ & _ & _ & -> & _). lia.
Qed.

Lemma serve_expense_none_in_future
    (now : datetime) (expenses : list Expense) (r : expense_request) :
  none_in_future now expenses ->
  none_in_future now (serve_expense now expenses r).
Proof.
  intros H. destruct r as [u d | u i d | u i | rows]; cbn [serve_expense].
  - unfold create_expense, replace_tzinfo_None.
    assert (Hsame : match tzinfo (ec_date d) with
                    | Some _ => wall (ec_date d)
                    | None => wall (ec_date d)
                    end = wall (ec_date d))
      by (destruct (tzinfo (ec_date d)); reflexivity).
    rewrite Hsame. unfold dt_ltb.
    destruct (Z.ltb_spec (ticks now) (ticks (wall (ec_date d)))) as [Hlt | Hle];
      cbn [snd]; [exact H |].
    apply Forall_app. split; [exact H |].
    constructor; [| constructor]. cbn [date]. exact Hle.
  - unfold update_expense.
    destruct (find _ expenses) as [expense |]; cbn [snd]; [| exact H].
    destruct (eu_date d) as [dt |]; cbn [snd].
    + unfold later_than. destruct (tzinfo dt); cbn [snd]; [exact H |].
      unfold dt_ltb.
      destruct (Z.ltb_spec (ticks now) (ticks (wall dt))) as [Hlt | Hle];
        cbn [snd]; [exact H |].
      apply Forall_update_first; [exact H |]. intros x _. cbn [set_date date].
      exact Hle.
    + apply Forall_update_first; [exact H |]. intros x Hx. exact Hx.
  - unfold delete_expense.
    destruct (find _ expenses); cbn [snd]; [| exact H].
    apply Forall_delete_first, H.
  - unfold process_recurring_expenses.
    destruct (process_rows_spec now rows expenses 0) as (new & -> & Hall).
    cbn [fst snd]. apply Forall_app. split; [exact H |].
    exact (generated_at_now now _ new Hall).
Qed.

(** X15: no stored expense is ever dated in the future.  If no expense is
    dated after [t0] and requests (create, update, delete, recurring pass)
    are served at times that never go back, then after all of them no
    expense is dated after the time of the last request. *)
Theorem expenses_never_dated_in_future
    (t0 : datetime) (expenses : list Expense)
    (requests : list (datetime * expense_request))
    (Hclock : clock_advances t0 requests)
    (Hpast : none_in_future t0 expenses) :
  none_in_future (last_time t0 requests) (serve_expenses expenses requests).
Proof.
  revert t0 expenses Hclock Hpast.
  induction requests as [| [now r] requests IH]; intros t0 expenses Hclock Hpast.
  - exact Hpast.
  - cbn [clock_advances] in Hclock. destruct Hclock as [Ht Hclock].
    cbn [last_time serve_expenses]. apply IH; [exact Hclock |].
    apply serve_expense_none_in_future.
    exact (none_in_future_later t0 now expenses Ht Hpast).
Qed.

Lemma expenses_never_dated_in_future_witness :
  let t0 := datetime_of 2024 5 1 0 0 0 0 in
  let lunch := {| ec_amount := 12; ec_category := FOOD;
                  ec_description := Some "Lunch"%string;
                  ec_date := mk_py_datetime (datetime_of 2024 5 2 9 0 0 0) None |} in
  let requests := [ (datetime_of 2024 5 2 12 0 0 0, CreateExpense 1 lunch);
                    (datetime_of 2024 5 3 8 0 0 0, DeleteExpense 1 5) ] in
  clock_advances t0 requests
  /\ none_in_future t0 []
  /\ none_in_future (datetime_of 2024 5 3 8 0 0 0) (serve_expenses [] requests).
Proof.
  cbv zeta.
  match goal with |- ?H /\ _ => assert (Hclock : H) end.
  { cbn [clock_advances]. repeat split; vm_compute; discriminate. }
  assert (Hpast : none_in_future (datetime_of 2024 5 1 0 0 0 0) [])
    by constructor.
  split; [exact Hclock | split; [exact Hpast |]].
  exact (expenses_never_dated_in_future _ _ _ Hclock Hpast).
Defined.

End NoFutureDates.

Section ExpenseUpdates.

Lemma owned_fields (i u : Z) (e : Expense) :
  owned i u e = true -> id e = i /\ owner_id e = u.
Proof. unfold owned. rewrite andb_true_iff, !Z.eqb_eq. tauto. Qed.

(** X16: a timezone-aware date is handled differently by the two writers.
    [update_expense] compares it with the naive clock, which raises
    [TypeError]: the request crashes and nothing is stored, whatever else
    was submitted.  [create_expense] strips the offset first: the same
    date, when its wall-clock reading is not after the clock, is accepted
    and stored by that reading. *)
Theorem aware_date_crashes_update_only
    (expenses : list Expense) (expense_id user_id : Z)
    (update_data : ExpenseUpdate) (create_data : ExpenseCreate)
    (expense : Expense) (d : py_datetime) (offset : timedelta)
    (now : datetime)
    (Hfound : find (owned expense_id user_id) expenses = Some expense)
    (Haware : tzinfo d = Some offset)
    (Hupdate : eu_date update_data = Some d)
    (Hcreate : ec_date create_data = d)
    (Hwall : ticks (wall d) <= ticks now) :
  update_expense expenses expense_id update_data user_id now
  = (Crashed TypeError, expenses)
  /\ exists e,
       create_expense expenses create_data user_id now
       = (Ok e, expenses ++ [e])
       /\ date e = wall d /\ owner_id e = user_id.
Proof.
  split.
  - unfold update_expense, later_than. rewrite Hfound, Hupdate, Haware.
    reflexivity.
  - unfold create_expense, replace_tzinfo_None. rewrite Hcreate, Haware.
    unfold dt_ltb.
    replace (ticks now <? ticks (wall d)) with false
      by (symmetry; apply Z.ltb_ge; exact Hwall).
    eexists. repeat split.
Qed.

Lemma aware_date_crashes_update_only_witness :
  let when := mk_py_datetime (datetime_of 2024 5 2 9 0 0 0)
                             (Some (timedelta_hours 2)) in
  let e := Example.spent 1 FOOD 50 in
  let update_data := {| eu_amount := None; eu_category := None;
                        eu_description := None; eu_date := Some when |} in
  find (owned 1 1) [e] = Some e
  /\ ticks (wall when) <= ticks Example.now
  /\ update_expense [e] 1 update_data 1 Example.now
     = (Crashed TypeError, [e]).
Proof.
  cbv zeta.
  assert (Hwall : ticks (wall (mk_py_datetime (datetime_of 2024 5 2 9 0 0 0)
                                              (Some (timedelta_hours 2))))
                  <= ticks Example.now)
    by (vm_compute; discriminate).
  split; [reflexivity | split; [exact Hwall |]].
  exact (proj1 (aware_date_crashes_update_only
                  [Example.spent 1 FOOD 50] 1 1
                  {| eu_amount := None; eu_category := None;
                     eu_description := None;
                     eu_date := Some (mk_py_datetime
                                        (datetime_of 2024 5 2 9 0 0 0)
                                        (Some (timedelta_hours 2))) |}
                  {| ec_amount := 1; ec_category := FOOD;
                     ec_description := None;
                     ec_date := mk_py_datetime (datetime_of 2024 5 2 9 0 0 0)
                                               (Some (timedelta_hours 2)) |}
                  (Example.spent 1 FOOD 50)
                  (mk_py_datetime (datetime_of 2024 5 2 9 0 0 0)
                                  (Some (timedelta_hours 2)))
                  (timedelta_hours 2) Example.now
                  eq_refl eq_refl eq_refl eq_refl Hwall)).
Defined.



End ExpenseUpdates.

Section ExpenseRoundTrip.



(** X19: the expense handlers of one user never touch the expenses of
    another: create, update and delete leave the rows of every other owner
    as they were, and the list a user gets holds that user's rows only. *)
Theorem expenses_of_others_unchanged :
  forall (user_id : Z) (expenses : list Expense) (now : datetime),
    (forall d, expenses_of_others user_id
                 (snd (create_expense expenses d user_id now))
               = expenses_of_others user_id expenses)
    /\ (forall i d, expenses_of_others user_id
                      (snd (update_expense expenses i d user_id now))
                    = expenses_of_others user_id expenses)
    /\ (forall i, expenses_of_others user_id
                    (snd (delete_expense expenses i user_id))
                  = expenses_of_others user_id expenses)
    /\ (forall s t c,
          Forall (fun e => owner_id e = user_id)
                 (items (get_expenses expenses user_id s t c))).
Proof.
  intros u expenses now. unfold expenses_of_others.
  split; [| split; [| split]].
  - intros d. unfold create_expense.
    destruct (dt_ltb now _); cbn [snd]; [reflexivity |].
    apply filter_append_one. cbn [owner_id]. rewrite Z.eqb_refl. reflexivity.
  - intros i d. unfold update_expense.
    destruct (find _ expenses); cbn [snd]; [| reflexivity].
    destruct (eu_date d) as [dt |]; cbn [snd].
    + destruct (later_than dt now) as [x | [|]]; cbn [snd]; try reflexivity.
      apply filter_update_first. intros x Hx.
      apply owned_fields in Hx as [_ Ho].
      cbn [set_date assign_fields owner_id]. rewrite Ho, Z.eqb_refl.
      split; reflexivity.
    + apply filter_update_first. intros x Hx.
      apply owned_fields in Hx as [_ Ho].
      cbn [assign_fields owner_id]. rewrite Ho, Z.eqb_refl.
      split; reflexivity.
  - intros i. unfold delete_expense.
    destruct (find _ expenses); cbn [snd]; [| reflexivity].
    apply filter_delete_first. intros x Hx.
    apply owned_fields in Hx as [_ Ho]. rewrite Ho, Z.eqb_refl. reflexivity.
  - intros s t c. unfold get_expenses. cbn [items].
    apply Forall_forall. intros e He. apply filter_In in He as [_ He].
    unfold selected in He. rewrite !andb_true_iff in He.
    destruct He as [[[Ho _] _] _]. apply Z.eqb_eq, Ho.
Qed.

(** X20: the date filters of [get_expenses] are inclusive on both ends, and
    a range that ends before it starts selects nothing: the answer is an
    empty list with total 0 and total amount 0, not an error. *)
Theorem empty_date_range_selects_nothing
    (db_expenses : list Expense) (user_id : Z)
    (start_date end_date : datetime) (c : option CategoryEnum)
    (Hcrossed : ticks end_date < ticks start_date) :
  get_expenses db_expenses user_id (Some start_date) (Some end_date) c
  = {| items := []; total := 0; total_amount := 0 |}
  /\ (forall s t e,
        In e (items (get_expenses db_expenses user_id (Some s) (Some t) None))
        <-> In e db_expenses /\ owner_id e = user_id
            /\ ticks s <= ticks (date e) <= ticks t)
  /\ (forall s t k,
        total (get_expenses db_expenses user_id s t k)
        = Z.of_nat (List.length
                      (items (get_expenses db_expenses user_id s t k)))).
Proof.
  split; [| split].
  - unfold get_expenses.
    assert (Hnone : filter (selected user_id (Some start_date)
                                     (Some end_date) c) db_expenses = []).
    { induction db_expenses as [| e l IH]; [reflexivity |].
      cbn [filter]. rewrite IH.
      replace (selected user_id (Some start_date) (Some end_date) c e)
        with false; [reflexivity |].
      symmetry. unfold selected, dt_leb.
      destruct (Z.leb_spec (ticks start_date) (ticks (date e)));
        destruct (Z.leb_spec (ticks (date e)) (ticks end_date));
        try lia; rewrite ?andb_false_r; cbn [andb]; rewrite ?andb_false_r;
        reflexivity. }
    rewrite Hnone. reflexivity.
  - intros s t e. unfold get_expenses, selected, dt_leb. cbn [items].
    rewrite filter_In, !andb_true_iff, Z.eqb_eq, !Z.leb_le. intuition.
  - intros s t k. reflexivity.
Qed.

Lemma empty_date_range_selects_nothing_witness :
  ticks (datetime_of 2024 5 1 0 0 0 0) < ticks (datetime_of 2024 5 3 0 0 0 0)
  /\ get_expenses Example.two_halves 1
       (Some (datetime_of 2024 5 3 0 0 0 0))
       (Some (datetime_of 2024 5 1 0 0 0 0)) None
     = {| items := []; total := 0; total_amount := 0 |}.
Proof.
  assert (H : ticks (datetime_of 2024 5 1 0 0 0 0)
              < ticks (datetime_of 2024 5 3 0 0 0 0))
    by (vm_compute; reflexivity).
  split; [exact H |].
  exact (proj1 (empty_date_range_selects_nothing Example.two_halves 1
                  (datetime_of 2024 5 3 0 0 0 0)
                  (datetime_of 2024 5 1 0 0 0 0) None H)).
Defined.

End ExpenseRoundTrip.

(* ================================================================== *)
(** * Token revocation                                                  *)
(* ================================================================== *)

Section Revocation.

Variable lib : library.

Lemma blacklisted_In (token_blacklist : list string) (token : string) :
  blacklisted token_blacklist token = true <-> In token token_blacklist.
Proof.
  unfold blacklisted. rewrite existsb_exists. split.
  - intros (x & Hx & Heq). apply String.eqb_eq in Heq. subst x. exact Hx.
  - intros H. exists token. split; [exact H | apply String.eqb_refl].
Qed.

Lemma verify_token_revoked (jwt_decode : decoder lib)
    (token_blacklist : list string) (token : string) :
  In token token_blacklist ->
  verify_token lib jwt_decode token_blacklist token = inl token_revoked.
Proof.
  intros H. unfold verify_token.
  rewrite (proj2 (blacklisted_In token_blacklist token) H). reflexivity.
Qed.

(** The header of an authenticated request splits into a scheme and a
    token that is not revoked and decodes. *)
Lemma authenticated_header (jwt_decode : decoder lib)
    (token_blacklist : list string) (authorization : option string)
    (user_id : Z) :
  get_current_user lib jwt_decode token_blacklist authorization = Ok user_id ->
  exists header scheme token p sub,
    authorization = Some header
    /\ header <> EmptyString
    /\ str_split lib header = [scheme; token]
    /\ str_lower lib scheme = "bearer"%string
    /\ ~ In token token_blacklist
    /\ jwt_decode token = Some p
    /\ payload_get_sub lib p = Some sub
    /\ int_of_str lib sub = Some user_id.
Proof.
  unfold get_current_user.
  destruct authorization as [[| a header] |]; try discriminate.
  destruct (str_split lib (String a header))
    as [| scheme [| token [| ? ?]]] eqn:Hsplit; try discriminate.
  destruct (String.eqb_spec (str_lower lib scheme) "bearer") as [Hs | Hs];
    cbn [negb]; [| discriminate].
  unfold verify_token.
  destruct (blacklisted token_blacklist token) eqn:Hb; [discriminate |].
  destruct (jwt_decode token) as [p |] eqn:Hp; [| discriminate].
  destruct (payload_get_sub lib p) as [sub |] eqn:Hsub; [| discriminate].
  destruct (int_of_str lib sub) as [n |] eqn:Hn; [| discriminate].
  intros [= <-].
  exists (String a header), scheme, token, p, sub.
  split; [reflexivity |]. split; [discriminate |].
  split; [exact Hsplit |]. split; [exact Hs |].
  split; [intros Hin; apply blacklisted_In in Hin; congruence |].
  split; [exact Hp |]. split; [exact Hsub | exact Hn].
Qed.

Lemma revoked_stays (token : string) (later : list string) :
  forall token_blacklist,
    In token token_blacklist ->
    In token (fold_left revoke_token later token_blacklist).
Proof.
  induction later as [| t later IH]; intros bl Hbl; [exact Hbl |].
  cbn [fold_left]. apply IH. right. exact Hbl.
Qed.

(** X21: logging out revokes the token of the request for good: the
    logout succeeds, and from then on every request with the same header is
    answered 401 "Token has been revoked", whatever the token decodes to
    and whichever other tokens are revoked later. *)
Theorem logout_revokes_the_token
    (jwt_decode : decoder lib) (token_blacklist : list string)
    (authorization : option string) (user_id : Z)
    (Hauth : get_current_user lib jwt_decode token_blacklist authorization
             = Ok user_id) :
  exists blacklist',
    logout lib jwt_decode token_blacklist authorization
    = (Ok "Logged out successfully"%string, blacklist')
    /\ forall (later_decode : decoder lib) (revoked_later : list string),
         get_current_user lib later_decode
           (fold_left revoke_token revoked_later blacklist') authorization
         = Refused token_revoked
         /\ fst (logout lib later_decode
                   (fold_left revoke_token revoked_later blacklist')
                   authorization)
            = Refused token_revoked.
Proof.
  destruct (authenticated_header _ _ _ _ Hauth)
    as (header & scheme & token & p & sub & -> & Hne & Hsplit & Hlower & _).
  unfold logout at 1. rewrite Hauth.
  destruct header as [| a header]; [contradiction |].
  rewrite Hsplit. cbn [nth_error]. eexists. split; [reflexivity |].
  intros later_decode revoked_later.
  assert (Hin : In token (fold_left revoke_token revoked_later
                                    (revoke_token token_blacklist token))).
  { apply revoked_stays. left. reflexivity. }
  assert (Hrefused : get_current_user lib later_decode
                       (fold_left revoke_token revoked_later
                                  (revoke_token token_blacklist token))
                       (Some (String a header))
                     = Refused token_revoked).
  { unfold get_current_user. rewrite Hsplit, Hlower. cbn [String.eqb negb].
    rewrite verify_token_revoked by exact Hin. reflexivity. }
  split; [exact Hrefused |].
  unfold logout. rewrite Hrefused. reflexivity.
Qed.

End Revocation.

Lemma logout_revokes_the_token_witness :
  get_current_user Toy.lib Toy.decode [] (Some "Bearer token"%string) = Ok 7
  /\ exists blacklist',
       logout Toy.lib Toy.decode [] (Some "Bearer token"%string)
       = (Ok "Logged out successfully"%string, blacklist')
       /\ get_current_user Toy.lib Toy.decode blacklist'
            (Some "Bearer token"%string)
          = Refused token_revoked.
Proof.
  assert (Hauth : get_current_user Toy.lib Toy.decode []
                    (Some "Bearer token"%string) = Ok 7) by reflexivity.
  split; [exact Hauth |].
  destruct (logout_revokes_the_token Toy.lib Toy.decode []
              (Some "Bearer token"%string) 7 Hauth)
    as (blacklist' & Hlogout & Hlater).
  exists blacklist'. split; [exact Hlogout |].
  exact (proj1 (Hlater Toy.decode [])).
Defined.

Section RevocationFrame.

Variable lib : library.

(** X22: revoking a token rejects that token and no other: the verdict on
    every other token is what it was before, and revoking a token twice is
    the same as revoking it once. *)
Theorem revoking_affects_one_token
    (jwt_decode : decoder lib) (token_blacklist : list string)
    (token other : string) (Hother : other <> token) :
  verify_token lib jwt_decode (revoke_token token_blacklist token) other
  = verify_token lib jwt_decode token_blacklist other
  /\ verify_token lib jwt_decode (revoke_token token_blacklist token) token
     = inl token_revoked
  /\ forall t,
       verify_token lib jwt_decode
         (revoke_token (revoke_token token_blacklist token) token) t
       = verify_token lib jwt_decode (revoke_token token_blacklist token) t.
Proof.
  split; [| split].
  - unfold verify_token, revoke_token, blacklisted. cbn [existsb].
    rewrite (proj2 (String.eqb_neq other token) Hother). reflexivity.
  - apply verify_token_revoked. left. reflexivity.
  - intros t. unfold verify_token, revoke_token, blacklisted. cbn [existsb].
    destruct (String.eqb t token); reflexivity.
Qed.

(** X23: a request is only ever attributed to a user when its header has
    exactly two parts, the first reading "bearer" in lower case, and the
    second a token that is not revoked and decodes to a payload whose
    "sub" reads as that user's id. *)
Theorem authentication_is_sound
    (jwt_decode : decoder lib) (token_blacklist : list string)
    (authorization : option string) (user_id : Z)
    (Hauth : get_current_user lib jwt_decode token_blacklist authorization
             = Ok user_id) :
  exists header scheme token p sub,
    authorization = Some header
    /\ header <> EmptyString
    /\ str_split lib header = [scheme; token]
    /\ str_lower lib scheme = "bearer"%string
    /\ ~ In token token_blacklist
    /\ jwt_decode token = Some p
    /\ payload_get_sub lib p = Some sub
    /\ int_of_str lib sub = Some user_id.
Proof. exact (authenticated_header lib _ _ _ _ Hauth). Qed.

End RevocationFrame.

Lemma revoking_affects_one_token_witness :
  "tok-b"%string <> "tok-a"%string
  /\ verify_token Toy.lib Toy.decode (revoke_token [] "tok-a") "tok-b"
     = verify_token Toy.lib Toy.decode [] "tok-b"
  /\ verify_token Toy.lib Toy.decode (revoke_token [] "tok-a") "tok-a"
     = inl token_revoked.
Proof.
  assert (Hother : "tok-b"%string <> "tok-a"%string) by discriminate.
  split; [exact Hother |].
  destruct (revoking_affects_one_token Toy.lib Toy.decode [] "tok-a" "tok-b"
              Hother) as (H1 & H2 & _).
  split; [exact H1 | exact H2].
Defined.

Lemma authentication_is_sound_witness :
  get_current_user Toy.lib Toy.decode [] (Some "Bearer token"%string) = Ok 7
  /\ exists header scheme token,
       str_split Toy.lib header = [scheme; token]
       /\ Toy.decode token = Some token.
Proof.
  assert (Hauth : get_current_user Toy.lib Toy.decode []
                    (Some "Bearer token"%string) = Ok 7) by reflexivity.
  split; [exact Hauth |].
  destruct (authentication_is_sound Toy.lib Toy.decode []
              (Some "Bearer token"%string) 7 Hauth)
    as (header & scheme & token & p & sub & _ & _ & Hsplit & _ & _ & Hp & Hsub & _).
  exists header, scheme, token. split; [exact Hsplit |].
  unfold Toy.decode in *. congruence.
Defined.

(* ================================================================== *)
(** * The users                                                         *)
(* ================================================================== *)

Section Users.

Variable lib : library.

Lemma fresh_id_above (ids : list Z) (x : Z) : In x ids -> x < fresh_id ids.
Proof.
  unfold fresh_id. induction ids as [| a ids IH]; [intros [] |].
  cbn [fold_right]. intros [-> | H]; [lia |]. specialize (IH H). lia.
Qed.

Lemma fresh_id_new (ids : list Z) : ~ In (fresh_id ids) ids.
Proof. intros H. apply fresh_id_above in H. lia. Qed.

Lemma find_email_none (users : list User) (email : string) :
  find (fun u => String.eqb (u_email u) email) users = None ->
  ~ In email (map u_email users).
Proof.
  intros Hnone Hin. apply in_map_iff in Hin as (u & Hu & Hin).
  pose proof (find_none _ _ Hnone u Hin) as Hf. cbv beta in Hf.
  rewrite Hu, String.eqb_refl in Hf. discriminate.
Qed.

Lemma NoDup_append_one {A : Type} (l : list A) (x : A) :
  NoDup l -> ~ In x l -> NoDup (l ++ [x]).
Proof.
  intros Hl Hx. apply NoDup_app; [exact Hl | |].
  - constructor; [intros [] | constructor].
  - intros a Ha [<- | []]. exact (Hx Ha).
Qed.

Lemma update_first_ids (p : User -> bool) (g : User -> User)
    (users : list User) :
  (forall u, u_id (g u) = u_id u) ->
  map u_id (update_first p g users) = map u_id users.
Proof.
  intros Hg. induction users as [| a users IH]; [reflexivity |].
  cbn [update_first]. destruct (p a); cbn [map]; [rewrite Hg |rewrite IH];
    reflexivity.
Qed.

Lemma update_first_emails_kept (p : User -> bool) (g : User -> User)
    (users : list User) :
  (forall u, u_email (g u) = u_email u) ->
  map u_email (update_first p g users) = map u_email users.
Proof.
  intros Hg. induction users as [| a users IH]; [reflexivity |].
  cbn [update_first]. destruct (p a); cbn [map]; [rewrite Hg |rewrite IH];
    reflexivity.
Qed.

Lemma update_first_emails_in (uid : Z) (g : User -> User) (email : string)
    (users : list User) (y : string) :
  (forall u, u_email (g u) = email) ->
  In y (map u_email (update_first (fun u => u_id u =? uid) g users)) ->
  In y (map u_email users) \/ y = email.
Proof.
  intros Hg. induction users as [| a users IH]; [intros [] |].
  cbn [update_first]. destruct (u_id a =? uid); cbn [map In].
  - rewrite Hg. intros [<- | H]; [right; reflexivity | left; right; exact H].
  - intros [<- | H]; [left; left; reflexivity |].
    destruct (IH H) as [H' | H']; [left; right; exact H' | right; exact H'].
Qed.

(** Giving the row of [uid] an email no other user has keeps the emails
    unique. *)
Lemma new_email_unique (uid : Z) (g : User -> User) (email : string)
    (users : list User) :
  (forall u, u_email (g u) = email) ->
  NoDup (map u_id users) -> NoDup (map u_email users) ->
  (forall u, In u users -> u_email u = email -> u_id u = uid) ->
  NoDup (map u_email (update_first (fun u => u_id u =? uid) g users)).
Proof.
  intros Hg. induction users as [| a users IH]; intros Hids Hemails Hfree;
    [constructor |].
  cbn [map] in Hids, Hemails.
  inversion_clear Hids as [| ? ? Hid_a Hids'].
  inversion_clear Hemails as [| ? ? Hemail_a Hemails'].
  cbn [update_first]. destruct (Z.eqb_spec (u_id a) uid) as [Ha | Ha];
    cbn [map].
  - rewrite Hg. constructor; [| exact Hemails'].
    intros Hin. apply in_map_iff in Hin as (x & Hx & Hin).
    apply Hid_a. rewrite Ha, <- (Hfree x (or_intror Hin) Hx).
    apply in_map, Hin.
  - constructor.
    + intros Hin.
      apply (update_first_emails_in uid g email users _ Hg) in Hin.
      destruct Hin as [Hin | Heq]; [exact (Hemail_a Hin) |].
      apply Ha. apply Hfree; [left; reflexivity | exact Heq].
    + apply IH; [exact Hids' | exact Hemails' |].
      intros u Hu. apply Hfree. right. exact Hu.
Qed.

Lemma serve_user_consistent (users : list User) (r : user_request) :
  users_consistent users -> users_consistent (serve_user lib users r).
Proof.
  intros [Hids Hemails]. destruct r as [salt d | uid d | salt uid d];
    cbn [serve_user].
  - unfold register_user.
    destruct (find _ users) eqn:Hf; cbn [snd]; [split; assumption |].
    split; rewrite map_app; cbn [map u_id u_email].
    + apply NoDup_append_one; [exact Hids | apply fresh_id_new].
    + apply NoDup_append_one; [exact Hemails |].
      exact (find_email_none users _ Hf).
  - unfold update_profile.
    destruct (find (fun u => u_id u =? uid) users); cbn [snd];
      [| split; assumption].
    destruct (up_email d) as [email |]; cbn [snd].
    + destruct (find _ users) eqn:Hf; cbn [snd]; [split; assumption |].
      split.
      * rewrite update_first_ids; [exact Hids | reflexivity].
      * apply (new_email_unique uid _ email);
          [reflexivity | exact Hids | exact Hemails |].
        intros x Hx He. pose proof (find_none _ _ Hf x Hx) as Hnone.
        cbv beta in Hnone. rewrite He, String.eqb_refl in Hnone.
        cbn [andb] in Hnone. apply negb_false_iff, Z.eqb_eq in Hnone.
        exact Hnone.
    + split.
      * rewrite update_first_ids; [exact Hids | reflexivity].
      * rewrite update_first_emails_kept; [exact Hemails | reflexivity].
  - unfold change_password.
    destruct (find (fun u => u_id u =? uid) users); cbn [snd];
      [| split; assumption].
    destruct (negb _); cbn [snd]; [split; assumption |].
    destruct (String.eqb _ _); cbn [snd]; [split; assumption |].
    split.
    + rewrite update_first_ids; [exact Hids | reflexivity].
    + rewrite update_first_emails_kept; [exact Hemails | reflexivity].
Qed.

Lemma serve_users_consistent (rs : list user_request) :
  forall users, users_consistent users ->
                users_consistent (fold_left (serve_user lib) rs users).
Proof.
  induction rs as [| r rs IH]; intros users H; [exact H |].
  cbn [fold_left]. apply IH, serve_user_consistent, H.
Qed.

(** X24: no two users ever share an email or an id.  Registering with an
    email that is taken is answered 400 and changes nothing; so is moving a
    profile to the email of another user; and every register, profile
    update and password change keeps ids and emails unique, from the empty
    table on. *)
Theorem emails_stay_unique
    (users : list User) (user_data : UserRegister) (salt : string)
    (Hconsistent : users_consistent users)
    (Htaken : In (ur_email user_data) (map u_email users)) :
  (exists exn,
     register_user lib salt users user_data = (Refused exn, users)
     /\ status_code exn = 400)
  /\ (forall user_id name other,
        In other users -> u_id other <> user_id ->
        In user_id (map u_id users) ->
        exists exn,
          update_profile users
            {| up_full_name := name; up_email := Some (u_email other) |}
            user_id
          = (Refused exn, users)
          /\ status_code exn = 400)
  /\ (forall requests,
        users_consistent (fold_left (serve_user lib) requests users))
  /\ (forall requests,
        users_consistent (fold_left (serve_user lib) requests [])).
Proof.
  split; [| split; [| split]].
  - unfold register_user.
    destruct (find _ users) eqn:Hf.
    + eexists. split; reflexivity.
    + exfalso. exact (find_email_none users _ Hf Htaken).
  - intros uid name other Hother Hne Hin. unfold update_profile.
    destruct (find (fun u => u_id u =? uid) users) eqn:Hu.
    + cbn [up_email].
      destruct (find (fun u => String.eqb (u_email u) (u_email other)
                               && negb (u_id u =? uid)) users) eqn:Hf.
      * eexists. split; reflexivity.
      * exfalso. pose proof (find_none _ _ Hf other Hother) as Hnone.
        cbv beta in Hnone. rewrite String.eqb_refl in Hnone.
        cbn [andb] in Hnone. apply negb_false_iff, Z.eqb_eq in Hnone.
        exact (Hne Hnone).
    + exfalso. apply in_map_iff in Hin as (x & Hx & Hin).
      pose proof (find_none _ _ Hu x Hin) as Hnone. cbv beta in Hnone.
      apply Z.eqb_neq in Hnone. exact (Hnone Hx).
  - intros requests. apply serve_users_consistent, Hconsistent.
  - intros requests. apply serve_users_consistent. split; constructor.
Qed.

End Users.

Lemma emails_stay_unique_witness :
  let ann := {| u_id := 1; u_email := "ann@example.com";
                u_hashed_password := "h1"; u_full_name := None |} in
  let user_data := {| ur_email := "ann@example.com";
                      ur_password := "Secret123"; ur_full_name := None |} in
  users_consistent [ann]
  /\ In (ur_email user_data) (map u_email [ann])
  /\ exists exn,
       register_user Toy.lib "salt" [ann] user_data = (Refused exn, [ann])
       /\ status_code exn = 400.
Proof.
  cbv zeta.
  match goal with |- ?H /\ _ => assert (Hc : H) end.
  { split; repeat constructor; intros []. }
  match goal with |- _ /\ ?H /\ _ => assert (Ht : H) end.
  { left. reflexivity. }
  split; [exact Hc | split; [exact Ht |]].
  exact (proj1 (emails_stay_unique Toy.lib _ _ "salt" Hc Ht)).
Defined.

(* ================================================================== *)
(** * Tokens issued at login                                            *)
(* ================================================================== *)

Section IssuedTokens.

Variable lib : library.
Variables (jwt_encode : encoder) (jwt_decode : decoder lib).
Variable expire_minutes : Z.

Lemma create_access_token_claims
    (sub : string) (type : option string) (delta : timedelta)
    (now : datetime) (token : string) :
  create_access_token jwt_encode expire_minutes sub type (Some delta) now
  = Some token ->
  exists expire,
    token = jwt_encode {| tc_sub := sub; tc_type := type; tc_exp := expire |}
    /\ ticks expire
       = ticks now
         + (if td_us delta =? 0 then expire_minutes * 60 * US_PER_SECOND
            else td_us delta).
Proof.
  unfold create_access_token.
  destruct (dt_add now _) as [expire |] eqn:Hadd; [| discriminate].
  intros [= <-]. exists expire. split; [reflexivity |].
  apply dt_add_ticks in Hadd. rewrite Hadd.
  destruct (td_us delta =? 0); reflexivity.
Qed.

Lemma issue_tokens_claims (user : User) (now : datetime) (tokens : Token) :
  issue_tokens lib jwt_encode expire_minutes user now = Ok tokens ->
  exists access_exp refresh_exp,
    access_token tokens
    = jwt_encode {| tc_sub := str_of_int lib (u_id user); tc_type := None;
                    tc_exp := access_exp |}
    /\ refresh_token tokens
       = jwt_encode {| tc_sub := str_of_int lib (u_id user);
                       tc_type := Some "refresh"%string;
                       tc_exp := refresh_exp |}
    /\ ticks access_exp = ticks now + expire_minutes * 60 * US_PER_SECOND
    /\ ticks refresh_exp = ticks now + 7 * US_PER_DAY
    /\ token_type tokens = "bearer"%string.
Proof.
  unfold issue_tokens.
  destruct (create_access_token _ _ _ None _ _) as [access |] eqn:Ha;
    [| discriminate].
  destruct (create_access_token _ _ _ (Some _) _ _) as [refresh |] eqn:Hr;
    [| discriminate].
  intros [= <-]. cbn [access_token refresh_token token_type].
  apply create_access_token_claims in Ha as (ea & -> & Hea).
  apply create_access_token_claims in Hr as (er & -> & Her).
  exists ea, er. split; [reflexivity | split; [reflexivity |]].
  split; [| split; [| reflexivity]].
  - rewrite Hea. unfold timedelta_minutes. cbn [td_us].
    destruct (expire_minutes * 60 * US_PER_SECOND =? 0); reflexivity.
  - rewrite Her. reflexivity.
Qed.

(** X25: both tokens issued at login carry the id of the user whose
    password was verified, and the refresh token authenticates requests
    exactly like the access token, only for longer: for a JWT library that
    decodes what it encoded until the expiry, a header "Bearer <token>"
    made from either token is attributed to that user, the access token
    until [ACCESS_TOKEN_EXPIRE_MINUTES] after login, the refresh token
    until 7 days after. *)
Theorem issued_tokens_authenticate
    (users : list User) (user_data : UserLogin) (now check_time : datetime)
    (tokens : Token) (token_blacklist : list string)
    (Hlogin : login lib jwt_encode expire_minutes users user_data now
              = Ok tokens)
    (Hdecode : forall c, ticks check_time < ticks (tc_exp c) ->
                 exists p, jwt_decode (jwt_encode c) = Some p
                           /\ payload_get_sub lib p = Some (tc_sub c))
    (Hint : forall u, In u users ->
              int_of_str lib (str_of_int lib (u_id u)) = Some (u_id u))
    (Hsplit : forall c,
                str_split lib (String.append "Bearer " (jwt_encode c))
                = ["Bearer"%string; jwt_encode c])
    (Hlower : str_lower lib "Bearer" = "bearer"%string)
    (Hfresh : forall t, In t token_blacklist ->
                t <> access_token tokens /\ t <> refresh_token tokens) :
  exists user,
    In user users
    /\ u_email user = ul_email user_data
    /\ pwd_verify lib (ul_password user_data) (u_hashed_password user) = true
    /\ (ticks check_time < ticks now + expire_minutes * 60 * US_PER_SECOND ->
        get_current_user lib jwt_decode token_blacklist
          (Some (String.append "Bearer " (access_token tokens)))
        = Ok (u_id user))
    /\ (ticks check_time < ticks now + 7 * US_PER_DAY ->
        get_current_user lib jwt_decode token_blacklist
          (Some (String.append "Bearer " (refresh_token tokens)))
        = Ok (u_id user)).
Proof.
  unfold login in Hlogin.
  destruct (find _ users) as [user |] eqn:Hfind; [| discriminate].
  destruct (pwd_verify lib _ _) eqn:Hpw; cbn [negb] in Hlogin;
    [| discriminate].
  apply find_some in Hfind as [Hin Hemail]. cbv beta in Hemail.
  apply String.eqb_eq in Hemail.
  destruct (issue_tokens_claims user now tokens Hlogin)
    as (ea & er & Ha & Hr & Hea & Her & _).
  exists user. split; [exact Hin | split; [exact Hemail | split; [exact Hpw |]]].
  assert (Hgo : forall c,
            ticks check_time < ticks (tc_exp c) ->
            tc_sub c = str_of_int lib (u_id user) ->
            ~ In (jwt_encode c) token_blacklist ->
            get_current_user lib jwt_decode token_blacklist
              (Some (String.append "Bearer " (jwt_encode c)))
            = Ok (u_id user)).
  { intros c Hexp Hsub Hnot.
    destruct (Hdecode c Hexp) as (p & Hp & Hpsub).
    unfold get_current_user. cbn [String.append].
    change (String "B" (String "e" (String "a" (String "r" (String "e"
              (String "r" (String " " (jwt_encode c))))))))
      with (String.append "Bearer " (jwt_encode c)).
    rewrite Hsplit, Hlower. cbn [String.eqb negb].
    unfold verify_token.
    destruct (blacklisted token_blacklist (jwt_encode c)) eqn:Hb.
    - exfalso. apply Hnot, blacklisted_In, Hb.
    - rewrite Hp, Hpsub, Hsub. rewrite (Hint user Hin). reflexivity. }
  split.
  - intros Htime. rewrite Ha. apply Hgo; cbn [tc_exp tc_sub].
    + lia.
    + reflexivity.
    + intros Hbl. rewrite <- Ha in Hbl.
      exact (proj1 (Hfresh _ Hbl) eq_refl).
  - intros Htime. rewrite Hr. apply Hgo; cbn [tc_exp tc_sub].
    + lia.
    + reflexivity.
    + intros Hbl. rewrite <- Hr in Hbl.
      exact (proj2 (Hfresh _ Hbl) eq_refl).
Qed.

End IssuedTokens.

Lemma substring_all (s : string) : substring 0 (String.length s) s = s.
Proof.
  induction s as [| a s IH]; [reflexivity |].
  cbn [String.length substring]. rewrite IH. reflexivity.
Qed.

Lemma toy_split (t : string) :
  str_split Toy.lib1 (String.append "Bearer " t) = ["Bearer"%string; t].
Proof.
  cbn [str_split Toy.lib1 String.append String.length].
  f_equal. f_equal.
  replace (S (S (S (S (S (S (S (String.length t))))))) - 7)%nat
    with (String.length t) by lia.
  cbn [substring]. apply substring_all.
Qed.

Lemma issued_tokens_authenticate_witness :
  let ann := {| u_id := 1; u_email := "ann@example.com";
                u_hashed_password := "saltSecret123"; u_full_name := None |} in
  let user_data := {| ul_email := "ann@example.com";
                      ul_password := "Secret123" |} in
  exists tokens,
    login Toy.lib1 Toy.encode1 30 [ann] user_data Example.now = Ok tokens
    /\ get_current_user Toy.lib1 Toy.decode1 []
         (Some (String.append "Bearer " (refresh_token tokens)))
       = Ok 1.
Proof.
  cbv zeta.
  set (ann := mk_User 1 "ann@example.com" "saltSecret123" None).
  set (user_data := mk_UserLogin "ann@example.com" "Secret123").
  set (tokens := mk_Token "1" "1" "bearer").
  assert (Hlogin : login Toy.lib1 Toy.encode1 30 [ann] user_data Example.now
                   = Ok tokens) by (vm_compute; reflexivity).
  assert (Hdecode : forall c, ticks Example.now < ticks (tc_exp c) ->
            exists p, Toy.decode1 (Toy.encode1 c) = Some p
                      /\ payload_get_sub Toy.lib1 p = Some (tc_sub c))
    by (intros c _; eexists; split; reflexivity).
  assert (Hint : forall u, In u [ann] ->
            int_of_str Toy.lib1 (str_of_int Toy.lib1 (u_id u)) = Some (u_id u))
    by (intros u [<- | []]; reflexivity).
  assert (Hsplit : forall c,
            str_split Toy.lib1 (String.append "Bearer " (Toy.encode1 c))
            = ["Bearer"%string; Toy.encode1 c])
    by (intros c; apply toy_split).
  assert (Hfresh : forall t, In t [] ->
            t <> access_token tokens /\ t <> refresh_token tokens)
    by (intros t []).
  exists tokens. split; [exact Hlogin |].
  destruct (issued_tokens_authenticate Toy.lib1 Toy.encode1 Toy.decode1 30
              [ann] user_data Example.now Example.now tokens []
              Hlogin Hdecode Hint Hsplit eq_refl Hfresh)
    as (user & Hin & _ & _ & _ & Hrefresh).
  destruct Hin as [<- | []].
  apply Hrefresh. vm_compute. reflexivity.
Defined.
